(** * Waste-management dashboard: the scoring engine of [Wastemanagement.py]

    A shallow embedding of the three domain functions of the dashboard
    ([days_to_deadline], [simulate], [mcda_score]), of the two places that
    call them ([timeline_rules], [render_ecodesign]) and of the arithmetic
    of the Python values they compute with.

    Python numbers are embedded as they are at run time: an [int] is an
    unbounded integer ([Z]); a [float] is an IEEE 754 binary64 value
    ([spec_float] at precision 53 and maximal exponent 1024, with the
    round-to-nearest-even operations of [SpecFloat]).  Exceptions are
    values of an error monad. *)

From Stdlib Require Import ZArith Lia Bool List String Ascii Sorting.Permutation.
From Stdlib Require Import Floats.SpecFloat.
From stdpp Require Import gmap strings.
Import ListNotations.

Open Scope Z_scope.

(** ** Exceptions and the error monad *)

Inductive exn : Type :=
| KeyError
| ValueError
| OverflowError
| ZeroDivisionError.

Inductive result (A : Type) : Type :=
| Ok (a : A)
| Raise (e : exn).

Arguments Ok {A} a.
Arguments Raise {A} e.

Definition bind {A B : Type} (c : result A) (k : A -> result B) : result B :=
  match c with
  | Ok a => k a
  | Raise e => Raise e
  end.

Notation "'let!' x ':=' c 'in' k" := (bind c (fun x => k))
  (at level 10, x name, c at level 100, k at level 200).

Definition returns {A : Type} (c : result A) : Prop := exists a, c = Ok a.

(** ** Python numbers *)

Module Py.

Definition prec : Z := 53.
Definition emax : Z := 1024.

Inductive num : Type :=
| Int (z : Z)
| Float (f : spec_float).

(** [float(z)] as the interpreter converts an [int] operand of a mixed
    operation: the nearest binary64 value, ties to even; an [int] that rounds
    beyond the largest finite value raises [OverflowError]. *)
Definition float_of_int (z : Z) : result spec_float :=
  match binary_normalize prec emax z 0 false with
  | S754_infinity _ => Raise OverflowError
  | f => Ok f
  end.

Definition to_float (a : num) : result spec_float :=
  match a with
  | Int z => float_of_int z
  | Float f => Ok f
  end.

(** Binary operators: [int] with [int] stays exact; any [float] operand
    makes the other one a [float] first. *)
Definition arith (zop : Z -> Z -> Z) (fop : spec_float -> spec_float -> spec_float)
    (a b : num) : result num :=
  match a, b with
  | Int x, Int y => Ok (Int (zop x y))
  | _, _ =>
      let! x := to_float a in
      let! y := to_float b in
      Ok (Float (fop x y))
  end.

Definition add : num -> num -> result num := arith Z.add (SFadd prec emax).
Definition sub : num -> num -> result num := arith Z.sub (SFsub prec emax).
Definition mul : num -> num -> result num := arith Z.mul (SFmul prec emax).

Definition is_zero (f : spec_float) : bool :=
  match f with
  | S754_zero _ => true
  | _ => false
  end.

(** The correctly rounded quotient of two integers, [y] not zero; a zero
    quotient takes the sign of the divisor. *)
Definition int_quotient (x y : Z) : spec_float :=
  match x with
  | 0 => S754_zero (y <? 0)
  | _ =>
      let '(q, e, l) := SFdiv_core_binary prec emax (Z.abs x) 0 (Z.abs y) 0 in
      binary_round_aux prec emax (xorb (x <? 0) (y <? 0)) q e l
  end.

(** True division [a / b]. *)
Definition truediv (a b : num) : result num :=
  match a, b with
  | Int x, Int y =>
      if y =? 0 then Raise ZeroDivisionError
      else match int_quotient x y with
           | S754_infinity _ => Raise OverflowError
           | f => Ok (Float f)
           end
  | _, _ =>
      let! x := to_float a in
      let! y := to_float b in
      if is_zero y then Raise ZeroDivisionError
      else Ok (Float (SFdiv prec emax x y))
  end.

(** Comparison of a [float] with an [int] is exact: the [int] is never
    rounded. *)
Definition compare_float_int (f : spec_float) (z : Z) : option comparison :=
  match f with
  | S754_nan => None
  | S754_infinity s => Some (if s then Lt else Gt)
  | S754_zero _ => Some (0 ?= z)
  | S754_finite s m e =>
      let v := if s then Z.neg m else Z.pos m in
      Some (if 0 <=? e then (v * 2 ^ e ?= z) else (v ?= z * 2 ^ (- e)))
  end.

Definition compare (a b : num) : option comparison :=
  match a, b with
  | Int x, Int y => Some (x ?= y)
  | Float f, Int y => compare_float_int f y
  | Int x, Float g => option_map CompOpp (compare_float_int g x)
  | Float f, Float g => SFcompare f g
  end.

Definition ltb (a b : num) : bool :=
  match compare a b with Some Lt => true | _ => false end.
Definition gtb (a b : num) : bool :=
  match compare a b with Some Gt => true | _ => false end.
Definition eqb (a b : num) : bool :=
  match compare a b with Some Eq => true | _ => false end.

(** [max(a, b)] and [min(a, b)] keep the first argument unless the second
    one is strictly greater (strictly smaller). *)
Definition max (a b : num) : num := if gtb b a then b else a.
Definition min (a b : num) : num := if ltb b a then b else a.

(** The integer nearest to [m / 2^k], ties to the even one. *)
Definition round_half_even (m : Z) (k : Z) : Z :=
  let q := m / 2 ^ k in
  let r := m mod 2 ^ k in
  match 2 * r ?= 2 ^ k with
  | Lt => q
  | Gt => q + 1
  | Eq => if Z.even q then q else q + 1
  end.

(** [round(x)] with no digits argument: an [int] is returned unchanged, a
    [float] becomes the nearest [int], ties to even; NaN and the infinities
    raise. *)
Definition round (a : num) : result num :=
  match a with
  | Int z => Ok (Int z)
  | Float S754_nan => Raise ValueError
  | Float (S754_infinity _) => Raise OverflowError
  | Float (S754_zero _) => Ok (Int 0)
  | Float (S754_finite s m e) =>
      let n := if 0 <=? e then Z.pos m * 2 ^ e else round_half_even (Z.pos m) (- e) in
      Ok (Int (if s then - n else n))
  end.

(** The float literals of the source, as the parser reads them (the nearest
    binary64 value). *)
Definition lit_0_8 : spec_float := S754_finite false 7205759403792794 (-53).
Definition lit_1_08 : spec_float := S754_finite false 4863887597560136 (-52).
Definition lit_0_02 : spec_float := S754_finite false 5764607523034235 (-58).
Definition lit_1_0 : spec_float := S754_finite false 4503599627370496 (-52).

End Py.

(** ** The what-if simulator *)

Record SimulationResult : Type := {
  complianceScore : Py.num;
  costDeltaPct : Py.num;
  availabilityRisk : Py.num;
  eprGapReduction : Py.num
}.

(** [simulate]: the dashboard calls it with the [int] values of its number
    inputs, and [base_cost_per_unit] is an [int] as its default is. *)
Definition simulate (material_from material_to : string)
    (recycled_pct lead_time_days : Z) (traceability : bool)
    (base_cost_per_unit : Z) : result SimulationResult :=
  let recycled_pct := Py.Int recycled_pct in
  let lead_time_days := Py.Int lead_time_days in
  let base_cost_per_unit := Py.Int base_cost_per_unit in
  let compliance_target := Py.Int 20 in
  let material_boost :=
    if String.eqb material_from "PVC" && String.eqb material_to "PET"
    then Py.Int 12 else Py.Int 4 in
  let! boosted := Py.add (Py.Int 60) material_boost in
  let! over := Py.sub recycled_pct compliance_target in
  let! raw_score := Py.add boosted (Py.max (Py.Int 0) over) in
  let compliance_score := Py.min (Py.Int 100) raw_score in

  let material_cost_factor :=
    if String.eqb material_to "PET" then Py.Float Py.lit_1_08 else Py.Float Py.lit_1_0 in
  let traceability_cost :=
    if traceability then Py.Float Py.lit_0_02 else Py.Int 0 in
  let! with_material := Py.mul base_cost_per_unit material_cost_factor in
  let! markup := Py.add (Py.Int 1) traceability_cost in
  let! new_cost := Py.mul with_material markup in
  let! delta := Py.sub new_cost base_cost_per_unit in
  let! ratio := Py.truediv delta base_cost_per_unit in
  let! pct := Py.mul ratio (Py.Int 100) in
  let! cost_delta_pct := Py.round pct in

  let base_risk := Py.Int 20 in
  let! late := Py.sub lead_time_days (Py.Int 10) in
  let! late2 := Py.mul late (Py.Int 2) in
  let lead_risk := Py.max (Py.Int 0) late2 in
  let! over' := Py.sub recycled_pct compliance_target in
  let! scarce := Py.mul over' (Py.Float Py.lit_0_8) in
  let recycled_risk := Py.max (Py.Int 0) scarce in
  let! risk1 := Py.add base_risk lead_risk in
  let! risk2 := Py.add risk1 recycled_risk in
  let availability_risk := Py.min (Py.Int 95) risk2 in

  let! over'' := Py.sub recycled_pct compliance_target in
  let! gap := Py.mul over'' (Py.Int 5) in
  let! epr_gap_reduction := Py.round gap in

  Ok {| complianceScore := compliance_score;
        costDeltaPct := cost_delta_pct;
        availabilityRisk := availability_risk;
        eprGapReduction := epr_gap_reduction |}.

(** The call with [base_cost_per_unit] left at its default. *)
Definition simulate_default (material_from material_to : string)
    (recycled_pct lead_time_days : Z) (traceability : bool) : result SimulationResult :=
  simulate material_from material_to recycled_pct lead_time_days traceability 10.

(** ** The MCDA scorer *)

(** A metrics bundle is a dict that is only read by key.  A weights bundle is
    a dict that is iterated, so its insertion order is kept: an association
    list whose keys are pairwise distinct. *)
Definition getitem (d : gmap string Py.num) (k : string) : result Py.num :=
  match d !! k with
  | Some v => Ok v
  | None => Raise KeyError
  end.

Fixpoint assoc (d : list (string * Py.num)) (k : string) : option Py.num :=
  match d with
  | [] => None
  | (k', v) :: rest => if String.eqb k' k then Some v else assoc rest k
  end.

Definition getitem_assoc (d : list (string * Py.num)) (k : string) : result Py.num :=
  match assoc d k with
  | Some v => Ok v
  | None => Raise KeyError
  end.

Definition keys (d : list (string * Py.num)) : list string := map fst d.

(** [sum] over a generator: the items are produced one at a time and added
    to the running total from the left, starting from the [int] 0.  (On runs
    of floats CPython 3.12 and later also carries a compensation term; it is
    zero whenever the partial sums are exact.) *)
Fixpoint sum_from (total : Py.num) (items : list (result Py.num)) : result Py.num :=
  match items with
  | [] => Ok total
  | item :: rest =>
      let! x := item in
      let! total' := Py.add total x in
      sum_from total' rest
  end.

Definition sum (items : list (result Py.num)) : result Py.num :=
  sum_from (Py.Int 0) items.

Definition mcda_score (metrics : gmap string Py.num)
    (weights : list (string * Py.num)) : result Py.num :=
  let! compliance := getitem metrics "compliance" in
  let! cost := getitem metrics "cost" in
  let! inverted := Py.sub (Py.Int 100) cost in
  let! availability := getitem metrics "availability" in
  let! recyclability := getitem metrics "recyclability" in
  let! traceability := getitem metrics "traceability" in
  let normalized : gmap string Py.num :=
    <["traceability" := traceability]>
      (<["recyclability" := recyclability]>
         (<["availability" := availability]>
            (<["cost" := inverted]>
               (<["compliance" := compliance]> ∅)))) in
  let! total :=
    sum (map (fun k =>
                let! n := getitem normalized k in
                let! w := getitem_assoc weights k in
                Py.mul n w)
             (keys weights)) in
  Py.round total.

Definition criteria : list string :=
  ["compliance"; "cost"; "availability"; "recyclability"; "traceability"]%string.

(** ** The deadline calculator *)

Record date : Type := { year : Z; month : Z; day : Z }.

(** The proleptic Gregorian day count of [datetime]. *)
Definition DAYS_IN_MONTH : list Z :=
  [-1; 31; 28; 31; 30; 31; 30; 31; 31; 30; 31; 30; 31].
Definition DAYS_BEFORE_MONTH : list Z :=
  [-1; 0; 31; 59; 90; 120; 151; 181; 212; 243; 273; 304; 334].

Definition is_leap (y : Z) : bool :=
  (y mod 4 =? 0) && (negb (y mod 100 =? 0) || (y mod 400 =? 0)).

Definition days_before_year (year : Z) : Z :=
  let y := year - 1 in
  y * 365 + y / 4 - y / 100 + y / 400.

Definition days_in_month (year month : Z) : Z :=
  if (month =? 2) && is_leap year then 29
  else nth (Z.to_nat month) DAYS_IN_MONTH 0.

Definition days_before_month (year month : Z) : Z :=
  nth (Z.to_nat month) DAYS_BEFORE_MONTH 0
  + (if (2 <? month) && is_leap year then 1 else 0).

Definition toordinal (d : date) : Z :=
  days_before_year (year d) + days_before_month (year d) (month d) + day d.

(** The field check of the [date] constructor. *)
Definition check_date_fields (y m d : Z) : result date :=
  if negb ((1 <=? y) && (y <=? 9999)) then Raise ValueError
  else if negb ((1 <=? m) && (m <=? 12)) then Raise ValueError
  else if negb ((1 <=? d) && (d <=? days_in_month y m)) then Raise ValueError
  else Ok {| year := y; month := m; day := d |}.

Definition valid_date (d : date) : Prop :=
  1 <= year d <= 9999 /\ 1 <= month d <= 12 /\
  1 <= day d <= days_in_month (year d) (month d).

(** [strptime] with the format ['%Y-%m-%d']: the format is compiled to the
    regular expression
    [(?P<Y>\d\d\d\d)-(?P<m>1[0-2]|0[1-9]|[1-9])-(?P<d>3[0-1]|[1-2]\d|0[1-9]|[1-9]| [1-9])],
    matched at the start of the text with the alternatives tried in the
    order written.  A text is a string of characters with code points below
    256, among which [\d] matches the ten ASCII digits only (the decimal
    digits of other scripts lie beyond). *)
Definition digit_of (c : ascii) : option Z :=
  let n := Z.of_N (N_of_ascii c) in
  if (48 <=? n) && (n <=? 57) then Some (n - 48) else None.

Definition digit_in (lo hi : Z) (c : ascii) : option Z :=
  match digit_of c with
  | Some n => if (lo <=? n) && (n <=? hi) then Some n else None
  | None => None
  end.

Definition directive_Y (s : string) : option (Z * string) :=
  match s with
  | String c1 (String c2 (String c3 (String c4 rest))) =>
      match digit_of c1, digit_of c2, digit_of c3, digit_of c4 with
      | Some d1, Some d2, Some d3, Some d4 =>
          Some (1000 * d1 + 100 * d2 + 10 * d3 + d4, rest)
      | _, _, _, _ => None
      end
  | _ => None
  end.

Definition literal (c : ascii) (s : string) : option string :=
  match s with
  | String c' rest => if Ascii.eqb c' c then Some rest else None
  | EmptyString => None
  end.

(** One alternative made of two character classes, or of one. *)
Definition two_chars (tens units : ascii -> option Z) (s : string)
    : list (Z * string) :=
  match s with
  | String c1 (String c2 rest) =>
      match tens c1, units c2 with
      | Some a, Some b => [(10 * a + b, rest)]
      | _, _ => []
      end
  | _ => []
  end.

Definition one_char (units : ascii -> option Z) (s : string) : list (Z * string) :=
  match s with
  | String c rest =>
      match units c with
      | Some a => [(a, rest)]
      | None => []
      end
  | EmptyString => []
  end.

Definition blank (c : ascii) : option Z :=
  if Ascii.eqb c " " then Some 0 else None.

(** The ways the group can match at the start of [s], first choice first,
    each with the number read and the text left. *)
Definition directive_m (s : string) : list (Z * string) :=
  two_chars (digit_in 1 1) (digit_in 0 2) s
  ++ two_chars (digit_in 0 0) (digit_in 1 9) s
  ++ one_char (digit_in 1 9) s.

Definition directive_d (s : string) : list (Z * string) :=
  two_chars (digit_in 3 3) (digit_in 0 1) s
  ++ two_chars (digit_in 1 2) (digit_in 0 9) s
  ++ two_chars (digit_in 0 0) (digit_in 1 9) s
  ++ one_char (digit_in 1 9) s
  ++ two_chars blank (digit_in 1 9) s.

(** Backtracking: the first choice with which the rest of the pattern
    matches. *)
Fixpoint first_match {A B : Type} (choices : list A) (k : A -> option B) : option B :=
  match choices with
  | [] => None
  | c :: rest =>
      match k c with
      | Some b => Some b
      | None => first_match rest k
      end
  end.

Definition match_format (s : string) : option (Z * Z * Z * string) :=
  '(y, s1) ← directive_Y s;
  s2 ← literal "-" s1;
  first_match (directive_m s2) (fun '(m, s3) =>
    s4 ← literal "-" s3;
    first_match (directive_d s4) (fun '(d, s5) => Some (y, m, d, s5))).

Definition strptime (data_string : string) : result date :=
  match match_format data_string with
  | None => Raise ValueError
  | Some (y, m, d, rest) =>
      match rest with
      | EmptyString => check_date_fields y m d
      | String _ _ => Raise ValueError
      end
  end.

(** [days_to_deadline], with the value of [date.today()] made explicit. *)
Definition days_to_deadline (today : date) (deadline_str : string) : result Py.num :=
  let! deadline := strptime deadline_str in
  Ok (Py.max (Py.Int 0) (Py.Int (toordinal deadline - toordinal today))).

(** The text of a date in the form YYYY-MM-DD, zero padded. *)
Definition digit_char (n : Z) : ascii := ascii_of_N (Z.to_N (48 + n)).

Definition pad2 (n : Z) : string :=
  String (digit_char (n / 10)) (String (digit_char (n mod 10)) EmptyString).

Definition pad4 (n : Z) : string :=
  String (digit_char (n / 1000))
    (String (digit_char (n / 100 mod 10)) (pad2 (n mod 100))).

Definition isoformat (d : date) : string :=
  (pad4 (year d) ++ "-" ++ pad2 (month d) ++ "-" ++ pad2 (day d))%string.

(** * Notions used in the statements *)

(** ** Floats: signs, values, literals *)

(** The sign carried by a float; NaN carries none. *)
Definition has_sign (s : bool) (f : spec_float) : Prop :=
  match f with
  | S754_zero s' | S754_infinity s' | S754_finite s' _ _ => s' = s
  | S754_nan => True
  end.

(** The float of sign [s] and magnitude [M * 2^e]. *)
Definition float_of_mag (s : bool) (M e : Z) : spec_float :=
  match M with
  | 0 => S754_zero s
  | Z.pos p => S754_finite s p e
  | Z.neg _ => S754_nan
  end.

(** The value of a float in units of [2^-scale] (zero for the values that
    are not finite); it is exact when the exponent is at least [-scale]. *)
Definition scaled (scale : Z) (f : spec_float) : Z :=
  match f with
  | S754_finite s m e => (if s then Z.neg m else Z.pos m) * 2 ^ (e + scale)
  | _ => 0
  end.

(** Floats that are finite and not negative, with a binary64 exponent. *)
Definition finite_nonneg (f : spec_float) : Prop :=
  match f with
  | S754_zero _ => True
  | S754_finite false _ e => -1074 <= e <= 971
  | _ => False
  end.

(** Numbers that are finite and not negative. *)
Definition nonneg (a : Py.num) : Prop :=
  match a with
  | Py.Int z => 0 <= z
  | Py.Float f => finite_nonneg f
  end.

(** The value of a finite number in units of [2^-1074], the smallest
    positive binary64 value: a whole number of them. *)
Definition units (a : Py.num) : Z :=
  match a with
  | Py.Int z => z * 2 ^ 1074
  | Py.Float f => scaled 1074 f
  end.

(** The same in units of [2^-1120], fine enough for the products by 100. *)
Definition fine_units (a : Py.num) : Z :=
  match a with
  | Py.Int z => z * 2 ^ 1120
  | Py.Float f => scaled 1120 f
  end.

(** The integer a number is, when it is an [int]. *)
Definition int_value (a : Py.num) : Z :=
  match a with
  | Py.Int z => z
  | Py.Float _ => 0
  end.

(** The floats 0.0, 0.15, 0.20, 0.25, 0.30, 0.5, 0.75, 48.0, 100.0, 1e308
    and -1e308, as the parser reads them. *)
Definition float_0 : spec_float := S754_zero false.
Definition float_0_15 : spec_float := S754_finite false 5404319552844595 (-55).
Definition float_0_20 : spec_float := S754_finite false 7205759403792794 (-55).
Definition float_quarter : spec_float := S754_finite false 4503599627370496 (-54).
Definition float_0_30 : spec_float := S754_finite false 5404319552844595 (-54).
Definition float_half : spec_float := S754_finite false 4503599627370496 (-53).
Definition float_three_quarters : spec_float := S754_finite false 6755399441055744 (-53).
Definition float_48 : spec_float := S754_finite false 6755399441055744 (-47).
Definition float_100 : spec_float := S754_finite false 7036874417766400 (-46).
Definition float_1e308 : spec_float := S754_finite false 5010420900022432 971.
Definition float_minus_1e308 : spec_float := S754_finite true 5010420900022432 971.

(** ** The simulator *)

(** The compliance boost of a substitution. *)
Definition material_boost (material_from material_to : string) : Z :=
  if String.eqb material_from "PVC" && String.eqb material_to "PET" then 12 else 4.

(** ** The scorer *)

(** A metrics bundle with the five criteria. *)
Definition has_criteria (metrics : gmap string Py.num) : Prop :=
  forall k, In k criteria -> is_Some (metrics !! k).

(** The inverted cost [100 - cost]. *)
Definition invert (cost : Py.num) : Py.num :=
  match cost with
  | Py.Int z => Py.Int (100 - z)
  | Py.Float g => Py.Float (SFsub Py.prec Py.emax float_100 g)
  end.

(** The normalized value of a criterion of a metrics bundle: the cost is
    inverted, the others are taken as they are. *)
Definition normalized_value (metrics : gmap string Py.num) (k : string) : Py.num :=
  let v := default (Py.Int 0) (metrics !! k) in
  if String.eqb k "cost" then invert v else v.

(** The weighted sum over the items of a weights bundle, in their order. *)
Definition weighted_sum (norm : string -> Py.num) (weights : list (string * Py.num))
    : result Py.num :=
  sum (map (fun '(k, w) => Py.mul (norm k) w) weights).

(** The sum of the weights of a bundle, in units of [2^-1074] and of
    [2^-1120]. *)
Definition sum_units (ws : list (string * Py.num)) : Z :=
  fold_right (fun '(_, w) acc => units w + acc) 0 ws.

Definition sum_fine_units (ws : list (string * Py.num)) : Z :=
  fold_right (fun '(_, w) acc => fine_units w + acc) 0 ws.

(** A metrics bundle whose five criteria are integers, and its normalized
    values. *)
Definition int_metrics (metrics : gmap string Py.num) : Prop :=
  forall k, In k criteria -> exists z, metrics !! k = Some (Py.Int z).

Definition normalized_int (metrics : gmap string Py.num) (k : string) : Z :=
  int_value (normalized_value metrics k).

(** A bundle of integers, as a bundle of numbers. *)
Definition int_bundle (ws : list (string * Z)) : list (string * Py.num) :=
  map (fun '(k, z) => (k, Py.Int z)) ws.


(** The exact weighted sum of a bundle of integers. *)
Definition int_weighted_sum (norm : string -> Z) (ws : list (string * Z)) : Z :=
  fold_right (fun '(k, z) acc => norm k * z + acc) 0 ws.

(** Bundles written out by criterion. *)
Definition bundle (compliance cost availability recyclability traceability : Py.num)
    : gmap string Py.num :=
  <["compliance" := compliance]>
    (<["cost" := cost]>
       (<["availability" := availability]>
          (<["recyclability" := recyclability]>
             (<["traceability" := traceability]> ∅)))).

Definition weights_bundle (compliance cost availability recyclability traceability : Py.num)
    : list (string * Py.num) :=
  [("compliance", compliance); ("cost", cost); ("availability", availability);
   ("recyclability", recyclability); ("traceability", traceability)]%string.

(** Every criterion at its best value. *)
Definition best_metrics : gmap string Py.num :=
  bundle (Py.Int 100) (Py.Int 0) (Py.Int 100) (Py.Int 100) (Py.Int 100).

(** Option A and the weights of the dashboard. *)
Definition option_A : gmap string Py.num :=
  bundle (Py.Int 72) (Py.Int 40) (Py.Int 70) (Py.Int 55) (Py.Int 50).

Definition dashboard_weights : list (string * Py.num) :=
  weights_bundle (Py.Float float_0_30) (Py.Float float_0_20) (Py.Float float_0_15)
    (Py.Float float_0_20) (Py.Float float_0_15).

(** Weights that cancel: 1e308, -1e308, 1.0, 0.0 and 0.0. *)
Definition cancelling_weights : list (string * Py.num) :=
  weights_bundle (Py.Float float_1e308) (Py.Float float_minus_1e308)
    (Py.Float Py.lit_1_0) (Py.Float float_0) (Py.Float float_0).

(** ** Dates and their texts *)

(** Dates compare as the tuples (year, month, day). *)
Definition date_lt (a b : date) : Prop :=
  year a < year b
  \/ (year a = year b
      /\ (month a < month b \/ (month a = month b /\ day a < day b))).

(** The texts [strptime] reads as a month or as a day: two digits, or one
    digit below ten, which for the day may follow a blank. *)
Definition one_digit (n : Z) : string := String (digit_char n) EmptyString.

Definition month_texts (m : Z) : list string :=
  if m <? 10 then [pad2 m; one_digit m] else [pad2 m].

Definition day_texts (d : Z) : list string :=
  if d <? 10 then [pad2 d; one_digit d; String " " (one_digit d)] else [pad2 d].

Definition renderings (d : date) : list string :=
  flat_map (fun mt =>
    map (fun dt => (pad4 (year d) ++ "-" ++ mt ++ "-" ++ dt)%string) (day_texts (day d)))
    (month_texts (month d)).

Definition today_2026_11_03 : date := {| year := 2026; month := 11; day := 3 |}.

(** The integers [lo], [lo + 1], ..., [lo + len - 1]. *)
Definition Zrange (lo : Z) (len : nat) : list Z :=
  map (fun i => lo + Z.of_nat i) (seq 0 len).


(** * The callers of the engine *)

(** ** The timeline of the regulatory feed *)

(** A rule of the feed is a dict whose values are texts (the titles and
    the materials, which are only displayed, are kept in their UTF-8
    encoding). *)
Definition getitem_text (d : gmap string string) (k : string) : result string :=
  match d !! k with
  | Some v => Ok v
  | None => Raise KeyError
  end.

Definition feed_rule (id title effective deadline severity material : string)
    : gmap string string :=
  <["id" := id]>
    (<["title" := title]>
       (<["effective" := effective]>
          (<["deadline" := deadline]>
             (<["severity" := severity]>
                (<["material" := material]> ∅))))).

Definition regulatory_feed : list (gmap string string) :=
  [ feed_rule "PWM-2025-13" "Plastic Waste Mgmt: ↑ Min recycled content to 20% by FY26"
      "2025-12-31" "2026-03-31" "high" "Plastic";
    feed_rule "EWR-2025-07" "E‑Waste Rules: Mandatory UID per device category"
      "2026-01-15" "2026-06-30" "medium" "E‑Waste";
    feed_rule "BWR-2025-02" "Battery Waste: Extended collection targets (+5%)"
      "2026-03-01" "2026-07-31" "high" "Battery";
    feed_rule "PWM-2025-15" "PVC label ban in food-contact packaging"
      "2026-02-28" "2026-05-31" "critical" "Plastic" ]%string.

Record TimelineRule : Type := { rule : string; daysToDeadline : Py.num }.

(** The comprehension
    [[{"rule": r["id"], "daysToDeadline": days_to_deadline(r["deadline"])} for r in feed]]:
    the entries are built in the order of the feed, and the first exception
    ends it. *)
Fixpoint timeline (today : date) (feed : list (gmap string string))
    : result (list TimelineRule) :=
  match feed with
  | [] => Ok []
  | r :: rest =>
      let! id := getitem_text r "id" in
      let! deadline := getitem_text r "deadline" in
      let! days := days_to_deadline today deadline in
      let! entries := timeline today rest in
      Ok ({| rule := id; daysToDeadline := days |} :: entries)
  end.

(** [timeline_rules], computed over [regulatory_feed] when the module is
    loaded. *)
Definition timeline_rules (today : date) : result (list TimelineRule) :=
  timeline today regulatory_feed.

(** ** The Eco-Design view *)

(** What [render_ecodesign] computes from the values of its five inputs
    (two material choices, two integer number inputs, the traceability
    choice): the simulation, Option B and the two scores it displays. *)
Record EcoDesign : Type := {
  sim : SimulationResult;
  optionB : gmap string Py.num;
  scoreA : Py.num;
  scoreB : Py.num
}.

Definition render_ecodesign (material_from material_to : string)
    (recycled_pct lead_time_days : Z) (traceability : bool) : result EcoDesign :=
  let! sim :=
    simulate_default material_from material_to recycled_pct lead_time_days traceability in
  let weights := dashboard_weights in
  let optionA := option_A in
  let! cost := Py.add (Py.Int 50) (costDeltaPct sim) in
  let! availability := Py.sub (Py.Int 100) (availabilityRisk sim) in
  let! over := Py.sub (Py.Int recycled_pct) (Py.Int 20) in
  let! twice := Py.mul over (Py.Int 2) in
  let! recyclability := Py.add (Py.Int 60) twice in
  let optionB :=
    bundle (complianceScore sim) (Py.min (Py.Int 100) cost) availability
      (Py.min (Py.Int 100) recyclability)
      (if traceability then Py.Int 85 else Py.Int 60) in
  let! scoreA := mcda_score optionA weights in
  let! scoreB := mcda_score optionB weights in
  Ok {| sim := sim; optionB := optionB; scoreA := scoreA; scoreB := scoreB |}.

(** ** Notions used in the further properties *)

(** The cost part of [simulate]. *)
Definition cost_delta_pct (material_to : string) (traceability : bool)
    (base_cost_per_unit : Z) : result Py.num :=
  let! with_material :=
    Py.mul (Py.Int base_cost_per_unit)
      (if String.eqb material_to "PET" then Py.Float Py.lit_1_08 else Py.Float Py.lit_1_0) in
  let! markup := Py.add (Py.Int 1) (if traceability then Py.Float Py.lit_0_02 else Py.Int 0) in
  let! new_cost := Py.mul with_material markup in
  let! delta := Py.sub new_cost (Py.Int base_cost_per_unit) in
  let! ratio := Py.truediv delta (Py.Int base_cost_per_unit) in
  let! pct := Py.mul ratio (Py.Int 100) in
  Py.round pct.

(** The integer value of a criterion of a metrics bundle. *)
Definition metric (metrics : gmap string Py.num) (k : string) : Z :=
  int_value (default (Py.Int 0) (metrics !! k)).

(** The value of a finite number in units of [2^-S]. *)
Definition value_at (S : Z) (a : Py.num) : Z :=
  match a with
  | Py.Int z => z * 2 ^ S
  | Py.Float f => scaled S f
  end.

(** Numbers between 0 and 100: finite, not negative, and at most 100. *)
Definition in_scale (a : Py.num) : Prop :=
  nonneg a /\ units a <= 100 * 2 ^ 1074.

(** The same up to the rounding of an inverted cost. *)
Definition bounded (a : Py.num) : Prop :=
  nonneg a /\ units a <= 100 * 2 ^ 1074 + 2 ^ 1040.

(** The float [mw * 2^ew] in units of [2^-55]. *)
Definition weight_units (mw : positive) (ew : Z) : Z := Z.pos mw * 2 ^ (ew + 55).

(** A rule of the feed that the timeline can read: it has an id, and a
    deadline that [strptime] reads. *)
Definition readable_rule (r : gmap string string) : Prop :=
  is_Some (r !! "id"%string)
  /\ exists s d, r !! "deadline"%string = Some s /\ strptime s = Ok d.

(** The entry of the timeline for a rule: its id, and the days left to the
    date its deadline is read as. *)
Definition entry_of (today : date) (r : gmap string string) (e : TimelineRule) : Prop :=
  r !! "id"%string = Some (rule e)
  /\ exists s d, r !! "deadline"%string = Some s /\ strptime s = Ok d
       /\ daysToDeadline e = Py.Int (Z.max 0 (toordinal d - toordinal today)).

(** A rule with the given id and deadline. *)
Definition sample_rule (id deadline : string) : gmap string string :=
  feed_rule id "A rule" "2026-01-01" deadline "high" "Plastic".

(** The deadlines of the feed of the repository. *)
Definition deadline_PWM_13 : date := {| year := 2026; month := 3; day := 31 |}.
Definition deadline_EWR_07 : date := {| year := 2026; month := 6; day := 30 |}.
Definition deadline_BWR_02 : date := {| year := 2026; month := 7; day := 31 |}.
Definition deadline_PWM_15 : date := {| year := 2026; month := 5; day := 31 |}.

Definition days_left (today deadline : date) : Py.num :=
  Py.Int (Z.max 0 (toordinal deadline - toordinal today)).
(** * Properties *)

(** ** The error monad *)

Lemma bind_Ok {A B : Type} (c : result A) (k : A -> result B) (b : B) :
  bind c k = Ok b -> exists a, c = Ok a /\ k a = Ok b.
Proof.
  destruct c as [a|e]; simpl; intros H.
  - exists a. split; [reflexivity | exact H].
  - discriminate H.
Qed.

Ltac bind_inv H :=
  let a := fresh "v" in
  let E := fresh "E" in
  apply bind_Ok in H; destruct H as (a & E & H).

(** ** The float literals *)

(** Each literal is the binary64 value nearest to its decimal text: the
    correctly rounded quotient of the two integers the text stands for. *)
Lemma float_literals :
  Py.truediv (Py.Int 8) (Py.Int 10) = Ok (Py.Float Py.lit_0_8)
  /\ Py.truediv (Py.Int 108) (Py.Int 100) = Ok (Py.Float Py.lit_1_08)
  /\ Py.truediv (Py.Int 2) (Py.Int 100) = Ok (Py.Float Py.lit_0_02)
  /\ Py.float_of_int 1 = Ok Py.lit_1_0
  /\ Py.float_of_int 48 = Ok float_48
  /\ Py.float_of_int 100 = Ok float_100
  /\ Py.truediv (Py.Int 30) (Py.Int 100) = Ok (Py.Float float_0_30)
  /\ Py.truediv (Py.Int 20) (Py.Int 100) = Ok (Py.Float float_0_20)
  /\ Py.truediv (Py.Int 15) (Py.Int 100) = Ok (Py.Float float_0_15)
  /\ Py.truediv (Py.Int 1) (Py.Int 4) = Ok (Py.Float float_quarter)
  /\ Py.truediv (Py.Int 1) (Py.Int 2) = Ok (Py.Float float_half)
  /\ Py.truediv (Py.Int 3) (Py.Int 4) = Ok (Py.Float float_three_quarters)
  /\ Py.float_of_int (10 ^ 308) = Ok float_1e308
  /\ Py.float_of_int (- 10 ^ 308) = Ok float_minus_1e308.
Proof.
  repeat split; vm_compute; reflexivity.
Qed.

(** ** Python comparisons, [max] and [min] *)

Module PyFacts.

Lemma max_int (a b : Z) : Py.max (Py.Int a) (Py.Int b) = Py.Int (Z.max a b).
Proof.
  unfold Py.max, Py.gtb, Py.compare, Z.max.
  rewrite (Z.compare_antisym a b).
  destruct (a ?= b); reflexivity.
Qed.

Lemma min_int (a b : Z) : Py.min (Py.Int a) (Py.Int b) = Py.Int (Z.min a b).
Proof.
  unfold Py.min, Py.ltb, Py.compare, Z.min.
  rewrite (Z.compare_antisym a b).
  destruct (a ?= b); reflexivity.
Qed.

Lemma add_int (a b : Z) : Py.add (Py.Int a) (Py.Int b) = Ok (Py.Int (a + b)).
Proof. reflexivity. Qed.

Lemma sub_int (a b : Z) : Py.sub (Py.Int a) (Py.Int b) = Ok (Py.Int (a - b)).
Proof. reflexivity. Qed.

Lemma mul_int (a b : Z) : Py.mul (Py.Int a) (Py.Int b) = Ok (Py.Int (a * b)).
Proof. reflexivity. Qed.




(** Either argument of [min] is what comes back. *)
Lemma min_cases (a b : Py.num) :
  (Py.min a b = b /\ Py.ltb b a = true) \/ (Py.min a b = a /\ Py.ltb b a = false).
Proof.
  unfold Py.min. destruct (Py.ltb b a); auto.
Qed.

Lemma max_cases (a b : Py.num) :
  (Py.max a b = b /\ Py.gtb b a = true) \/ (Py.max a b = a /\ Py.gtb b a = false).
Proof.
  unfold Py.max. destruct (Py.gtb b a); auto.
Qed.

(** *** Signs of rounded results *)

Lemma binary_round_aux_sign (s : bool) (m e : Z) (l : location) :
  has_sign s (binary_round_aux Py.prec Py.emax s m e l).
Proof.
  unfold binary_round_aux.
  destruct (shr_fexp Py.prec Py.emax m e l) as [mrs' e'].
  destruct (shr_fexp Py.prec Py.emax _ e' loc_Exact) as [mrs'' e''].
  destruct (shr_m mrs''); simpl; trivial.
  destruct (e'' <=? Py.emax - Py.prec); simpl; reflexivity.
Qed.

Lemma binary_round_sign (s : bool) (m : positive) (e : Z) :
  has_sign s (binary_round Py.prec Py.emax s m e).
Proof.
  unfold binary_round.
  destruct (shl_align m e _) as [mz ez].
  apply binary_round_aux_sign.
Qed.

Lemma binary_normalize_sign (z e : Z) :
  has_sign (z <? 0) (binary_normalize Py.prec Py.emax z e false).
Proof.
  destruct z; simpl; [reflexivity | apply binary_round_sign ..].
Qed.

Lemma float_of_int_sign (z : Z) (f : spec_float) :
  Py.float_of_int z = Ok f -> has_sign (z <? 0) f.
Proof.
  unfold Py.float_of_int. intros H.
  pose proof (binary_normalize_sign z 0) as S.
  destruct (binary_normalize Py.prec Py.emax z 0 false); inversion H; subst; exact S.
Qed.


End PyFacts.

(** ** The simulator *)

Lemma material_boost_cases (mf mt : string) :
  material_boost mf mt = 12 \/ material_boost mf mt = 4.
Proof.
  unfold material_boost. destruct (_ && _); auto.
Qed.

(** What a returned result is made of: the compliance score and the EPR
    figure are exact integers, the availability risk is [min(95, _)] of a
    sum that may be a float. *)
Lemma simulate_Ok (mf mt : string) (r l : Z) (t : bool) (b : Z) (res : SimulationResult) :
  simulate mf mt r l t b = Ok res ->
  complianceScore res = Py.Int (Z.min 100 (60 + material_boost mf mt + Z.max 0 (r - 20)))
  /\ eprGapReduction res = Py.Int ((r - 20) * 5)
  /\ exists scarce risk2,
       Py.mul (Py.Int (r - 20)) (Py.Float Py.lit_0_8) = Ok scarce
       /\ Py.add (Py.Int (20 + Z.max 0 ((l - 10) * 2))) (Py.max (Py.Int 0) scarce) = Ok risk2
       /\ availabilityRisk res = Py.min (Py.Int 95) risk2.
Proof.
  unfold simulate. fold (material_boost mf mt). intros H.
  assert (B : (if String.eqb mf "PVC" && String.eqb mt "PET" then Py.Int 12 else Py.Int 4)
              = Py.Int (material_boost mf mt))
    by (unfold material_boost; destruct (_ && _); reflexivity).
  rewrite B in H. clear B.
  repeat first
    [ rewrite PyFacts.add_int in H | rewrite PyFacts.sub_int in H
    | rewrite PyFacts.mul_int in H | rewrite PyFacts.max_int in H
    | rewrite PyFacts.min_int in H | progress cbn [bind Py.round] in H
    | bind_inv H ].
  inversion H; subst; clear H; cbn [complianceScore eprGapReduction availabilityRisk].
  split; [reflexivity | split; [reflexivity |]]. eauto.
Qed.


Lemma SFmul_lit_nonpos (x : spec_float) :
  has_sign true x ->
  has_sign true (SFmul Py.prec Py.emax x Py.lit_0_8).
Proof.
  destruct x as [sx|sx| |sx mx ex]; simpl; intros; subst; simpl; trivial.
  apply (PyFacts.binary_round_aux_sign true).
Qed.

Lemma nonpos_float_not_gt_0 (f : spec_float) :
  has_sign true f -> Py.gtb (Py.Float f) (Py.Int 0) = false.
Proof.
  unfold Py.gtb, Py.compare, Py.compare_float_int.
  destruct f as [s|s| |s m e]; simpl; intros; subst; try reflexivity.
  destruct (0 <=? e) eqn:He; [|reflexivity].
  apply Z.leb_le in He.
  assert (C : (Z.neg m * 2 ^ e ?= 0) = Lt).
  { apply Z.compare_lt_iff. pose proof (Z.pow_pos_nonneg 2 e ltac:(lia) He). nia. }
  rewrite C. reflexivity.
Qed.


(** The scarcity term is dropped by [max(0, _)] when the recycled content is
    not above the target. *)
Lemma scarce_dropped (r : Z) (scarce : Py.num) :
  r <= 20 ->
  Py.mul (Py.Int (r - 20)) (Py.Float Py.lit_0_8) = Ok scarce ->
  Py.max (Py.Int 0) scarce = Py.Int 0.
Proof.
  intros Hr H. unfold Py.mul, Py.arith in H.
  bind_inv H. cbn [Py.to_float bind] in H. inversion H; subst; clear H.
  cbn [Py.to_float] in E.
  unfold Py.max.
  assert (G : Py.gtb (Py.Float (SFmul Py.prec Py.emax v Py.lit_0_8)) (Py.Int 0) = false).
  { destruct (Z.eq_dec r 20) as [->|Hne].
    - vm_compute in E. inversion E; subst. reflexivity.
    - apply nonpos_float_not_gt_0, SFmul_lit_nonpos.
      apply PyFacts.float_of_int_sign in E.
      assert (L : (r - 20 <? 0) = true) by (apply Z.ltb_lt; lia).
      rewrite L in E. exact E. }
  rewrite G. reflexivity.
Qed.


(** ** Rounding to binary64 *)

Module Rounding.

Lemma digits_bounds (m : positive) :
  2 ^ (Z.pos (digits2_pos m) - 1) <= Z.pos m < 2 ^ Z.pos (digits2_pos m).
Proof.
  induction m as [m IH|m IH|]; cbn [digits2_pos].
  - rewrite Pos2Z.inj_succ.
    replace (Z.succ (Z.pos (digits2_pos m)) - 1) with (Z.succ (Z.pos (digits2_pos m) - 1)) by lia.
    rewrite !Z.pow_succ_r by lia. lia.
  - rewrite Pos2Z.inj_succ.
    replace (Z.succ (Z.pos (digits2_pos m)) - 1) with (Z.succ (Z.pos (digits2_pos m) - 1)) by lia.
    rewrite !Z.pow_succ_r by lia. lia.
  - simpl. lia.
Qed.

Lemma shr_1_m (mrs : shr_record) :
  0 <= shr_m mrs -> shr_m (shr_1 mrs) = shr_m mrs / 2.
Proof.
  destruct mrs as [m r s]. cbn [shr_m]. intros Hm.
  destruct m as [|[p|p|]|p]; cbn [shr_1 shr_m]; try reflexivity; try lia.
  - rewrite Pos2Z.inj_xI. apply Z.div_unique with (r := 1); lia.
  - rewrite Pos2Z.inj_xO. apply Z.div_unique with (r := 0); lia.
Qed.

Lemma iter_shr_1_m (n : positive) (mrs : shr_record) :
  0 <= shr_m mrs ->
  shr_m (SpecFloat.iter_pos shr_1 n mrs) = shr_m mrs / 2 ^ Z.pos n.
Proof.
  revert mrs. induction n as [n IH|n IH|]; intros mrs Hm; cbn [SpecFloat.iter_pos].
  - assert (H1 : 0 <= shr_m (shr_1 mrs)) by (rewrite shr_1_m by exact Hm; apply Z.div_pos; lia).
    assert (H2 : 0 <= shr_m (SpecFloat.iter_pos shr_1 n (shr_1 mrs)))
      by (rewrite IH by exact H1; apply Z.div_pos; [exact H1 | apply Z.pow_pos_nonneg; lia]).
    rewrite IH by exact H2. rewrite IH by exact H1. rewrite shr_1_m by exact Hm.
    rewrite !Z.div_div by (pose proof (Z.pow_pos_nonneg 2 (Z.pos n)); lia).
    f_equal. rewrite <- !Z.pow_add_r by lia. rewrite <- (Z.pow_succ_r 2) by lia.
    f_equal. lia.
  - assert (H2 : 0 <= shr_m (SpecFloat.iter_pos shr_1 n mrs))
      by (rewrite IH by exact Hm; apply Z.div_pos; [exact Hm | apply Z.pow_pos_nonneg; lia]).
    rewrite IH by exact H2. rewrite IH by exact Hm.
    rewrite Z.div_div by (pose proof (Z.pow_pos_nonneg 2 (Z.pos n)); lia).
    f_equal. rewrite <- Z.pow_add_r by lia. f_equal. lia.
  - rewrite shr_1_m by exact Hm. reflexivity.
Qed.

(** Shifting right by [n] places (none when [n] is not positive). *)
Lemma shr_exact (m e n : Z) :
  0 <= m ->
  shr_m (fst (shr (shr_record_of_loc m loc_Exact) e n)) = m / 2 ^ Z.max 0 n
  /\ snd (shr (shr_record_of_loc m loc_Exact) e n) = e + Z.max 0 n.
Proof.
  intros Hm. destruct n as [|n|n]; cbn [shr fst snd shr_record_of_loc shr_m].
  - rewrite Z.div_1_r. lia.
  - rewrite iter_shr_1_m by exact Hm. cbn [shr_m]. rewrite Z.max_r by lia. lia.
  - simpl. rewrite Z.div_1_r. lia.
Qed.

Lemma round_nearest_even_cases (m : Z) (l : location) :
  round_nearest_even m l = m \/ round_nearest_even m l = m + 1.
Proof.
  destruct l as [|[]]; cbn [round_nearest_even]; auto.
  destruct (Z.even m); auto.
Qed.

Lemma round_nearest_even_exact (m : Z) : round_nearest_even m loc_Exact = m.
Proof. reflexivity. Qed.


Lemma pow2_pos (a : Z) : 0 <= a -> 0 < 2 ^ a.
Proof. intros. apply Z.pow_pos_nonneg; lia. Qed.

Lemma pow2_split (a b : Z) : 0 <= a -> 0 <= b -> 2 ^ (a + b) = 2 ^ a * 2 ^ b.
Proof. intros. apply Z.pow_add_r; assumption. Qed.

Lemma pow2_le (a b : Z) : 0 <= a <= b -> 2 ^ a <= 2 ^ b.
Proof. intros. apply Z.pow_le_mono_r; lia. Qed.

Lemma pow2_lt_inv (a b : Z) : 0 <= a -> 0 <= b -> 2 ^ a < 2 ^ b -> a < b.
Proof. intros Ha Hb H. apply (Z.pow_lt_mono_r_iff 2); [lia | exact Hb | exact H]. Qed.

(** The digits of a number that is at most [2^53]. *)
Lemma digits_le_2p53 (p : positive) :
  Z.pos p <= 2 ^ 53 ->
  Z.pos (digits2_pos p) <= 53 \/ (Z.pos (digits2_pos p) = 54 /\ Z.pos p = 2 ^ 53).
Proof.
  intros H. pose proof (digits_bounds p) as [L U].
  destruct (Z_le_gt_dec (Z.pos (digits2_pos p)) 53) as [|G]; [left; assumption | right].
  assert (2 ^ 53 <= 2 ^ (Z.pos (digits2_pos p) - 1)) by (apply pow2_le; lia).
  assert (Z.pos p = 2 ^ 53) by lia.
  split; [|assumption].
  assert (Z.pos (digits2_pos p) - 1 < 54).
  { apply pow2_lt_inv; [lia | lia |]. change (2 ^ 54) with (2 * 2 ^ 53). lia. }
  lia.
Qed.


(** Rounding [m * 2^e], a value below [2^D], to binary64: the result is a
    finite float within one unit in the last place of it.  Values are given
    in units of [2^-S]. *)
Lemma round_aux_spec (s : bool) (m : positive) (e S D : Z) :
  - S <= e -> 1074 <= S ->
  e <= fexp Py.prec Py.emax (Z.pos (digits2_pos m) + e) ->
  Z.pos m * 2 ^ (e + S) < 2 ^ (D + S) ->
  -1074 <= D <= 1023 ->
  exists M e',
    0 <= M /\ -1074 <= e' <= 971
    /\ binary_round_aux Py.prec Py.emax s (Z.pos m) e loc_Exact = float_of_mag s M e'
    /\ Z.abs (M * 2 ^ (e' + S) - Z.pos m * 2 ^ (e + S)) <= 2 ^ (Z.max (D - 53) (-1074) + S).
Proof.
  intros HS HS' Hcanon HX HD.
  pose proof (digits_bounds m) as [Ld Ud].
  set (d := Z.pos (digits2_pos m)) in *.
  assert (Hd : 1 <= d) by (unfold d; lia).
  unfold fexp, Py.prec, Py.emax, emin in Hcanon.
  unfold binary_round_aux, shr_fexp, fexp, Py.prec, Py.emax, emin.
  cbn [Zdigits2]. fold d.
  change (3 - 1024 - 53) with (-1074) in *.
  set (fe := Z.max (d + e - 53) (-1074)) in *.
  set (n1 := fe - e).
  assert (Hn1 : 0 <= n1) by (unfold n1; lia).
  destruct (shr_exact (Z.pos m) e n1 ltac:(lia)) as [Hq He1].
  destruct (shr (shr_record_of_loc (Z.pos m) loc_Exact) e n1) as [mrs1 e1].
  cbn [fst snd] in Hq, He1.
  rewrite Z.max_r in Hq, He1 by lia.
  assert (He1' : e1 = fe) by (unfold n1 in He1; lia).
  set (q := shr_m mrs1) in *.
  pose proof (pow2_pos n1 Hn1) as PN.
  pose proof (pow2_pos (e + S) ltac:(lia)) as PE.
  assert (Hq1 : q * 2 ^ n1 <= Z.pos m < (q + 1) * 2 ^ n1).
  { rewrite Hq. pose proof (Z.mul_div_le (Z.pos m) (2 ^ n1) PN).
    pose proof (Z.mul_succ_div_gt (Z.pos m) (2 ^ n1) PN). lia. }
  assert (Hq0 : 0 <= q) by (rewrite Hq; apply Z.div_pos; lia).
  assert (Hq53 : q < 2 ^ 53).
  { assert (2 ^ d <= 2 ^ (53 + n1)) by (apply pow2_le; unfold n1, fe; lia).
    rewrite pow2_split in H by lia. nia. }
  assert (Hde : d + e <= D).
  { assert (2 ^ (d - 1 + (e + S)) < 2 ^ (D + S)).
    { rewrite pow2_split by lia. nia. }
    apply pow2_lt_inv in H; lia. }
  assert (Hfe : -1074 <= fe <= Z.max (D - 53) (-1074)) by (unfold fe; lia).
  assert (Hfe970 : fe <= 970) by lia.
  set (m1 := round_nearest_even q (loc_of_shr_record mrs1)).
  assert (Hm1 : m1 = q \/ m1 = q + 1) by apply round_nearest_even_cases.
  assert (Hm1' : 0 <= m1 <= 2 ^ 53) by lia.
  assert (Herr : Z.abs (m1 * 2 ^ (fe + S) - Z.pos m * 2 ^ (e + S)) <= 2 ^ (fe + S)).
  { replace (fe + S) with (n1 + (e + S)) by (unfold n1; lia).
    rewrite pow2_split by lia. nia. }
  assert (Hbound : 2 ^ (fe + S) <= 2 ^ (Z.max (D - 53) (-1074) + S)) by (apply pow2_le; lia).
  set (n2 := Z.max (Zdigits2 m1 + e1 - 53) (-1074) - e1).
  destruct (shr_exact m1 e1 n2 ltac:(lia)) as [Hm2 He2].
  destruct (shr (shr_record_of_loc m1 loc_Exact) e1 n2) as [mrs2 e2].
  cbn [fst snd] in Hm2, He2.
  assert (Hcases : (Z.max 0 n2 = 0) \/ (Z.max 0 n2 = 1 /\ m1 = 2 ^ 53)).
  { unfold n2. destruct m1 as [|p1|p1]; cbn [Zdigits2]; [left; lia | | lia].
    destruct (digits_le_2p53 p1 ltac:(lia)) as [H53|[H54 Hp]]; [left; lia | right; lia]. }
  destruct Hcases as [Hz|[Hz Hp]]; rewrite Hz in Hm2, He2.
  - rewrite Z.div_1_r in Hm2.
    exists m1, fe. rewrite Hm2.
    replace e2 with fe by lia.
    split; [lia | split; [lia | split]].
    + unfold float_of_mag. destruct m1 as [|p1|p1]; [reflexivity | | lia].
      assert (L : (fe <=? 1024 - 53) = true) by (apply Z.leb_le; lia).
      rewrite L. reflexivity.
    + lia.
  - exists (2 ^ 52), (fe + 1). rewrite Hm2, Hp.
    replace e2 with (fe + 1) by lia.
    change (2 ^ 53 / 2 ^ 1) with (2 ^ 52).
    split; [lia | split; [lia | split]].
    + change (2 ^ 52) with 4503599627370496. cbn [float_of_mag].
      assert (L : (fe + 1 <=? 1024 - 53) = true) by (apply Z.leb_le; lia).
      rewrite L. reflexivity.
    + replace (2 ^ 52 * 2 ^ (fe + 1 + S)) with (m1 * 2 ^ (fe + S)); [lia |].
      rewrite Hp. replace (fe + 1 + S) with (1 + (fe + S)) by lia.
      rewrite (pow2_split 1) by lia. change (2 ^ 53) with (2 ^ 52 * 2 ^ 1). ring.
Qed.


Lemma iter_xO_value (d m : positive) :
  Z.pos (Pos.iter xO m d) = Z.pos m * 2 ^ Z.pos d.
Proof.
  induction d as [|d IH] using Pos.peano_ind.
  - simpl. lia.
  - rewrite Pos.iter_succ, Pos2Z.inj_xO, IH, Pos2Z.inj_succ, Z.pow_succ_r by lia. ring.
Qed.

Lemma iter_xO_digits (d m : positive) :
  Z.pos (digits2_pos (Pos.iter xO m d)) = Z.pos (digits2_pos m) + Z.pos d.
Proof.
  induction d as [|d IH] using Pos.peano_ind.
  - simpl. lia.
  - rewrite Pos.iter_succ. cbn [digits2_pos]. rewrite Pos2Z.inj_succ, IH. lia.
Qed.

(** [shl_align] keeps the value and never raises the exponent. *)
Lemma shl_align_spec (m : positive) (e e' : Z) :
  let '(mz, ez) := shl_align m e e' in
  ez = Z.min e e' /\ Z.pos mz = Z.pos m * 2 ^ (e - ez)
  /\ Z.pos (digits2_pos mz) + ez = Z.pos (digits2_pos m) + e.
Proof.
  unfold shl_align. destruct (e' - e) as [|d|d] eqn:E.
  - replace (Z.min e e') with e by lia. rewrite Z.sub_diag. simpl. lia.
  - replace (Z.min e e') with e by lia. rewrite Z.sub_diag. simpl. lia.
  - replace (Z.min e e') with e' by lia.
    rewrite iter_xO_value, iter_xO_digits.
    replace (e - e') with (Z.pos d) by lia. lia.
Qed.

Lemma round_spec (s : bool) (m : positive) (e S D : Z) :
  - S <= e -> 1074 <= S ->
  Z.pos m * 2 ^ (e + S) < 2 ^ (D + S) ->
  -1074 <= D <= 1023 ->
  exists M e',
    0 <= M /\ -1074 <= e' <= 971
    /\ binary_round Py.prec Py.emax s m e = float_of_mag s M e'
    /\ Z.abs (M * 2 ^ (e' + S) - Z.pos m * 2 ^ (e + S)) <= 2 ^ (Z.max (D - 53) (-1074) + S).
Proof.
  intros HS HS' HX HD. unfold binary_round.
  pose proof (shl_align_spec m e (fexp Py.prec Py.emax (Z.pos (digits2_pos m) + e))) as A.
  destruct (shl_align m e _) as [mz ez]. destruct A as (Hez & Hmz & Hdz).
  assert (Hfe : -1074 <= fexp Py.prec Py.emax (Z.pos (digits2_pos m) + e))
    by (unfold fexp, emin, Py.prec, Py.emax; lia).
  assert (Hval : Z.pos mz * 2 ^ (ez + S) = Z.pos m * 2 ^ (e + S)).
  { rewrite Hmz. replace (e + S) with ((e - ez) + (ez + S)) by lia.
    rewrite (pow2_split (e - ez)) by lia. ring. }
  rewrite <- Hval.
  apply round_aux_spec; [lia | exact HS' | | rewrite Hval; exact HX | exact HD].
  rewrite Hdz. lia.
Qed.

Lemma normalize_spec (z e S D : Z) :
  - S <= e -> 1074 <= S ->
  Z.abs z * 2 ^ (e + S) < 2 ^ (D + S) ->
  -1074 <= D <= 1023 ->
  exists M e',
    0 <= M /\ -1074 <= e' <= 971
    /\ binary_normalize Py.prec Py.emax z e false = float_of_mag (z <? 0) M e'
    /\ Z.abs (M * 2 ^ (e' + S) - Z.abs z * 2 ^ (e + S)) <= 2 ^ (Z.max (D - 53) (-1074) + S).
Proof.
  intros HS HS' HX HD. destruct z as [|p|p]; cbn [binary_normalize].
  - exists 0, 0. split; [lia | split; [lia | split; [reflexivity |]]].
    simpl. pose proof (pow2_pos (Z.max (D - 53) (-1074) + S) ltac:(lia)). lia.
  - apply round_spec; assumption.
  - apply round_spec; assumption.
Qed.

(** An [int] within the binary64 range converts without error. *)
Lemma float_of_int_spec (z S D : Z) :
  1074 <= S -> Z.abs z * 2 ^ S < 2 ^ (D + S) -> 0 <= D <= 1023 ->
  exists M e',
    0 <= M /\ -1074 <= e' <= 971
    /\ Py.float_of_int z = Ok (float_of_mag (z <? 0) M e')
    /\ Z.abs (M * 2 ^ (e' + S) - Z.abs z * 2 ^ S) <= 2 ^ (Z.max (D - 53) (-1074) + S).
Proof.
  intros HS HX HD.
  destruct (normalize_spec z 0 S D) as (M & e' & HM & He & Hr & Herr);
    [lia | exact HS | exact HX | lia |].
  exists M, e'. unfold Py.float_of_int. rewrite Hr.
  split; [exact HM | split; [exact He | split; [| exact Herr]]].
  destruct M; reflexivity.
Qed.

Lemma float_of_int_returns (z : Z) :
  Z.abs z < 2 ^ 1023 -> exists f, Py.float_of_int z = Ok f /\ has_sign (z <? 0) f.
Proof.
  intros H.
  destruct (float_of_int_spec z 1074 1023) as (M & e' & _ & _ & Hr & _); [lia | | lia |].
  - rewrite (pow2_split 1023) by lia. pose proof (pow2_pos 1074). nia.
  - eexists. split; [exact Hr |]. destruct M; simpl; trivial.
Qed.

End Rounding.

(** ** The simulator returns on every input within the float range *)

Lemma mul_int_float_returns (z : Z) (g : spec_float) :
  Z.abs z < 2 ^ 1023 -> exists f, Py.mul (Py.Int z) (Py.Float g) = Ok (Py.Float f).
Proof.
  intros H. destruct (Rounding.float_of_int_returns z H) as (f & E & _).
  unfold Py.mul, Py.arith. cbn [Py.to_float]. rewrite E. cbn [bind]. eauto.
Qed.

Lemma add_int_returns (z : Z) (b : Py.num) :
  Z.abs z < 2 ^ 1023 -> exists c, Py.add (Py.Int z) b = Ok c.
Proof.
  intros H. destruct b as [y|g].
  - rewrite PyFacts.add_int. eauto.
  - destruct (Rounding.float_of_int_returns z H) as (f & E & _).
    unfold Py.add, Py.arith. cbn [Py.to_float]. rewrite E. cbn [bind]. eauto.
Qed.

(** The cost delta with the default base cost: one of four constants. *)
Lemma cost_delta_default (pet t : bool) :
  exists c,
    (let! with_material :=
       Py.mul (Py.Int 10) (if pet then Py.Float Py.lit_1_08 else Py.Float Py.lit_1_0) in
     let! markup := Py.add (Py.Int 1) (if t then Py.Float Py.lit_0_02 else Py.Int 0) in
     let! new_cost := Py.mul with_material markup in
     let! delta := Py.sub new_cost (Py.Int 10) in
     let! ratio := Py.truediv delta (Py.Int 10) in
     let! pct := Py.mul ratio (Py.Int 100) in
     Py.round pct) = Ok (Py.Int c)
    /\ 0 <= c <= 10.
Proof.
  destruct pet, t; eexists; (split; [vm_compute; reflexivity | lia]).
Qed.

Lemma bind_assoc {A B C : Type} (c : result A) (k : A -> result B) (h : B -> result C) :
  bind (bind c k) h = bind c (fun a => bind (k a) h).
Proof. destruct c; reflexivity. Qed.

Theorem simulate_default_returns (mf mt : string) (r l : Z) (t : bool) :
  - 2 ^ 1000 <= r <= 2 ^ 1000 -> l <= 2 ^ 1000 ->
  returns (simulate mf mt r l t 10).
Proof.
  intros Hr Hl.
  assert (P : 2 ^ 1023 = 2 ^ 1000 * 2 ^ 23) by (rewrite <- Z.pow_add_r by lia; reflexivity).
  pose proof (Rounding.pow2_pos 1000 ltac:(lia)) as P0.
  change (2 ^ 23) with 8388608 in P.
  unfold simulate, returns.
  repeat first
    [ rewrite PyFacts.add_int | rewrite PyFacts.sub_int | rewrite PyFacts.mul_int
    | rewrite PyFacts.max_int | rewrite PyFacts.min_int
    | progress cbn [bind Py.round] ].
  destruct (cost_delta_default (String.eqb mt "PET") t) as (c & Ec & _).
  repeat rewrite bind_assoc in Ec.
  apply bind_Ok in Ec. destruct Ec as (v1 & E1 & Ec). rewrite E1. cbn [bind].
  apply bind_Ok in Ec. destruct Ec as (v2 & E2 & Ec). rewrite E2. cbn [bind].
  apply bind_Ok in Ec. destruct Ec as (v3 & E3 & Ec). rewrite E3. cbn [bind].
  apply bind_Ok in Ec. destruct Ec as (v4 & E4 & Ec). rewrite E4. cbn [bind].
  apply bind_Ok in Ec. destruct Ec as (v5 & E5 & Ec). rewrite E5. cbn [bind].
  apply bind_Ok in Ec. destruct Ec as (v6 & E6 & Ec). rewrite E6. cbn [bind].
  rewrite Ec. cbn [bind].
  destruct (mul_int_float_returns (r - 20) Py.lit_0_8 ltac:(lia)) as (sc & Es).
  rewrite Es. cbn [bind].
  repeat first
    [ rewrite PyFacts.add_int | rewrite PyFacts.sub_int | rewrite PyFacts.mul_int
    | rewrite PyFacts.max_int | progress cbn [bind Py.round] ].
  destruct (add_int_returns (20 + Z.max 0 ((l - 10) * 2))
              (Py.max (Py.Int 0) (Py.Float sc)) ltac:(lia)) as (risk2 & Ea).
  rewrite Ea. cbn [bind].
  destruct (String.eqb mf "PVC" && String.eqb mt "PET");
    rewrite !PyFacts.add_int; cbn [bind]; eauto.
Qed.

(** ** The scorer *)

Lemma sub_100 (cost : Py.num) : Py.sub (Py.Int 100) cost = Ok (invert cost).
Proof. destruct cost; reflexivity. Qed.

Lemma assoc_In (ws : list (string * Py.num)) (k : string) (w : Py.num) :
  List.NoDup (keys ws) -> In (k, w) ws -> assoc ws k = Some w.
Proof.
  induction ws as [|[k' w'] ws IH]; intros ND HIn; [destruct HIn|].
  cbn [assoc]. cbn [keys map fst] in ND. inversion ND as [|? ? Hk ND']; subst.
  destruct HIn as [E|HIn].
  - inversion E; subst. rewrite String.eqb_refl. reflexivity.
  - destruct (String.eqb_spec k' k) as [->|_].
    + exfalso. apply Hk. apply (in_map fst) in HIn. exact HIn.
    + apply IH; assumption.
Qed.

(** The items summed by the scorer, one per item of the weights bundle. *)
Lemma scorer_items (N : gmap string Py.num) (ws : list (string * Py.num)) :
  List.NoDup (keys ws) ->
  map (fun k => let! n := getitem N k in
                let! w := getitem_assoc ws k in Py.mul n w) (keys ws)
  = map (fun '(k, w) => let! n := getitem N k in Py.mul n w) ws.
Proof.
  intros ND. unfold keys. rewrite map_map. apply map_ext_in.
  intros [k w] HIn. cbn [fst]. unfold getitem_assoc.
  rewrite (assoc_In ws k w ND HIn). reflexivity.
Qed.

(** What the scorer computes on a metrics bundle with the five criteria. *)
Lemma mcda_score_unfold (metrics : gmap string Py.num) (ws : list (string * Py.num)) :
  has_criteria metrics -> List.NoDup (keys ws) ->
  exists N : gmap string Py.num,
    (forall k, In k criteria -> getitem N k = Ok (normalized_value metrics k))
    /\ (forall k, ~ In k criteria -> getitem N k = Raise KeyError)
    /\ mcda_score metrics ws
       = let! total := sum (map (fun '(k, w) => let! n := getitem N k in Py.mul n w) ws) in
         Py.round total.
Proof.
  intros HC ND.
  destruct (HC "compliance"%string ltac:(simpl; tauto)) as [c Hc].
  destruct (HC "cost"%string ltac:(simpl; tauto)) as [co Hco].
  destruct (HC "availability"%string ltac:(simpl; tauto)) as [a Ha].
  destruct (HC "recyclability"%string ltac:(simpl; tauto)) as [rc Hrc].
  destruct (HC "traceability"%string ltac:(simpl; tauto)) as [tr Htr].
  eexists. split; [|split].
  3: { unfold mcda_score, getitem at 1 2 3 4 5.
       rewrite Hc, Hco, Ha, Hrc, Htr. cbn [bind]. rewrite sub_100. cbn [bind].
       rewrite (scorer_items _ ws ND). reflexivity. }
  - intros k Hk. unfold getitem, normalized_value.
    cbn [In criteria] in Hk.
    destruct Hk as [<-|[<-|[<-|[<-|[<-|[]]]]]];
      rewrite ?Hc, ?Hco, ?Ha, ?Hrc, ?Htr; reflexivity.
  - intros k Hk. unfold getitem.
    cbn [In criteria] in Hk.
    rewrite !lookup_insert_ne by (intros E; apply Hk; subst k; tauto).
    rewrite lookup_empty. reflexivity.
Qed.

Lemma float_of_int_raises (z : Z) (e : exn) :
  Py.float_of_int z = Raise e -> e = OverflowError.
Proof.
  unfold Py.float_of_int.
  destruct (binary_normalize Py.prec Py.emax z 0 false); intros H; inversion H; reflexivity.
Qed.

Lemma arith_raises zop fop (a b : Py.num) (e : exn) :
  Py.arith zop fop a b = Raise e -> e = OverflowError.
Proof.
  unfold Py.arith.
  destruct a as [x|f], b as [y|g]; cbn [Py.to_float bind]; try discriminate.
  - destruct (Py.float_of_int x) eqn:E; cbn [bind]; [discriminate|].
    intros H; inversion H; subst. eapply float_of_int_raises, E.
  - destruct (Py.float_of_int y) eqn:E; cbn [bind]; [discriminate|].
    intros H; inversion H; subst. eapply float_of_int_raises, E.
Qed.

Lemma round_raises (a : Py.num) (e : exn) :
  Py.round a = Raise e -> e = ValueError \/ e = OverflowError.
Proof.
  destruct a as [z|[s|s| |s m x]]; cbn [Py.round]; intros H; inversion H; auto.
Qed.

Lemma sum_from_app (t : Py.num) (xs ys : list (result Py.num)) :
  sum_from t (xs ++ ys) = let! t' := sum_from t xs in sum_from t' ys.
Proof.
  revert t. induction xs as [|x xs IH]; intros t; cbn [app sum_from bind]; [reflexivity|].
  destruct x as [v|e]; cbn [bind]; [|reflexivity].
  destruct (Py.add t v) as [t'|e]; cbn [bind]; [apply IH | reflexivity].
Qed.

(** Summing products raises nothing but [OverflowError]. *)
Lemma sum_from_products_raises (norm : string -> Py.num) (ws : list (string * Py.num))
    (t : Py.num) (e : exn) :
  sum_from t (map (fun '(k, w) => Py.mul (norm k) w) ws) = Raise e -> e = OverflowError.
Proof.
  revert t. induction ws as [|[k w] ws IH]; intros t; cbn [map sum_from]; [discriminate|].
  destruct (Py.mul (norm k) w) as [v|e1] eqn:E1; cbn [bind].
  - destruct (Py.add t v) as [t'|e2] eqn:E2; cbn [bind]; [apply IH|].
    intros H; inversion H; subst. eapply arith_raises, E2.
  - intros H; inversion H; subst. eapply arith_raises, E1.
Qed.

(** With all keys among the criteria, no lookup fails. *)
Lemma scorer_items_known (metrics N : gmap string Py.num) (ws : list (string * Py.num)) :
  (forall k, In k criteria -> getitem N k = Ok (normalized_value metrics k)) ->
  (forall k, In k (keys ws) -> In k criteria) ->
  map (fun '(k, w) => let! n := getitem N k in Py.mul n w) ws
  = map (fun '(k, w) => Py.mul (normalized_value metrics k) w) ws.
Proof.
  intros HN Hsub. apply map_ext_in. intros [k w] HIn.
  rewrite HN; [reflexivity|]. apply Hsub. unfold keys.
  apply (in_map fst) in HIn. exact HIn.
Qed.

Lemma mcda_score_known_keys (metrics : gmap string Py.num) (ws : list (string * Py.num)) :
  has_criteria metrics -> List.NoDup (keys ws) ->
  (forall k, In k (keys ws) -> In k criteria) ->
  mcda_score metrics ws
  = let! total := weighted_sum (normalized_value metrics) ws in Py.round total.
Proof.
  intros HC ND Hsub.
  destruct (mcda_score_unfold metrics ws HC ND) as (N & HN & _ & ->).
  rewrite (scorer_items_known metrics N ws HN Hsub). reflexivity.
Qed.

Lemma mcda_score_unknown_key (metrics : gmap string Py.num)
    (pre post : list (string * Py.num)) (k : string) (w : Py.num) :
  has_criteria metrics -> List.NoDup (keys (pre ++ (k, w) :: post)) ->
  (forall k', In k' (keys pre) -> In k' criteria) ->
  ~ In k criteria ->
  mcda_score metrics (pre ++ (k, w) :: post)
  = let! _ := weighted_sum (normalized_value metrics) pre in Raise KeyError.
Proof.
  intros HC ND Hsub Hk.
  destruct (mcda_score_unfold metrics _ HC ND) as (N & HN & HN' & ->).
  unfold weighted_sum, sum. rewrite map_app, sum_from_app.
  rewrite (scorer_items_known metrics N pre HN Hsub).
  destruct (sum_from (Py.Int 0) _) as [t|e]; cbn [bind]; [|reflexivity].
  cbn [map sum_from]. rewrite (HN' k Hk). reflexivity.
Qed.

(** The first key that is not a criterion. *)
Lemma first_unknown_key (ws : list (string * Py.num)) :
  ~ (forall k, In k (keys ws) -> In k criteria) ->
  exists pre k w post,
    ws = pre ++ (k, w) :: post
    /\ (forall k', In k' (keys pre) -> In k' criteria) /\ ~ In k criteria.
Proof.
  induction ws as [|[k w] ws IH]; intros H.
  - exfalso. apply H. intros k [].
  - destruct (in_dec string_dec k criteria) as [Hin|Hout].
    + destruct IH as (pre & k' & w' & post & -> & Hpre & Hk').
      * intros Hall. apply H. intros k0 [<-|H0]; [exact Hin | apply Hall, H0].
      * exists ((k, w) :: pre), k', w', post.
        split; [reflexivity | split; [|exact Hk']].
        intros k0 [<-|H0]; [exact Hin | apply Hpre, H0].
    + exists [], k, w, ws. split; [reflexivity | split; [intros k0 [] | exact Hout]].
Qed.

(** *** Bundles of integers *)

Lemma normalized_value_int (metrics : gmap string Py.num) (k : string) :
  int_metrics metrics -> In k criteria ->
  normalized_value metrics k = Py.Int (normalized_int metrics k).
Proof.
  intros HM Hk. destruct (HM k Hk) as (z & Hz).
  unfold normalized_int, normalized_value. rewrite Hz. cbn [default].
  destruct (String.eqb k "cost"); reflexivity.
Qed.

Lemma int_metrics_has_criteria (metrics : gmap string Py.num) :
  int_metrics metrics -> has_criteria metrics.
Proof. intros HM k Hk. destruct (HM k Hk) as (z & Hz). rewrite Hz. eauto. Qed.

Lemma keys_int_bundle (ws : list (string * Z)) : keys (int_bundle ws) = map fst ws.
Proof.
  unfold keys, int_bundle. rewrite map_map. apply map_ext. intros [k z]. reflexivity.
Qed.

Lemma sum_from_int (metrics : gmap string Py.num) (ws : list (string * Z)) (t : Z) :
  int_metrics metrics -> (forall k, In k (map fst ws) -> In k criteria) ->
  sum_from (Py.Int t)
    (map (fun '(k, w) => Py.mul (normalized_value metrics k) w) (int_bundle ws))
  = Ok (Py.Int (t + int_weighted_sum (normalized_int metrics) ws)).
Proof.
  intros HM. revert t. induction ws as [|[k z] ws IH]; intros t Hsub.
  - cbn. f_equal. f_equal. lia.
  - cbn [int_bundle map sum_from int_weighted_sum fold_right].
    rewrite (normalized_value_int metrics k HM) by (apply Hsub; left; reflexivity).
    rewrite PyFacts.mul_int. cbn [bind]. rewrite PyFacts.add_int. cbn [bind].
    fold (int_bundle ws). rewrite IH by (intros k0 H0; apply Hsub; right; exact H0).
    f_equal. f_equal. fold (int_weighted_sum (normalized_int metrics) ws). lia.
Qed.

(** On integers the score is the exact weighted sum. *)
Lemma mcda_score_int (metrics : gmap string Py.num) (ws : list (string * Z)) :
  int_metrics metrics -> List.NoDup (map fst ws) ->
  (forall k, In k (map fst ws) -> In k criteria) ->
  mcda_score metrics (int_bundle ws)
  = Ok (Py.Int (int_weighted_sum (normalized_int metrics) ws)).
Proof.
  intros HM ND Hsub.
  rewrite mcda_score_known_keys;
    [| apply int_metrics_has_criteria, HM | rewrite keys_int_bundle; exact ND
     | rewrite keys_int_bundle; exact Hsub].
  unfold weighted_sum, sum. rewrite (sum_from_int metrics ws 0 HM Hsub). reflexivity.
Qed.




Lemma bundle_int_metrics (c co a rc tr : Z) :
  int_metrics (bundle (Py.Int c) (Py.Int co) (Py.Int a) (Py.Int rc) (Py.Int tr)).
Proof.
  intros k Hk. cbn [In criteria] in Hk.
  destruct Hk as [<-|[<-|[<-|[<-|[<-|[]]]]]]; eexists; reflexivity.
Qed.

Lemma bundle_has_criteria (c co a rc tr : Py.num) :
  has_criteria (bundle c co a rc tr).
Proof.
  intros k Hk. cbn [In criteria] in Hk.
  destruct Hk as [<-|[<-|[<-|[<-|[<-|[]]]]]]; eexists; reflexivity.
Qed.

(** ** Case analysis over a range of integers *)

Lemma In_Zrange (lo : Z) (len : nat) (n : Z) :
  lo <= n < lo + Z.of_nat len -> In n (Zrange lo len).
Proof.
  intros H. unfold Zrange. apply in_map_iff.
  exists (Z.to_nat (n - lo)). split; [lia|].
  apply in_seq. lia.
Qed.

(** [cases n lo len]: one goal for each value of [n] in the range. *)
Ltac cases n lo len :=
  let C := fresh "C" in
  assert (C : In n (Zrange lo len)) by (apply In_Zrange; cbn; lia);
  cbv in C; repeat (destruct C as [<-|C]); [.. | destruct C].

(** ** The calendar *)

Module Calendar.

Ltac tables :=
  cbv [nth Z.to_nat Pos.to_nat Pos.iter_op Init.Nat.add DAYS_IN_MONTH DAYS_BEFORE_MONTH
       Z.eqb Pos.eqb Z.ltb Z.compare Pos.compare Pos.compare_cont andb] in *.

Lemma days_before_next_year (y : Z) :
  days_before_year (y + 1) = days_before_year y + 365 + (if is_leap y then 1 else 0).
Proof.
  unfold days_before_year, is_leap.
  replace (y + 1 - 1) with y by lia.
  destruct (y mod 4 =? 0) eqn:E4; destruct (y mod 100 =? 0) eqn:E100;
    destruct (y mod 400 =? 0) eqn:E400; cbn [negb andb orb];
    rewrite ?Z.eqb_eq, ?Z.eqb_neq in *;
    Z.div_mod_to_equations; lia.
Qed.

Lemma days_before_year_mono (a b : Z) : a <= b -> days_before_year a <= days_before_year b.
Proof.
  unfold days_before_year. intros H. Z.div_mod_to_equations. lia.
Qed.

(** The day of the year of a valid date. *)
Lemma day_of_year_bounds (d : date) :
  valid_date d ->
  1 <= days_before_month (year d) (month d) + day d
    <= 365 + (if is_leap (year d) then 1 else 0).
Proof.
  destruct d as [y m dd]. unfold valid_date, days_before_month, days_in_month.
  cbn [year month day]. intros (_ & Hm & Hd).
  destruct (is_leap y); cases m 1 12%nat; tables; lia.
Qed.

Lemma day_of_year_mono (y m1 d1 m2 d2 : Z) :
  valid_date {| year := y; month := m1; day := d1 |} ->
  valid_date {| year := y; month := m2; day := d2 |} ->
  m1 < m2 ->
  days_before_month y m1 + d1 < days_before_month y m2 + d2.
Proof.
  unfold valid_date, days_before_month, days_in_month. cbn [year month day].
  intros (_ & Hm1 & Hd1) (_ & Hm2 & Hd2) Hlt.
  destruct (is_leap y); cases m1 1 12%nat; cases m2 1 12%nat; tables; lia.
Qed.

(** Earlier dates have smaller day numbers. *)
Lemma toordinal_lt (a b : date) :
  valid_date a -> valid_date b -> date_lt a b -> toordinal a < toordinal b.
Proof.
  intros Va Vb Hlt. pose proof (day_of_year_bounds a Va) as Ba.
  pose proof (day_of_year_bounds b Vb) as Bb.
  destruct a as [y1 m1 d1], b as [y2 m2 d2].
  unfold date_lt, toordinal in *. cbn [year month day] in *.
  destruct Hlt as [Hy|[-> [Hm|[-> Hd]]]].
  - pose proof (days_before_next_year y1).
    pose proof (days_before_year_mono (y1 + 1) y2 ltac:(lia)). lia.
  - pose proof (day_of_year_mono y2 m1 d1 m2 d2 Va Vb Hm). lia.
  - lia.
Qed.

End Calendar.

(** ** Reading a date *)

Module Parsing.

Lemma digit_of_digit_char (n : Z) : 0 <= n <= 9 -> digit_of (digit_char n) = Some n.
Proof.
  intros H. cases n 0 10%nat; reflexivity.
Qed.

Lemma digit_of_inv (c : ascii) (n : Z) :
  digit_of c = Some n -> 0 <= n <= 9 /\ c = digit_char n.
Proof.
  unfold digit_of, digit_char.
  destruct ((48 <=? Z.of_N (N_of_ascii c)) && (Z.of_N (N_of_ascii c) <=? 57)) eqn:E;
    [|discriminate].
  apply andb_true_iff in E. destruct E as [L U].
  apply Z.leb_le in L, U. intros H. inversion H; subst. split; [lia|].
  replace (48 + (Z.of_N (N_of_ascii c) - 48)) with (Z.of_N (N_of_ascii c)) by lia.
  rewrite N2Z.id, ascii_N_embedding. reflexivity.
Qed.

Lemma digit_in_inv (lo hi : Z) (c : ascii) (n : Z) :
  digit_in lo hi c = Some n -> 0 <= n <= 9 /\ lo <= n <= hi /\ c = digit_char n.
Proof.
  unfold digit_in. destruct (digit_of c) as [k|] eqn:E; [|discriminate].
  destruct ((lo <=? k) && (k <=? hi)) eqn:R; [|discriminate].
  intros H. inversion H; subst.
  apply andb_true_iff in R. destruct R as [L U]. apply Z.leb_le in L, U.
  apply digit_of_inv in E. intuition.
Qed.

Lemma blank_inv (c : ascii) (n : Z) : blank c = Some n -> n = 0 /\ c = " "%char.
Proof.
  unfold blank. destruct (Ascii.eqb_spec c " "); [|discriminate].
  intros H. inversion H. auto.
Qed.

Lemma two_chars_inv tens units (s : string) (n : Z) (rest : string) :
  In (n, rest) (two_chars tens units s) ->
  exists c1 c2 a b,
    s = String c1 (String c2 rest) /\ tens c1 = Some a /\ units c2 = Some b
    /\ n = 10 * a + b.
Proof.
  unfold two_chars. destruct s as [|c1 [|c2 r]]; try (intros []).
  destruct (tens c1) as [a|] eqn:T; [|intros []].
  destruct (units c2) as [b|] eqn:U; [|intros []].
  intros [H|[]]. inversion H; subst. exists c1, c2, a, b. auto.
Qed.

Lemma one_char_inv units (s : string) (n : Z) (rest : string) :
  In (n, rest) (one_char units s) ->
  exists c, s = String c rest /\ units c = Some n.
Proof.
  unfold one_char. destruct s as [|c r]; [intros []|].
  destruct (units c) as [a|] eqn:U; [|intros []].
  intros [H|[]]. inversion H; subst. exists c. auto.
Qed.

Lemma pad2_digits (a b : Z) :
  0 <= a <= 9 -> 0 <= b <= 9 ->
  pad2 (10 * a + b) = String (digit_char a) (String (digit_char b) EmptyString).
Proof.
  intros Ha Hb. unfold pad2.
  replace ((10 * a + b) / 10) with a by (Z.div_mod_to_equations; lia).
  replace ((10 * a + b) mod 10) with b by (Z.div_mod_to_equations; lia).
  reflexivity.
Qed.

Lemma pad4_digits (a b c d : Z) :
  0 <= a <= 9 -> 0 <= b <= 9 -> 0 <= c <= 9 -> 0 <= d <= 9 ->
  pad4 (1000 * a + 100 * b + 10 * c + d)
  = String (digit_char a) (String (digit_char b)
      (String (digit_char c) (String (digit_char d) EmptyString))).
Proof.
  intros Ha Hb Hc Hd. unfold pad4.
  replace ((1000 * a + 100 * b + 10 * c + d) / 1000) with a
    by (Z.div_mod_to_equations; lia).
  replace ((1000 * a + 100 * b + 10 * c + d) / 100 mod 10) with b
    by (Z.div_mod_to_equations; lia).
  replace ((1000 * a + 100 * b + 10 * c + d) mod 100) with (10 * c + d)
    by (Z.div_mod_to_equations; lia).
  rewrite pad2_digits by assumption. reflexivity.
Qed.

(** What the month group can have read. *)
Lemma directive_m_inv (s : string) (m : Z) (rest : string) :
  In (m, rest) (directive_m s) ->
  1 <= m <= 12 /\ exists text, In text (month_texts m) /\ s = (text ++ rest)%string.
Proof.
  unfold directive_m. rewrite !in_app_iff. intros [H|[H|H]].
  - apply two_chars_inv in H. destruct H as (c1 & c2 & a & b & -> & T & U & ->).
    apply digit_in_inv in T, U. destruct T as (Ha & Ha' & ->), U as (Hb & Hb' & ->).
    split; [lia|]. exists (pad2 (10 * a + b)). split.
    + unfold month_texts. destruct (10 * a + b <? 10); left; reflexivity.
    + rewrite pad2_digits by lia. reflexivity.
  - apply two_chars_inv in H. destruct H as (c1 & c2 & a & b & -> & T & U & ->).
    apply digit_in_inv in T, U. destruct T as (Ha & Ha' & ->), U as (Hb & Hb' & ->).
    split; [lia|]. exists (pad2 (10 * a + b)). split.
    + unfold month_texts. destruct (10 * a + b <? 10); left; reflexivity.
    + rewrite pad2_digits by lia. reflexivity.
  - apply one_char_inv in H. destruct H as (c & -> & U).
    apply digit_in_inv in U. destruct U as (Hb & Hb' & ->).
    split; [lia|]. exists (one_digit m). split.
    + unfold month_texts. assert (L : (m <? 10) = true) by (apply Z.ltb_lt; lia).
      rewrite L. right; left; reflexivity.
    + reflexivity.
Qed.

(** What the day group can have read. *)
Lemma directive_d_inv (s : string) (d : Z) (rest : string) :
  In (d, rest) (directive_d s) ->
  1 <= d <= 31 /\ exists text, In text (day_texts d) /\ s = (text ++ rest)%string.
Proof.
  unfold directive_d. rewrite !in_app_iff. intros [H|[H|[H|[H|H]]]].
  1-3: apply two_chars_inv in H; destruct H as (c1 & c2 & a & b & -> & T & U & ->);
       apply digit_in_inv in T, U; destruct T as (Ha & Ha' & ->), U as (Hb & Hb' & ->);
       (split; [lia|]); exists (pad2 (10 * a + b)); (split;
         [ unfold day_texts; destruct (10 * a + b <? 10); left; reflexivity
         | rewrite pad2_digits by lia; reflexivity ]).
  - apply one_char_inv in H. destruct H as (c & -> & U).
    apply digit_in_inv in U. destruct U as (Hb & Hb' & ->).
    split; [lia|]. exists (one_digit d). split.
    + unfold day_texts. assert (L : (d <? 10) = true) by (apply Z.ltb_lt; lia).
      rewrite L. right; left; reflexivity.
    + reflexivity.
  - apply two_chars_inv in H. destruct H as (c1 & c2 & a & b & -> & T & U & ->).
    apply blank_inv in T. destruct T as (-> & ->).
    apply digit_in_inv in U. destruct U as (Hb & Hb' & ->).
    split; [lia|]. exists (String " " (one_digit b)). split.
    + unfold day_texts. replace (10 * 0 + b) with b by lia.
      assert (L : (b <? 10) = true) by (apply Z.ltb_lt; lia).
      rewrite L. right; right; left; reflexivity.
    + reflexivity.
Qed.

Lemma first_match_inv {A B : Type} (choices : list A) (k : A -> option B) (b : B) :
  first_match choices k = Some b -> exists c, In c choices /\ k c = Some b.
Proof.
  induction choices as [|c cs IH]; cbn [first_match]; [discriminate|].
  destruct (k c) as [b'|] eqn:E.
  - intros H. inversion H; subst. exists c. split; [left; reflexivity | exact E].
  - intros H. destruct (IH H) as (c' & Hc & Hk). exists c'. split; [right|]; assumption.
Qed.

Lemma first_match_head {A B : Type} (c : A) (cs : list A) (k : A -> option B) (b : B) :
  k c = Some b -> first_match (c :: cs) k = Some b.
Proof. intros H. cbn [first_match]. rewrite H. reflexivity. Qed.

Lemma directive_Y_inv (s : string) (y : Z) (rest : string) :
  directive_Y s = Some (y, rest) ->
  0 <= y <= 9999 /\ s = (pad4 y ++ rest)%string.
Proof.
  unfold directive_Y. destruct s as [|c1 [|c2 [|c3 [|c4 r]]]]; try discriminate.
  destruct (digit_of c1) as [d1|] eqn:E1; [|discriminate].
  destruct (digit_of c2) as [d2|] eqn:E2; [|discriminate].
  destruct (digit_of c3) as [d3|] eqn:E3; [|discriminate].
  destruct (digit_of c4) as [d4|] eqn:E4; [|discriminate].
  intros H. inversion H; subst.
  apply digit_of_inv in E1, E2, E3, E4.
  destruct E1 as (H1 & ->), E2 as (H2 & ->), E3 as (H3 & ->), E4 as (H4 & ->).
  split; [lia|]. rewrite pad4_digits by assumption. reflexivity.
Qed.

Lemma literal_inv (c : ascii) (s rest : string) :
  literal c s = Some rest -> s = String c rest.
Proof.
  unfold literal. destruct s as [|c' r]; [discriminate|].
  destruct (Ascii.eqb_spec c' c) as [->|]; [|discriminate].
  intros H. inversion H. reflexivity.
Qed.


Lemma append_empty (s : string) : (s ++ EmptyString)%string = s.
Proof.
  induction s as [|c s IH]; [reflexivity|].
  change (String c (s ++ EmptyString)%string = String c s). f_equal. exact IH.
Qed.

Lemma check_date_fields_Ok (y m d : Z) (dt : date) :
  check_date_fields y m d = Ok dt ->
  valid_date dt /\ dt = {| year := y; month := m; day := d |}.
Proof.
  unfold check_date_fields, valid_date.
  destruct ((1 <=? y) && (y <=? 9999)) eqn:Ey; cbn [negb]; [|discriminate].
  destruct ((1 <=? m) && (m <=? 12)) eqn:Em; cbn [negb]; [|discriminate].
  destruct ((1 <=? d) && (d <=? days_in_month y m)) eqn:Ed; cbn [negb]; [|discriminate].
  intros H. inversion H; subst. cbn [year month day].
  apply andb_true_iff in Ey, Em, Ed.
  rewrite !Z.leb_le in Ey, Em, Ed. split; [lia | reflexivity].
Qed.

Lemma check_date_fields_valid (d : date) :
  valid_date d -> check_date_fields (year d) (month d) (day d) = Ok d.
Proof.
  destruct d as [y m dd]. unfold valid_date, check_date_fields. cbn [year month day].
  intros (Hy & Hm & Hd).
  assert (Ey : (1 <=? y) && (y <=? 9999) = true)
    by (apply andb_true_iff; rewrite !Z.leb_le; lia).
  assert (Em : (1 <=? m) && (m <=? 12) = true)
    by (apply andb_true_iff; rewrite !Z.leb_le; lia).
  assert (Ed : (1 <=? dd) && (dd <=? days_in_month y m) = true)
    by (apply andb_true_iff; rewrite !Z.leb_le; lia).
  rewrite Ey, Em, Ed. reflexivity.
Qed.

(** [strptime] raises nothing but [ValueError]. *)
Lemma strptime_raises (s : string) (e : exn) : strptime s = Raise e -> e = ValueError.
Proof.
  unfold strptime, check_date_fields.
  destruct (match_format s) as [[[[y m] d] [|c r]]|];
    repeat (destruct (negb _)); intros H; inversion H; reflexivity.
Qed.

(** A text that is read is a rendering of the date it is read as. *)
Lemma strptime_sound (s : string) (d : date) :
  strptime s = Ok d -> valid_date d /\ In s (renderings d).
Proof.
  unfold strptime.
  destruct (match_format s) as [[[[y m] dd] rest]|] eqn:M; [|discriminate].
  destruct rest as [|c r]; [|discriminate].
  intros H. apply check_date_fields_Ok in H. destruct H as (V & ->).
  split; [exact V|].
  unfold match_format in M.
  destruct (directive_Y s) as [[y' s1]|] eqn:EY; [|discriminate M].
  cbn in M.
  destruct (literal "-" s1) as [s2|] eqn:L1; [|discriminate M].
  cbn in M.
  apply first_match_inv in M. destruct M as ([m' s3] & Hm & M).
  destruct (literal "-" s3) as [s4|] eqn:L2; [|discriminate M].
  cbn in M.
  apply first_match_inv in M. destruct M as ([d' s5] & Hd & M).
  inversion M; subst.
  apply directive_Y_inv in EY. destruct EY as (_ & ->).
  apply literal_inv in L1, L2. subst.
  apply directive_m_inv in Hm. destruct Hm as (_ & mt & Hmt & E).
  apply directive_d_inv in Hd. destruct Hd as (_ & dt & Hdt & ->).
  rewrite append_empty in *.
  subst s2.
  unfold renderings. cbn [year month day].
  apply in_flat_map. exists mt. split; [exact Hmt|].
  apply in_map_iff. exists dt. split; [reflexivity | exact Hdt].
Qed.


Lemma directive_Y_pad4 (y : Z) (r : string) :
  0 <= y <= 9999 -> directive_Y (pad4 y ++ r) = Some (y, r).
Proof.
  intros H. unfold pad4, pad2.
  change (directive_Y (String (digit_char (y / 1000))
            (String (digit_char (y / 100 mod 10))
               (String (digit_char (y mod 100 / 10))
                  (String (digit_char (y mod 100 mod 10)) r)))) = Some (y, r)).
  cbn [directive_Y].
  rewrite !digit_of_digit_char by (Z.div_mod_to_equations; lia).
  do 2 f_equal. Z.div_mod_to_equations. lia.
Qed.

Lemma directive_m_text (m : Z) (mt r : string) :
  1 <= m <= 12 -> In mt (month_texts m) ->
  exists tl, directive_m (mt ++ String "-" r) = (m, String "-" r) :: tl.
Proof.
  intros H HIn.
  cases m 1 12%nat; vm_compute in HIn;
    repeat (destruct HIn as [<-|HIn]; [vm_compute; eexists; reflexivity|]);
    destruct HIn.
Qed.

Lemma directive_d_text (d : Z) (dt : string) :
  1 <= d <= 31 -> In dt (day_texts d) ->
  exists tl, directive_d dt = (d, EmptyString) :: tl.
Proof.
  intros H HIn.
  cases d 1 31%nat; vm_compute in HIn;
    repeat (destruct HIn as [<-|HIn]; [vm_compute; eexists; reflexivity|]);
    destruct HIn.
Qed.

Lemma days_in_month_le_31 (y m : Z) : 1 <= m <= 12 -> days_in_month y m <= 31.
Proof.
  intros H. unfold days_in_month.
  destruct (is_leap y); cases m 1 12%nat; vm_compute; discriminate.
Qed.

(** Every rendering of a valid date is read as that date. *)
Lemma strptime_complete (s : string) (d : date) :
  valid_date d -> In s (renderings d) -> strptime s = Ok d.
Proof.
  intros V HIn. pose proof V as (Hy & Hm & Hd).
  pose proof (days_in_month_le_31 (year d) (month d) Hm) as H31.
  unfold renderings in HIn. apply in_flat_map in HIn.
  destruct HIn as (mt & Hmt & HIn). apply in_map_iff in HIn.
  destruct HIn as (dt & <- & Hdt).
  destruct (directive_d_text (day d) dt ltac:(lia) Hdt) as (tld & Ed).
  destruct (directive_m_text (month d) mt (dt) Hm Hmt) as (tlm & Em).
  unfold strptime, match_format.
  rewrite directive_Y_pad4 by lia. cbn [mbind option_bind].
  change (("-" ++ mt ++ "-" ++ dt)%string) with (String "-" (mt ++ String "-" dt)%string).
  cbn [literal]. rewrite Ascii.eqb_refl. cbn [mbind option_bind].
  rewrite Em.
  erewrite first_match_head.
  2: { cbn [literal]. rewrite Ascii.eqb_refl. cbn [mbind option_bind].
       rewrite Ed. apply first_match_head. reflexivity. }
  apply check_date_fields_valid, V.
Qed.

(** The ISO text of a date is one of its renderings. *)
Lemma isoformat_rendering (d : date) : In (isoformat d) (renderings d).
Proof.
  unfold renderings, isoformat. apply in_flat_map.
  exists (pad2 (month d)). split.
  - unfold month_texts. destruct (month d <? 10); left; reflexivity.
  - apply in_map_iff. exists (pad2 (day d)). split; [reflexivity|].
    unfold day_texts. destruct (day d <? 10); left; reflexivity.
Qed.

End Parsing.

(** The count for a text that is read as the date [d]. *)
Lemma days_to_deadline_read (today d : date) (s : string) :
  strptime s = Ok d ->
  days_to_deadline today s = Ok (Py.Int (Z.max 0 (toordinal d - toordinal today))).
Proof.
  intros H. unfold days_to_deadline. rewrite H. cbn [bind].
  rewrite PyFacts.max_int. reflexivity.
Qed.

(** ** The accuracy of the weighted sum *)

Module Accuracy.

Import Rounding.

Lemma scaled_float_of_mag (S M e : Z) :
  0 <= M -> scaled S (float_of_mag false M e) = M * 2 ^ (e + S).
Proof. destruct M; simpl; intros; lia. Qed.

Lemma finite_nonneg_float_of_mag (M e : Z) :
  0 <= M -> -1074 <= e <= 971 -> finite_nonneg (float_of_mag false M e).
Proof. destruct M; simpl; intros; lia || trivial. Qed.

Lemma scaled_nonneg (S : Z) (f : spec_float) :
  finite_nonneg f -> 1074 <= S -> 0 <= scaled S f.
Proof.
  destruct f as [s|s| |[] m e]; simpl; intros H HS; try lia;
    pose proof (pow2_pos (e + S) ltac:(lia)); lia.
Qed.

Lemma digits_ge (p : positive) (k : Z) :
  0 <= k -> 2 ^ k <= Z.pos p -> k + 1 <= Z.pos (digits2_pos p).
Proof.
  intros Hk H. pose proof (digits_bounds p) as [_ U].
  assert (k < Z.pos (digits2_pos p)) by (apply pow2_lt_inv; lia). lia.
Qed.

Lemma float_of_int_100 : Py.float_of_int 100 = Ok float_100.
Proof. vm_compute. reflexivity. Qed.

(** The product of 100.0 and a float below 2.56. *)
Lemma SFmul_100_spec (y : spec_float) :
  finite_nonneg y -> 100 * scaled 1120 y < 2 ^ 1128 ->
  finite_nonneg (SFmul Py.prec Py.emax float_100 y)
  /\ Z.abs (scaled 1120 (SFmul Py.prec Py.emax float_100 y) - 100 * scaled 1120 y)
     <= 2 ^ 1075.
Proof.
  destruct y as [s|s| |[] m e]; cbn [finite_nonneg]; try tauto.
  - intros _ _. cbn. split; [trivial | pose proof (pow2_pos 1075); lia].
  - intros He HX. cbn [scaled] in HX.
    unfold float_100. cbn [SFmul xorb].
    assert (Hval : Z.pos (7036874417766400 * m) * 2 ^ (-46 + e + 1120)
                   = 100 * (Z.pos m * 2 ^ (e + 1120))).
    { replace (e + 1120) with (46 + (-46 + e + 1120)) by lia.
      rewrite (pow2_split 46) by lia. change (2 ^ 46) with 70368744177664. lia. }
    assert (Hcanon : -46 + e <= fexp Py.prec Py.emax
                                  (Z.pos (digits2_pos (7036874417766400 * m)) + (-46 + e))).
    { pose proof (digits_ge (7036874417766400 * m) 52 ltac:(lia)
                    ltac:(change (2 ^ 52) with 4503599627370496; lia)).
      unfold fexp, emin, Py.prec, Py.emax. lia. }
    assert (Hlt : Z.pos (7036874417766400 * m) * 2 ^ (-46 + e + 1120) < 2 ^ (8 + 1120))
      by (rewrite Hval; exact HX).
    destruct (round_aux_spec false (7036874417766400 * m) (-46 + e) 1120 8
                ltac:(lia) ltac:(lia) Hcanon Hlt ltac:(lia))
      as (M & e' & HM & He' & -> & Herr).
    split; [apply finite_nonneg_float_of_mag; assumption|].
    rewrite scaled_float_of_mag by exact HM. cbn [scaled].
    rewrite <- Hval. exact Herr.
Qed.

(** The sum of two floats that stays below 1024. *)
Lemma SFadd_spec (x y : spec_float) :
  finite_nonneg x -> finite_nonneg y ->
  scaled 1120 x + scaled 1120 y < 2 ^ 1130 ->
  finite_nonneg (SFadd Py.prec Py.emax x y)
  /\ Z.abs (scaled 1120 (SFadd Py.prec Py.emax x y) - (scaled 1120 x + scaled 1120 y))
     <= 2 ^ 1077.
Proof.
  pose proof (pow2_pos 1077 ltac:(lia)) as P.
  destruct x as [sx|sx| |[] mx ex]; cbn [finite_nonneg]; try tauto;
    destruct y as [sy|sy| |[] my ey]; cbn [finite_nonneg]; try tauto.
  - intros _ _ _. destruct sx, sy; cbn; split; trivial; lia.
  - intros _ He _. cbn [SFadd finite_nonneg scaled]. split; [exact He | lia].
  - intros He _ _. cbn [SFadd finite_nonneg scaled]. split; [exact He | lia].
  - intros Hx Hy HX. cbn [scaled] in HX. cbn [SFadd cond_Zopp].
    pose proof (shl_align_spec mx ex (Z.min ex ey)) as Ax.
    pose proof (shl_align_spec my ey (Z.min ex ey)) as Ay.
    destruct (shl_align mx ex (Z.min ex ey)) as [mx' ex'].
    destruct (shl_align my ey (Z.min ex ey)) as [my' ey'].
    destruct Ax as (Hex & Hmx & _), Ay as (Hey & Hmy & _). cbn [fst].
    set (ez := Z.min ex ey) in *.
    assert (Hvx : Z.pos mx' * 2 ^ (ez + 1120) = Z.pos mx * 2 ^ (ex + 1120)).
    { rewrite Hmx. replace (ex - ex') with (ex - ez) by lia.
      replace (ex + 1120) with ((ex - ez) + (ez + 1120)) by lia.
      rewrite (pow2_split (ex - ez)) by lia. ring. }
    assert (Hvy : Z.pos my' * 2 ^ (ez + 1120) = Z.pos my * 2 ^ (ey + 1120)).
    { rewrite Hmy. replace (ey - ey') with (ey - ez) by lia.
      replace (ey + 1120) with ((ey - ez) + (ez + 1120)) by lia.
      rewrite (pow2_split (ey - ez)) by lia. ring. }
    assert (Hsum : Z.abs (Z.pos mx' + Z.pos my') * 2 ^ (ez + 1120)
                   = Z.pos mx * 2 ^ (ex + 1120) + Z.pos my * 2 ^ (ey + 1120)).
    { rewrite Z.abs_eq by lia. rewrite Z.mul_add_distr_r, Hvx, Hvy. reflexivity. }
    assert (Hlt : Z.abs (Z.pos mx' + Z.pos my') * 2 ^ (ez + 1120) < 2 ^ (10 + 1120))
      by (rewrite Hsum; exact HX).
    destruct (normalize_spec (Z.pos mx' + Z.pos my') ez 1120 10
                ltac:(lia) ltac:(lia) Hlt ltac:(lia))
      as (M & e' & HM & He' & Hr & Herr).
    rewrite Hr.
    replace (Z.pos mx' + Z.pos my' <? 0) with false by (symmetry; apply Z.ltb_ge; lia).
    split; [apply finite_nonneg_float_of_mag; assumption|].
    rewrite scaled_float_of_mag by exact HM. cbn [scaled].
    rewrite <- Hsum. exact Herr.
Qed.

(** An [int] below 512 as a float. *)
Lemma float_of_int_small (z : Z) :
  0 <= z -> z * 2 ^ 1120 < 2 ^ 1129 ->
  exists f, Py.float_of_int z = Ok f /\ finite_nonneg f
            /\ Z.abs (scaled 1120 f - z * 2 ^ 1120) <= 2 ^ 1076.
Proof.
  intros Hz HX.
  assert (Hlt : Z.abs z * 2 ^ 1120 < 2 ^ (9 + 1120)) by (rewrite Z.abs_eq by lia; exact HX).
  destruct (float_of_int_spec z 1120 9 ltac:(lia) Hlt ltac:(lia))
    as (M & e' & HM & He' & Hr & Herr).
  replace (z <? 0) with false in Hr by (symmetry; apply Z.ltb_ge; lia).
  eexists. split; [exact Hr | split].
  - apply finite_nonneg_float_of_mag; assumption.
  - rewrite scaled_float_of_mag by exact HM.
    rewrite (Z.abs_eq z) in Herr by lia. exact Herr.
Qed.


(** All the powers of two below in terms of [2^1075]. *)
Ltac powers :=
  change (2 ^ 1120) with (35184372088832 * 2 ^ 1075) in *;
  change (2 ^ 1119) with (17592186044416 * 2 ^ 1075) in *;
  change (2 ^ 1128) with (9007199254740992 * 2 ^ 1075) in *;
  change (2 ^ 1129) with (18014398509481984 * 2 ^ 1075) in *;
  change (2 ^ 1130) with (36028797018963968 * 2 ^ 1075) in *;
  change (2 ^ 1076) with (2 * 2 ^ 1075) in *;
  change (2 ^ 1077) with (4 * 2 ^ 1075) in *;
  let P := fresh "P" in
  pose proof (pow2_pos 1075 ltac:(lia)) as P;
  let E := fresh "E" in
  set (E := 2 ^ 1075) in *; clearbody E.

Lemma fine_units_nonneg (a : Py.num) : nonneg a -> 0 <= fine_units a.
Proof.
  destruct a as [z|f]; cbn [nonneg fine_units]; intros H.
  - pose proof (pow2_pos 1120 ltac:(lia)). nia.
  - apply scaled_nonneg; [exact H | lia].
Qed.

Lemma fine_units_units (a : Py.num) :
  nonneg a -> fine_units a = 70368744177664 * units a.
Proof.
  assert (P : forall x, 0 <= x -> 2 ^ (x + 46) = 70368744177664 * 2 ^ x)
    by (intros x Hx; rewrite pow2_split by lia; change (2 ^ 46) with 70368744177664; lia).
  destruct a as [z|[s|s| |[] m e]]; cbn [nonneg finite_nonneg fine_units units scaled];
    intros H; try lia.
  replace (e + 1120) with (e + 1074 + 46) by lia. rewrite P by lia. lia.
Qed.

(** [100 * w] for a weight that is not negative and below 2.56. *)
Lemma mul_100_spec (w : Py.num) :
  nonneg w -> 100 * fine_units w < 2 ^ 1128 ->
  exists p, Py.mul (Py.Int 100) w = Ok p /\ nonneg p
            /\ Z.abs (fine_units p - 100 * fine_units w) <= 2 ^ 1075.
Proof.
  destruct w as [z|y]; cbn [nonneg fine_units]; intros Hw HX.
  - rewrite PyFacts.mul_int. eexists. split; [reflexivity|].
    cbn [nonneg fine_units]. pose proof (pow2_pos 1075 ltac:(lia)). split; lia.
  - unfold Py.mul, Py.arith. cbn [Py.to_float]. rewrite float_of_int_100. cbn [bind].
    eexists. split; [reflexivity|]. cbn [nonneg fine_units].
    apply SFmul_100_spec; assumption.
Qed.

(** [a + b] for two numbers that are not negative and whose sum is below 512. *)
Lemma add_spec (a b : Py.num) :
  nonneg a -> nonneg b -> fine_units a + fine_units b < 2 ^ 1129 ->
  exists c, Py.add a b = Ok c /\ nonneg c
            /\ Z.abs (fine_units c - (fine_units a + fine_units b)) <= 6 * 2 ^ 1075.
Proof.
  intros Ha Hb HX.
  pose proof (fine_units_nonneg a Ha) as Na. pose proof (fine_units_nonneg b Hb) as Nb.
  destruct a as [x|f], b as [y|g]; cbn [nonneg fine_units] in *.
  - rewrite PyFacts.add_int. eexists. split; [reflexivity|].
    cbn [nonneg fine_units]. pose proof (pow2_pos 1075 ltac:(lia)). split; lia.
  - destruct (float_of_int_small x Ha ltac:(lia)) as (fx & Ex & Gx & Bx).
    unfold Py.add, Py.arith. cbn [Py.to_float]. rewrite Ex. cbn [bind].
    destruct (SFadd_spec fx g Gx Hb) as (G & B); [powers; lia|].
    eexists. split; [reflexivity|]. cbn [nonneg fine_units].
    split; [exact G | powers; lia].
  - destruct (float_of_int_small y Hb ltac:(lia)) as (fy & Ey & Gy & By).
    unfold Py.add, Py.arith. cbn [Py.to_float]. rewrite Ey. cbn [bind].
    destruct (SFadd_spec f fy Ha Gy) as (G & B); [powers; lia|].
    eexists. split; [reflexivity|]. cbn [nonneg fine_units].
    split; [exact G | powers; lia].
  - unfold Py.add, Py.arith. cbn [Py.to_float bind].
    destruct (SFadd_spec f g Ha Hb) as (G & B); [powers; lia|].
    eexists. split; [reflexivity|]. cbn [nonneg fine_units].
    split; [exact G | powers; lia].
Qed.


Lemma sum_fine_units_nonneg (ws : list (string * Py.num)) :
  (forall k w, In (k, w) ws -> nonneg w) -> 0 <= sum_fine_units ws.
Proof.
  induction ws as [|[k w] ws IH]; intros H; cbn [sum_fine_units fold_right]; [lia|].
  fold (sum_fine_units ws).
  pose proof (fine_units_nonneg w (H k w ltac:(left; reflexivity))).
  pose proof (IH ltac:(intros k' w' H'; apply (H k' w'); right; exact H')). lia.
Qed.

Lemma sum_fine_units_units (ws : list (string * Py.num)) :
  (forall k w, In (k, w) ws -> nonneg w) ->
  sum_fine_units ws = 70368744177664 * sum_units ws.
Proof.
  induction ws as [|[k w] ws IH]; intros H;
    cbn [sum_fine_units sum_units fold_right]; [lia|].
  fold (sum_fine_units ws). fold (sum_units ws).
  rewrite (fine_units_units w (H k w ltac:(left; reflexivity))).
  rewrite IH by (intros k' w' H'; apply (H k' w'); right; exact H'). lia.
Qed.

(** The running total of the products by 100 stays within 16 units of
    [2^-1045] per item of the exact sum, over at most five items. *)
Lemma sum_from_spec (ws : list (string * Py.num)) (t : Py.num) (A j : Z) :
  nonneg t -> (forall k w, In (k, w) ws -> nonneg w) ->
  0 <= j -> 0 <= A ->
  Z.abs (fine_units t - A) <= j * (16 * 2 ^ 1075) ->
  A + 100 * sum_fine_units ws <= 101 * 2 ^ 1120 ->
  j + Z.of_nat (length ws) <= 5 ->
  exists T,
    sum_from t (map (fun '(k, w) => Py.mul (Py.Int 100) w) ws) = Ok T
    /\ nonneg T
    /\ Z.abs (fine_units T - (A + 100 * sum_fine_units ws))
       <= (j + Z.of_nat (length ws)) * (16 * 2 ^ 1075).
Proof.
  revert t A j. induction ws as [|[k w] ws IH]; intros t A j Ht Hws Hj HA Hclose Htot Hlen.
  - cbn [map sum_from sum_fine_units fold_right length]. exists t.
    split; [reflexivity | split; [exact Ht|]].
    replace (A + 100 * 0) with A by lia. cbn [Z.of_nat]. lia.
  - cbn [map sum_from]. cbn [sum_fine_units fold_right] in Htot |- *.
    fold (sum_fine_units ws) in Htot |- *.
    assert (Hw : nonneg w) by (apply (Hws k w); left; reflexivity).
    assert (Hws' : forall k' w', In (k', w') ws -> nonneg w')
      by (intros k' w' H'; apply (Hws k' w'); right; exact H').
    pose proof (fine_units_nonneg w Hw) as Nw.
    pose proof (fine_units_nonneg t Ht) as Nt.
    pose proof (sum_fine_units_nonneg ws Hws') as Ns.
    rewrite length_cons, Nat2Z.inj_succ in Hlen |- *.
    assert (Hj4 : j * 2 ^ 1075 <= 4 * 2 ^ 1075)
      by (pose proof (pow2_pos 1075 ltac:(lia)); nia).
    destruct (mul_100_spec w Hw) as (p & Ep & Gp & Bp); [powers; lia|].
    rewrite Ep. cbn [bind].
    pose proof (fine_units_nonneg p Gp) as Np.
    destruct (add_spec t p Ht Gp) as (t' & Et & Gt & Bt); [powers; lia|].
    rewrite Et. cbn [bind].
    destruct (IH t' (A + 100 * fine_units w) (j + 1) Gt Hws' ltac:(lia) ltac:(lia))
      as (T & ET & GT & BT); [powers; lia | lia | lia |].
    exists T. split; [exact ET | split; [exact GT|]].
    replace (A + 100 * (fine_units w + sum_fine_units ws))
      with (A + 100 * fine_units w + 100 * sum_fine_units ws) by lia.
    replace (j + Z.succ (Z.of_nat (length ws))) with (j + 1 + Z.of_nat (length ws)) by lia.
    exact BT.
Qed.

(** A total within one half of 100 rounds to 100. *)
Lemma round_100 (t : Py.num) :
  nonneg t -> Z.abs (fine_units t - 100 * 2 ^ 1120) < 2 ^ 1119 ->
  Py.round t = Ok (Py.Int 100).
Proof.
  assert (U : 2 ^ 1120 = 2 * 2 ^ 1119) by reflexivity.
  pose proof (pow2_pos 1119 ltac:(lia)) as PH.
  destruct t as [z|[s|s| |[] m e]]; cbn [nonneg finite_nonneg fine_units scaled Py.round];
    try tauto.
  - intros _ H. do 2 f_equal. nia.
  - intros _ H. exfalso. lia.
  - intros He H. do 2 f_equal.
    destruct (0 <=? e) eqn:Ee.
    + apply Z.leb_le in Ee.
      rewrite Z.add_comm, pow2_split in H by lia.
      pose proof (pow2_pos e Ee). nia.
    + apply Z.leb_gt in Ee.
      set (k := - e) in *.
      assert (Hk : 1 <= k <= 1074) by (unfold k; lia).
      pose proof (pow2_pos (e + 1120) ltac:(lia)) as PQ.
      pose proof (pow2_pos (k - 1) ltac:(lia)) as PK.
      assert (E1 : 2 ^ 1119 = 2 ^ (k - 1) * 2 ^ (e + 1120)).
      { rewrite <- pow2_split by lia. f_equal. unfold k. lia. }
      assert (E2 : 2 ^ k = 2 * 2 ^ (k - 1)).
      { replace k with (1 + (k - 1)) at 1 by lia. rewrite pow2_split by lia. reflexivity. }
      rewrite U, E1 in H.
      assert (Hm : Z.abs (Z.pos m - 200 * 2 ^ (k - 1)) < 2 ^ (k - 1)) by nia.
      unfold Py.round_half_even. rewrite E2.
      set (K := 2 ^ (k - 1)) in *.
      pose proof (Z.div_mod (Z.pos m) (2 * K) ltac:(lia)) as DM.
      pose proof (Z.mod_pos_bound (Z.pos m) (2 * K) ltac:(lia)) as MB.
      set (q := Z.pos m / (2 * K)) in *. set (r := Z.pos m mod (2 * K)) in *.
      assert (Hq : q = 99 \/ q = 100) by nia.
      destruct (Z.compare_spec (2 * r) (2 * K)) as [C|C|C]; destruct Hq as [-> | ->];
        try lia; cbn; lia.
Qed.

Lemma best_metrics_normalized (k : string) :
  In k criteria -> normalized_value best_metrics k = Py.Int 100.
Proof.
  cbn [In criteria]. intros [<-|[<-|[<-|[<-|[<-|[]]]]]]; reflexivity.
Qed.

End Accuracy.

(** * The claims of the specification *)

(** ** The simulator *)

(** C1: the two worked calls of the specification.  With the base cost left
    at its default, [simulate('PVC','PET',20,10,False)] returns compliance
    72, cost delta 8, availability risk 20 and EPR gap reduction 0, and
    [simulate('PP','PP',30,20,True)] returns 74, 2, 48 and 50: the risk of
    the second call is the float 48.0, which is equal to 48. *)
Theorem C1_simulate_worked_calls :
  simulate_default "PVC" "PET" 20 10 false
  = Ok {| complianceScore := Py.Int 72; costDeltaPct := Py.Int 8;
          availabilityRisk := Py.Int 20; eprGapReduction := Py.Int 0 |}
  /\ simulate_default "PP" "PP" 30 20 true
     = Ok {| complianceScore := Py.Int 74; costDeltaPct := Py.Int 2;
             availabilityRisk := Py.Float float_48; eprGapReduction := Py.Int 50 |}
  /\ Py.eqb (Py.Float float_48) (Py.Int 48) = true.
Proof.
  repeat split; vm_compute; reflexivity.
Qed.










(** ** The scorer *)

(** C2, as stated, fails: the weights 1e308, -1e308, 1.0, 0.0 and 0.0 on
    the five criteria sum to 1.0, exactly and as Python adds them, and at
    the best metrics the products overflow to infinities of both signs,
    whose sum is NaN: [round] raises [ValueError] and no 100 is returned. *)
Lemma C2_counterexample :
  keys cancelling_weights = criteria
  /\ sum_units cancelling_weights = 2 ^ 1074
  /\ sum (map (fun '(_, w) => Ok w) cancelling_weights) = Ok (Py.Float Py.lit_1_0)
  /\ mcda_score best_metrics cancelling_weights = Raise ValueError.
Proof.
  repeat split; vm_compute; reflexivity.
Qed.

(** C2, amended: for every weights bundle with exactly the five criteria
    whose weights are finite, not negative, and sum to 1.0 (to within one
    part in a thousand, which covers the binary64 values of weights such as
    0.30, 0.20, 0.15, 0.20, 0.15), the score of the metrics bundle with
    compliance, availability, recyclability and traceability at 100 and
    cost at 0 is exactly 100. *)
Theorem C2_best_metrics_score (ws : list (string * Py.num)) :
  Permutation (keys ws) criteria ->
  (forall k w, In (k, w) ws -> nonneg w) ->
  Z.abs (sum_units ws - 2 ^ 1074) * 1000 <= 2 ^ 1074 ->
  mcda_score best_metrics ws = Ok (Py.Int 100).
Proof.
  intros HP Hnn Hsum.
  assert (ND : List.NoDup (keys ws)).
  { apply (Permutation_NoDup (Permutation_sym HP)).
    unfold criteria. repeat constructor; simpl; intuition discriminate. }
  assert (Hsub : forall k, In k (keys ws) -> In k criteria)
    by (intros k Hk; apply (Permutation_in _ HP), Hk).
  assert (Hlen : length ws = 5%nat).
  { apply Permutation_length in HP. unfold keys in HP. rewrite length_map in HP. exact HP. }
  rewrite (mcda_score_known_keys best_metrics ws (bundle_has_criteria _ _ _ _ _) ND Hsub).
  unfold weighted_sum, sum.
  assert (Items : map (fun '(k, w) => Py.mul (normalized_value best_metrics k) w) ws
                  = map (fun '(k, w) => Py.mul (Py.Int 100) w) ws).
  { apply map_ext_in. intros [k w] HIn.
    rewrite Accuracy.best_metrics_normalized; [reflexivity|].
    apply Hsub. unfold keys. apply (in_map fst) in HIn. exact HIn. }
  rewrite Items.
  pose proof (Accuracy.sum_fine_units_units ws Hnn) as HF.
  pose proof (Rounding.pow2_pos 1075 ltac:(lia)) as P.
  assert (U : 2 ^ 1120 = 70368744177664 * 2 ^ 1074) by reflexivity.
  assert (U' : 2 ^ 1120 = 35184372088832 * 2 ^ 1075) by reflexivity.
  assert (U'' : 2 ^ 1119 = 17592186044416 * 2 ^ 1075) by reflexivity.
  assert (H0 : Z.abs (fine_units (Py.Int 0) - 0) <= 0 * (16 * 2 ^ 1075))
    by (cbn [fine_units]; lia).
  assert (Htot : 0 + 100 * sum_fine_units ws <= 101 * 2 ^ 1120) by lia.
  assert (Hfive : 0 + Z.of_nat (length ws) <= 5) by lia.
  destruct (Accuracy.sum_from_spec ws (Py.Int 0) 0 0
              ltac:(cbn [nonneg]; lia) Hnn ltac:(lia) ltac:(lia) H0 Htot Hfive)
    as (T & ET & GT & BT).
  rewrite ET. cbn [bind].
  apply Accuracy.round_100; [exact GT|].
  rewrite Hlen in BT. change (Z.of_nat 5) with 5 in BT.
  lia.
Qed.

Lemma C2_best_metrics_score_witness :
  mcda_score best_metrics dashboard_weights = Ok (Py.Int 100).
Proof.
  apply (C2_best_metrics_score dashboard_weights).
  - apply Permutation_refl.
  - intros k w H. vm_compute in H.
    repeat (destruct H as [H|H]; [inversion H; subst; vm_compute; intuition discriminate|]).
    destruct H.
  - apply Z.leb_le. vm_compute. reflexivity.
Defined.




(** C9, as stated, fails: a weights bundle with the single key compliance
    and the weight 1e308 misses four criteria, and the call does not
    succeed: the weighted sum overflows to infinity and [round] raises
    [OverflowError]. *)
Lemma C9_counterexample :
  (forall k, In k (keys [("compliance"%string, Py.Float float_1e308)]) -> In k criteria)
  /\ mcda_score best_metrics [("compliance"%string, Py.Float float_1e308)]
     = Raise OverflowError.
Proof.
  split.
  - simpl. intuition auto.
  - vm_compute. reflexivity.
Qed.

(** C9, amended: the scorer sums over exactly the keys of the weights
    bundle.  On a metrics bundle with the five criteria: when every key of
    the weights is a criterion (some may be missing), no key lookup fails
    and the outcome is that of [round] on the weighted sum over only the
    criteria present, so the rounded sum is returned unless the arithmetic
    itself raises; when some key is no criterion, the call does not return,
    and it raises [KeyError] unless converting an integer beyond the float
    range has raised [OverflowError] before that key is reached.  On
    integer-valued bundles the first case returns the exact sum and the
    second raises [KeyError]. *)
Theorem C9_sums_over_weight_keys (metrics : gmap string Py.num)
    (ws : list (string * Py.num)) :
  has_criteria metrics -> List.NoDup (keys ws) ->
  ((forall k, In k (keys ws) -> In k criteria) ->
     mcda_score metrics ws
     = (let! total := weighted_sum (normalized_value metrics) ws in Py.round total)
     /\ mcda_score metrics ws <> Raise KeyError
     /\ (forall zs, int_metrics metrics -> ws = int_bundle zs ->
           mcda_score metrics ws
           = Ok (Py.Int (int_weighted_sum (normalized_int metrics) zs))))
  /\ (~ (forall k, In k (keys ws) -> In k criteria) ->
        ~ returns (mcda_score metrics ws)
        /\ (mcda_score metrics ws = Raise KeyError
            \/ mcda_score metrics ws = Raise OverflowError)
        /\ (forall zs, int_metrics metrics -> ws = int_bundle zs ->
              mcda_score metrics ws = Raise KeyError)).
Proof.
  intros HC ND. split.
  - intros Hsub.
    pose proof (mcda_score_known_keys metrics ws HC ND Hsub) as E.
    split; [exact E | split].
    + rewrite E. unfold weighted_sum, sum.
      destruct (sum_from _ _) as [t|e] eqn:S; cbn [bind].
      * intros R. apply round_raises in R. destruct R; discriminate.
      * apply sum_from_products_raises in S. subst e. discriminate.
    + intros zs HM ->. rewrite keys_int_bundle in ND, Hsub.
      apply mcda_score_int; assumption.
  - intros Hno.
    destruct (first_unknown_key ws Hno) as (pre & k & w & post & -> & Hpre & Hk).
    pose proof (mcda_score_unknown_key metrics pre post k w HC ND Hpre Hk) as E.
    assert (C : mcda_score metrics (pre ++ (k, w) :: post) = Raise KeyError
                \/ mcda_score metrics (pre ++ (k, w) :: post) = Raise OverflowError).
    { rewrite E. unfold weighted_sum, sum.
      destruct (sum_from _ _) as [t|e] eqn:S; cbn [bind]; [left; reflexivity|].
      apply sum_from_products_raises in S. subst e. right; reflexivity. }
    split; [|split; [exact C|]].
    + intros [v Hv]. destruct C as [C|C]; rewrite C in Hv; discriminate.
    + intros zs HM Hzs. rewrite E.
      assert (P : exists zp, pre = int_bundle zp
                             /\ forall k', In k' (map fst zp) -> In k' criteria).
      { exists (firstn (length pre) zs). split.
        - unfold int_bundle in *. rewrite <- firstn_map, <- Hzs.
          rewrite firstn_app, Nat.sub_diag, firstn_all. cbn [firstn].
          rewrite app_nil_r. reflexivity.
        - intros k' Hk'. apply Hpre.
          assert (Q : keys pre = map fst (firstn (length pre) zs)).
          { rewrite <- keys_int_bundle. unfold int_bundle. rewrite <- firstn_map.
            fold (int_bundle zs). rewrite <- Hzs.
            rewrite firstn_app, Nat.sub_diag, firstn_all. cbn [firstn].
            rewrite app_nil_r. reflexivity. }
          rewrite Q. exact Hk'. }
      destruct P as (zp & -> & Hzp).
      unfold weighted_sum, sum. rewrite (sum_from_int metrics zp 0 HM Hzp).
      reflexivity.
Qed.

Lemma C9_sums_over_weight_keys_witness :
  (mcda_score option_A [("cost"%string, Py.Int 2)] = Ok (Py.Int 120)
   /\ mcda_score option_A [("cost"%string, Py.Int 2)] <> Raise KeyError)
  /\ ~ returns (mcda_score option_A [("price"%string, Py.Int 2)]).
Proof.
  pose proof (C9_sums_over_weight_keys option_A [("cost"%string, Py.Int 2)]
                (bundle_has_criteria _ _ _ _ _)
                ltac:(repeat constructor; simpl; intuition discriminate)) as [A _].
  pose proof (C9_sums_over_weight_keys option_A [("price"%string, Py.Int 2)]
                (bundle_has_criteria _ _ _ _ _)
                ltac:(repeat constructor; simpl; intuition discriminate)) as [_ B].
  split.
  - destruct A as (E & NK & _); [simpl; intuition auto|].
    split; [rewrite E; vm_compute; reflexivity | exact NK].
  - destruct B as (NR & _).
    + intros H. specialize (H "price"%string ltac:(simpl; auto)).
      simpl in H. intuition discriminate.
    + exact NR.
Defined.

(** ** The deadline calculator *)

(** C7: with today's date as an input, the ISO text of a valid deadline
    strictly before today gives exactly 0, the ISO text of a valid deadline
    [D >= 0] days after today gives exactly [D], and no returned count is
    negative. *)
Theorem C7_days_to_deadline (today deadline : date) :
  valid_date today -> valid_date deadline ->
  (date_lt deadline today ->
     days_to_deadline today (isoformat deadline) = Ok (Py.Int 0))
  /\ (forall D, 0 <= D -> toordinal deadline = toordinal today + D ->
        days_to_deadline today (isoformat deadline) = Ok (Py.Int D))
  /\ (forall s v, days_to_deadline today s = Ok v -> exists n, v = Py.Int n /\ 0 <= n).
Proof.
  intros Vt Vd.
  pose proof (Parsing.strptime_complete _ _ Vd (Parsing.isoformat_rendering deadline)) as R.
  pose proof (days_to_deadline_read today deadline _ R) as E.
  split; [|split].
  - intros Hlt. pose proof (Calendar.toordinal_lt _ _ Vd Vt Hlt).
    rewrite E. do 2 f_equal. lia.
  - intros D HD HO. rewrite E. do 2 f_equal. lia.
  - intros s v H. unfold days_to_deadline in H. bind_inv H.
    rewrite PyFacts.max_int in H. inversion H; subst.
    eexists. split; [reflexivity | lia].
Qed.

Lemma C7_days_to_deadline_witness :
  days_to_deadline today_2026_11_03 "2026-03-31" = Ok (Py.Int 0)
  /\ days_to_deadline today_2026_11_03 "2026-12-31" = Ok (Py.Int 58).
Proof.
  assert (Vt : valid_date today_2026_11_03) by (vm_compute; intuition discriminate).
  assert (V1 : valid_date {| year := 2026; month := 3; day := 31 |})
    by (vm_compute; intuition discriminate).
  assert (V2 : valid_date {| year := 2026; month := 12; day := 31 |})
    by (vm_compute; intuition discriminate).
  destruct (C7_days_to_deadline today_2026_11_03
              {| year := 2026; month := 3; day := 31 |} Vt V1) as (A & _ & _).
  destruct (C7_days_to_deadline today_2026_11_03
              {| year := 2026; month := 12; day := 31 |} Vt V2) as (_ & B & _).
  split.
  - apply A. right. split; [reflexivity | left; vm_compute; reflexivity].
  - apply (B 58); [lia | vm_compute; reflexivity].
Defined.




(** * Further properties of the engine and of its callers *)


(** ** The simulator *)

(** With a base cost of 0 the cost part divides by zero, whatever follows
    it. *)
Lemma simulate_zero_base_cost_aux (pet t : bool) (k : Py.num -> result SimulationResult) :
  (let! with_material :=
     Py.mul (Py.Int 0) (if pet then Py.Float Py.lit_1_08 else Py.Float Py.lit_1_0) in
   let! markup := Py.add (Py.Int 1) (if t then Py.Float Py.lit_0_02 else Py.Int 0) in
   let! new_cost := Py.mul with_material markup in
   let! delta := Py.sub new_cost (Py.Int 0) in
   let! ratio := Py.truediv delta (Py.Int 0) in
   k ratio) = Raise ZeroDivisionError.
Proof. destruct pet, t; vm_compute; reflexivity. Qed.

(** X1: with [base_cost_per_unit] 0, [simulate] raises [ZeroDivisionError]
    on every input: the cost delta divides by the base cost. *)
Theorem simulate_zero_base_cost (mf mt : string) (r l : Z) (t : bool) :
  simulate mf mt r l t 0 = Raise ZeroDivisionError.
Proof.
  unfold simulate.
  assert (B : (if String.eqb mf "PVC" && String.eqb mt "PET" then Py.Int 12 else Py.Int 4)
              = Py.Int (material_boost mf mt))
    by (unfold material_boost; destruct (_ && _); reflexivity).
  rewrite B. clear B.
  repeat first
    [ rewrite PyFacts.add_int | rewrite PyFacts.sub_int
    | rewrite PyFacts.max_int | rewrite PyFacts.min_int | progress cbn [bind] ].
  apply simulate_zero_base_cost_aux.
Qed.

(** The cost delta of a returned result is that of the cost part, which
    reads the target material, the traceability and the base cost only. *)
Lemma simulate_cost (mf mt : string) (r l : Z) (t : bool) (b : Z) (res : SimulationResult) :
  simulate mf mt r l t b = Ok res -> cost_delta_pct mt t b = Ok (costDeltaPct res).
Proof.
  unfold simulate, cost_delta_pct. intros H.
  assert (B : (if String.eqb mf "PVC" && String.eqb mt "PET" then Py.Int 12 else Py.Int 4)
              = Py.Int (material_boost mf mt))
    by (unfold material_boost; destruct (_ && _); reflexivity).
  rewrite B in H. clear B.
  repeat first
    [ rewrite PyFacts.add_int in H | rewrite PyFacts.sub_int in H
    | rewrite PyFacts.max_int in H | rewrite PyFacts.min_int in H
    | progress cbn [bind] in H ].
  bind_inv H. rewrite E. cbn [bind]. clear E.
  bind_inv H. rewrite E. cbn [bind]. clear E.
  bind_inv H. rewrite E. cbn [bind]. clear E.
  bind_inv H. rewrite E. cbn [bind]. clear E.
  bind_inv H. rewrite E. cbn [bind]. clear E.
  bind_inv H. rewrite E. cbn [bind]. clear E.
  bind_inv H. rewrite E. clear E.
  repeat first
    [ rewrite PyFacts.add_int in H | rewrite PyFacts.sub_int in H
    | rewrite PyFacts.mul_int in H | rewrite PyFacts.max_int in H
    | progress cbn [bind Py.round] in H | bind_inv H ].
  inversion H; subst. reflexivity.
Qed.

Lemma cost_delta_pct_default (mt : string) (t : bool) :
  cost_delta_pct mt t 10
  = Ok (Py.Int ((if String.eqb mt "PET" then 8 else 0) + (if t then 2 else 0))).
Proof.
  unfold cost_delta_pct. destruct (String.eqb mt "PET"), t; vm_compute; reflexivity.
Qed.

(** X2: with the default base cost of 10, the cost delta of a returned
    result is 8 for a substitution to PET and 0 for any other target, plus 2
    when traceability is enabled: 0, 2, 8 or 10, whatever the source
    material, the recycled content and the lead time. *)
Theorem cost_delta_table (mf mt : string) (r l : Z) (t : bool) (res : SimulationResult) :
  simulate mf mt r l t 10 = Ok res ->
  costDeltaPct res
  = Py.Int ((if String.eqb mt "PET" then 8 else 0) + (if t then 2 else 0)).
Proof.
  intros H. apply simulate_cost in H. rewrite cost_delta_pct_default in H.
  inversion H. reflexivity.
Qed.

Lemma cost_delta_table_witness :
  exists res,
    simulate "PVC" "PET" 22 14 true 10 = Ok res /\ costDeltaPct res = Py.Int 10.
Proof.
  eexists. split; [vm_compute; reflexivity|].
  apply (cost_delta_table "PVC" "PET" 22 14 true). vm_compute. reflexivity.
Defined.

(** X3: with a recycled content at or below the target of 20, the
    availability risk of a returned result is the integer
    [min(95, 20 + max(0, (lead_time_days - 10) * 2))]: it does not depend on
    the recycled content, the materials, the traceability or the base
    cost. *)
Theorem availability_at_or_below_target (mf mt : string) (r l : Z) (t : bool) (b : Z)
    (res : SimulationResult) :
  r <= 20 ->
  simulate mf mt r l t b = Ok res ->
  availabilityRisk res = Py.Int (Z.min 95 (20 + Z.max 0 ((l - 10) * 2))).
Proof.
  intros Hr H. apply simulate_Ok in H.
  destruct H as (_ & _ & scarce & risk2 & Hs & Ha & ->).
  rewrite (scarce_dropped r scarce Hr Hs) in Ha.
  rewrite PyFacts.add_int in Ha. inversion Ha; subst.
  rewrite PyFacts.min_int. do 2 f_equal. lia.
Qed.

Lemma availability_at_or_below_target_witness :
  exists res,
    simulate "PVC" "PP" 5 30 false 10 = Ok res /\ availabilityRisk res = Py.Int 60.
Proof.
  eexists. split; [vm_compute; reflexivity|].
  apply (availability_at_or_below_target "PVC" "PP" 5 30 false 10);
    [lia | vm_compute; reflexivity].
Defined.

(** *** Integers beyond the float range *)

Module Overflow.

Import Rounding.

(** A value of at least [2^1024] rounds to an infinity. *)
Lemma round_aux_overflow (s : bool) (m : positive) (e : Z) :
  -1074 <= e ->
  e <= fexp Py.prec Py.emax (Z.pos (digits2_pos m) + e) ->
  1025 <= Z.pos (digits2_pos m) + e ->
  binary_round_aux Py.prec Py.emax s (Z.pos m) e loc_Exact = S754_infinity s.
Proof.
  intros He Hcanon Hbig.
  pose proof (digits_bounds m) as [Ld Ud].
  set (d := Z.pos (digits2_pos m)) in *.
  assert (Hd : 1 <= d) by (unfold d; lia).
  unfold fexp, Py.prec, Py.emax, emin in Hcanon.
  unfold binary_round_aux, shr_fexp, fexp, Py.prec, Py.emax, emin.
  cbn [Zdigits2]. fold d.
  change (3 - 1024 - 53) with (-1074) in *.
  set (fe := Z.max (d + e - 53) (-1074)) in *.
  set (n1 := fe - e).
  assert (Hn1 : 0 <= n1) by (unfold n1; lia).
  destruct (shr_exact (Z.pos m) e n1 ltac:(lia)) as [Hq He1].
  destruct (shr (shr_record_of_loc (Z.pos m) loc_Exact) e n1) as [mrs1 e1].
  cbn [fst snd] in Hq, He1.
  rewrite Z.max_r in Hq, He1 by lia.
  assert (He1' : e1 = fe) by (unfold n1 in He1; lia).
  set (q := shr_m mrs1) in *.
  pose proof (pow2_pos n1 Hn1) as PN.
  assert (Hq1 : q * 2 ^ n1 <= Z.pos m < (q + 1) * 2 ^ n1).
  { rewrite Hq. pose proof (Z.mul_div_le (Z.pos m) (2 ^ n1) PN).
    pose proof (Z.mul_succ_div_gt (Z.pos m) (2 ^ n1) PN). lia. }
  assert (Hq53 : q < 2 ^ 53).
  { assert (2 ^ d <= 2 ^ (53 + n1)) by (apply pow2_le; unfold n1, fe; lia).
    rewrite pow2_split in H by lia. nia. }
  assert (Hq52 : 2 ^ 52 <= q).
  { assert (E : 2 ^ (d - 1) = 2 ^ 52 * 2 ^ n1).
    { rewrite <- pow2_split by lia. f_equal. unfold n1, fe. lia. }
    nia. }
  set (m1 := round_nearest_even q (loc_of_shr_record mrs1)).
  assert (Hm1 : m1 = q \/ m1 = q + 1) by apply round_nearest_even_cases.
  assert (Hm1' : 2 ^ 52 <= m1 <= 2 ^ 53) by lia.
  set (n2 := Z.max (Zdigits2 m1 + e1 - 53) (-1074) - e1).
  destruct (shr_exact m1 e1 n2 ltac:(lia)) as [Hm2 He2].
  destruct (shr (shr_record_of_loc m1 loc_Exact) e1 n2) as [mrs2 e2].
  cbn [fst snd] in Hm2, He2.
  assert (P52 : 0 < 2 ^ 52) by (apply pow2_pos; lia).
  assert (Hcases : (Z.max 0 n2 = 0) \/ (Z.max 0 n2 = 1 /\ m1 = 2 ^ 53)).
  { unfold n2. destruct m1 as [|p1|p1]; cbn [Zdigits2]; [left; lia | | lia].
    destruct (digits_le_2p53 p1 ltac:(lia)) as [H53|[H54 Hp]]; [left; lia | right; lia]. }
  assert (Hm2' : 0 < shr_m mrs2).
  { destruct Hcases as [Hz|[Hz Hp]]; rewrite Hz in Hm2.
    - rewrite Z.div_1_r in Hm2. lia.
    - rewrite Hm2, Hp. change (2 ^ 53 / 2 ^ 1) with (2 ^ 52). exact P52. }
  assert (He2' : 972 <= e2) by (unfold fe in He1'; lia).
  destruct (shr_m mrs2) as [|p2|p2]; [lia | | lia].
  assert (L : (e2 <=? 1024 - 53) = false) by (apply Z.leb_gt; lia).
  rewrite L. reflexivity.
Qed.

(** An [int] of magnitude [2^1024] or more does not convert. *)
Lemma float_of_int_overflow (z : Z) :
  2 ^ 1024 <= Z.abs z -> Py.float_of_int z = Raise OverflowError.
Proof.
  intros H.
  assert (R : forall s p, 2 ^ 1024 <= Z.pos p ->
                binary_round Py.prec Py.emax s p 0 = S754_infinity s).
  { intros s p Hp. unfold binary_round.
    pose proof (digits_bounds p) as [Ld Ud].
    assert (Hd : 1025 <= Z.pos (digits2_pos p)).
    { assert (1024 < Z.pos (digits2_pos p)) by (apply pow2_lt_inv; lia). lia. }
    pose proof (shl_align_spec p 0 (fexp Py.prec Py.emax (Z.pos (digits2_pos p) + 0))) as A.
    destruct (shl_align p 0 _) as [mz ez]. destruct A as (Hez & Hmz & Hdz).
    assert (Hfe : fexp Py.prec Py.emax (Z.pos (digits2_pos p) + 0)
                  = Z.pos (digits2_pos p) - 53)
      by (unfold fexp, emin, Py.prec, Py.emax; lia).
    rewrite Hfe in Hez.
    apply round_aux_overflow.
    - lia.
    - rewrite Hdz. unfold fexp, emin, Py.prec, Py.emax. lia.
    - lia. }
  unfold Py.float_of_int.
  destruct z as [|p|p]; cbn [binary_normalize].
  - simpl in H. pose proof (pow2_pos 1024 ltac:(lia)). lia.
  - rewrite R by (simpl in H; lia). reflexivity.
  - rewrite R by (simpl in H; lia). reflexivity.
Qed.

End Overflow.

(** X4: with the default base cost, a recycled content that is
    [2^1024] or more away from the target makes [simulate] raise
    [OverflowError]: the difference is an [int] that cannot be converted to
    a float for the product by 0.8. *)
Theorem simulate_overflow (mf mt : string) (r l : Z) (t : bool) :
  2 ^ 1024 <= Z.abs (r - 20) ->
  simulate mf mt r l t 10 = Raise OverflowError.
Proof.
  intros H. unfold simulate.
  assert (B : (if String.eqb mf "PVC" && String.eqb mt "PET" then Py.Int 12 else Py.Int 4)
              = Py.Int (material_boost mf mt))
    by (unfold material_boost; destruct (_ && _); reflexivity).
  rewrite B. clear B.
  repeat first
    [ rewrite PyFacts.add_int | rewrite PyFacts.sub_int
    | rewrite PyFacts.max_int | rewrite PyFacts.min_int | progress cbn [bind] ].
  pose proof (cost_delta_pct_default mt t) as C. unfold cost_delta_pct in C.
  repeat rewrite bind_assoc in C.
  apply bind_Ok in C. destruct C as (v1 & E1 & C). rewrite E1. cbn [bind].
  apply bind_Ok in C. destruct C as (v2 & E2 & C). rewrite E2. cbn [bind].
  apply bind_Ok in C. destruct C as (v3 & E3 & C). rewrite E3. cbn [bind].
  apply bind_Ok in C. destruct C as (v4 & E4 & C). rewrite E4. cbn [bind].
  apply bind_Ok in C. destruct C as (v5 & E5 & C). rewrite E5. cbn [bind].
  apply bind_Ok in C. destruct C as (v6 & E6 & C). rewrite E6. cbn [bind].
  rewrite C. cbn [bind].
  rewrite PyFacts.mul_int. cbn [bind].
  unfold Py.mul at 1, Py.arith. cbn [Py.to_float].
  rewrite (Overflow.float_of_int_overflow (r - 20) H). reflexivity.
Qed.

Lemma simulate_overflow_witness :
  simulate "PVC" "PET" (2 ^ 1024 + 20) 14 true 10 = Raise OverflowError.
Proof.
  apply (simulate_overflow "PVC" "PET" (2 ^ 1024 + 20) 14 true).
  vm_compute. discriminate.
Defined.

(** ** The scorer *)

(** X5: when the metrics bundle lacks one of the five criteria,
    [mcda_score] raises [KeyError] whatever the weights are, even when the
    weights do not use that criterion: all five are read before the sum. *)
Theorem mcda_score_missing_criterion (metrics : gmap string Py.num)
    (ws : list (string * Py.num)) (k : string) :
  In k criteria -> metrics !! k = None ->
  mcda_score metrics ws = Raise KeyError.
Proof.
  intros Hk Hnone. unfold mcda_score, getitem at 1 2 3 4 5.
  cbn [In criteria] in Hk.
  destruct (metrics !! "compliance"%string) as [c|] eqn:Ec; cbn [bind];
    [|reflexivity].
  destruct (metrics !! "cost"%string) as [co|] eqn:Eco; cbn [bind];
    [|reflexivity].
  rewrite sub_100. cbn [bind].
  destruct (metrics !! "availability"%string) as [a|] eqn:Ea; cbn [bind];
    [|reflexivity].
  destruct (metrics !! "recyclability"%string) as [rc|] eqn:Erc; cbn [bind];
    [|reflexivity].
  destruct (metrics !! "traceability"%string) as [tr|] eqn:Etr; cbn [bind];
    [|reflexivity].
  exfalso. destruct Hk as [<-|[<-|[<-|[<-|[<-|[]]]]]]; congruence.
Qed.

Lemma mcda_score_missing_criterion_witness :
  mcda_score (<["compliance"%string := Py.Int 80]> ∅) [] = Raise KeyError.
Proof.
  apply (mcda_score_missing_criterion _ [] "cost"%string).
  - simpl. tauto.
  - reflexivity.
Defined.

(** X6: with an empty weights bundle and a metrics bundle that has the
    five criteria, [mcda_score] returns the integer 0, whatever the values
    of the metrics. *)
Theorem mcda_score_no_weights (metrics : gmap string Py.num) :
  has_criteria metrics -> mcda_score metrics [] = Ok (Py.Int 0).
Proof.
  intros HC. rewrite mcda_score_known_keys; [reflexivity | exact HC | constructor |].
  intros k [].
Qed.

Lemma mcda_score_no_weights_witness : mcda_score option_A [] = Ok (Py.Int 0).
Proof.
  apply (mcda_score_no_weights option_A). apply bundle_has_criteria.
Defined.

(** *** The order of the weights *)

Lemma int_weighted_sum_perm (norm : string -> Z) (ws ws' : list (string * Z)) :
  Permutation ws ws' -> int_weighted_sum norm ws = int_weighted_sum norm ws'.
Proof.
  induction 1 as [|[k z] ws ws' _ IH|[k1 z1] [k2 z2] ws|ws1 ws2 ws3 _ IH1 _ IH2].
  - reflexivity.
  - cbn [int_weighted_sum fold_right]. fold (int_weighted_sum norm ws).
    fold (int_weighted_sum norm ws'). rewrite IH. reflexivity.
  - cbn [int_weighted_sum fold_right]. lia.
  - rewrite IH1. exact IH2.
Qed.

(** The items of an integer bundle over integer metrics: the exact sum, or
    [KeyError] at the first key that is no criterion. *)
Lemma sum_from_int_items (metrics N : gmap string Py.num) (ws : list (string * Z)) (t : Z) :
  int_metrics metrics ->
  (forall k, In k criteria -> getitem N k = Ok (normalized_value metrics k)) ->
  (forall k, ~ In k criteria -> getitem N k = Raise KeyError) ->
  sum_from (Py.Int t)
    (map (fun '(k, w) => let! n := getitem N k in Py.mul n w) (int_bundle ws))
  = if forallb (fun '(k, _) => if in_dec string_dec k criteria then true else false) ws
    then Ok (Py.Int (t + int_weighted_sum (normalized_int metrics) ws))
    else Raise KeyError.
Proof.
  intros HM HN HN'. revert t. induction ws as [|[k z] ws IH]; intros t.
  - cbn. do 2 f_equal. lia.
  - cbn [int_bundle map sum_from forallb int_weighted_sum fold_right].
    fold (int_bundle ws). fold (int_weighted_sum (normalized_int metrics) ws).
    destruct (in_dec string_dec k criteria) as [Hin|Hout].
    + rewrite (HN k Hin), (normalized_value_int metrics k HM Hin). cbn [bind andb].
      rewrite PyFacts.mul_int. cbn [bind]. rewrite PyFacts.add_int. cbn [bind].
      rewrite IH. destruct (forallb _ ws); [|reflexivity].
      do 2 f_equal. lia.
    + rewrite (HN' k Hout). reflexivity.
Qed.

Lemma forallb_perm {A : Type} (f : A -> bool) (xs ys : list A) :
  Permutation xs ys -> forallb f xs = forallb f ys.
Proof.
  induction 1 as [|x xs ys _ IH|x y xs|xs ys zs _ IH1 _ IH2]; cbn [forallb].
  - reflexivity.
  - rewrite IH. reflexivity.
  - destruct (f x), (f y); reflexivity.
  - rewrite IH1. exact IH2.
Qed.

(** X7: on integer metrics and integer weights the outcome of
    [mcda_score] does not depend on the order of the items of the weights
    bundle: the same score, or [KeyError] for both orders. *)
Theorem mcda_score_int_order (metrics : gmap string Py.num) (ws ws' : list (string * Z)) :
  int_metrics metrics -> List.NoDup (map fst ws) -> Permutation ws ws' ->
  mcda_score metrics (int_bundle ws) = mcda_score metrics (int_bundle ws').
Proof.
  intros HM ND HP.
  assert (ND' : List.NoDup (map fst ws'))
    by (eapply Permutation_NoDup; [apply Permutation_map, HP | exact ND]).
  pose proof (int_metrics_has_criteria metrics HM) as HC.
  destruct (mcda_score_unfold metrics (int_bundle ws) HC
              ltac:(rewrite keys_int_bundle; exact ND)) as (N & HN & HN' & ->).
  destruct (mcda_score_unfold metrics (int_bundle ws') HC
              ltac:(rewrite keys_int_bundle; exact ND')) as (N2 & HN2 & HN2' & ->).
  unfold sum.
  rewrite (sum_from_int_items metrics N ws 0 HM HN HN').
  rewrite (sum_from_int_items metrics N2 ws' 0 HM HN2 HN2').
  rewrite (forallb_perm _ ws ws' HP), (int_weighted_sum_perm _ ws ws' HP).
  reflexivity.
Qed.

Lemma mcda_score_int_order_witness :
  mcda_score option_A (int_bundle [("cost", 2); ("compliance", 3)]%string)
  = mcda_score option_A (int_bundle [("compliance", 3); ("cost", 2)]%string).
Proof.
  apply (mcda_score_int_order option_A).
  - apply bundle_int_metrics.
  - repeat constructor; simpl; intuition discriminate.
  - apply perm_swap.
Defined.

(** ** The deadline calculator *)

(** A returned count is that of the date the text is read as. *)
Lemma days_to_deadline_Ok (today : date) (s : string) (v : Py.num) :
  days_to_deadline today s = Ok v ->
  exists d, strptime s = Ok d /\ v = Py.Int (Z.max 0 (toordinal d - toordinal today)).
Proof.
  unfold days_to_deadline. intros H. bind_inv H.
  rewrite PyFacts.max_int in H. inversion H; subst. eauto.
Qed.

(** X8: when a text gives the count [n] today, it gives
    [max(0, n - k)] on the day [k] days later: the count goes down by one a
    day until it reaches 0, and stays there. *)
Theorem days_to_deadline_countdown (today later : date) (s : string) (n k : Z) :
  0 <= k -> toordinal later = toordinal today + k ->
  days_to_deadline today s = Ok (Py.Int n) ->
  days_to_deadline later s = Ok (Py.Int (Z.max 0 (n - k))).
Proof.
  intros Hk Hl H. apply days_to_deadline_Ok in H. destruct H as (d & E & Hn).
  rewrite (days_to_deadline_read later d s E). inversion Hn; subst.
  do 2 f_equal. lia.
Qed.

Lemma days_to_deadline_countdown_witness :
  days_to_deadline {| year := 2026; month := 3; day := 1 |} "2026-03-31"
  = Ok (Py.Int (Z.max 0 (89 - 59))).
Proof.
  apply (days_to_deadline_countdown {| year := 2026; month := 1; day := 1 |}
           {| year := 2026; month := 3; day := 1 |} "2026-03-31" 89 59).
  - lia.
  - vm_compute. reflexivity.
  - vm_compute. reflexivity.
Defined.

(** X9: for the same day, a text read as a later date never gives a
    smaller count than a text read as an earlier one, and it gives a
    strictly larger one when its count is positive. *)
Theorem days_to_deadline_order (today d1 d2 : date) (s1 s2 : string) (n1 n2 : Z) :
  strptime s1 = Ok d1 -> strptime s2 = Ok d2 -> date_lt d1 d2 ->
  days_to_deadline today s1 = Ok (Py.Int n1) ->
  days_to_deadline today s2 = Ok (Py.Int n2) ->
  n1 <= n2 /\ (0 < n2 -> n1 < n2).
Proof.
  intros E1 E2 Hlt H1 H2.
  rewrite (days_to_deadline_read today d1 s1 E1) in H1.
  rewrite (days_to_deadline_read today d2 s2 E2) in H2.
  inversion H1; inversion H2; subst.
  apply Parsing.strptime_sound in E1, E2.
  pose proof (Calendar.toordinal_lt d1 d2 (proj1 E1) (proj1 E2) Hlt). lia.
Qed.

Lemma days_to_deadline_order_witness :
  89 <= 150 /\ (0 < 150 -> 89 < 150).
Proof.
  apply (days_to_deadline_order {| year := 2026; month := 1; day := 1 |}
           {| year := 2026; month := 3; day := 31 |}
           {| year := 2026; month := 5; day := 31 |} "2026-03-31" "2026-05-31").
  - vm_compute. reflexivity.
  - vm_compute. reflexivity.
  - right. split; [reflexivity | left; vm_compute; reflexivity].
  - vm_compute. reflexivity.
  - vm_compute. reflexivity.
Defined.

(** ** The timeline *)

(** The entry of a readable rule, followed by the entries of the rest. *)
Lemma timeline_cons (today : date) (r : gmap string string) (rest : list (gmap string string))
    (id s : string) (d : date) :
  r !! "id"%string = Some id -> r !! "deadline"%string = Some s -> strptime s = Ok d ->
  timeline today (r :: rest)
  = let! entries := timeline today rest in
    Ok ({| rule := id;
           daysToDeadline := Py.Int (Z.max 0 (toordinal d - toordinal today)) |} :: entries).
Proof.
  intros Hid Hs Hd. cbn [timeline]. unfold getitem_text. rewrite Hid, Hs. cbn [bind].
  rewrite (days_to_deadline_read today d s Hd). reflexivity.
Qed.

(** X10: when the timeline of a feed is returned, it has one entry for
    each rule, in the order of the feed: the id of the rule, and the days
    left to the date its deadline is read as, 0 when that date is past. *)
Theorem timeline_entries (today : date) (feed : list (gmap string string))
    (out : list TimelineRule) :
  timeline today feed = Ok out -> Forall2 (entry_of today) feed out.
Proof.
  revert out. induction feed as [|r rest IH]; intros out H.
  - inversion H. constructor.
  - cbn [timeline] in H. unfold getitem_text in H.
    destruct (r !! "id"%string) as [id|] eqn:Hid; [|discriminate H].
    destruct (r !! "deadline"%string) as [s|] eqn:Hs; [|discriminate H].
    cbn [bind] in H. bind_inv H. bind_inv H. inversion H; subst.
    apply days_to_deadline_Ok in E. destruct E as (d & Ed & ->).
    constructor; [|apply IH; exact E0].
    split; [exact Hid | exists s, d; auto].
Qed.

Lemma timeline_entries_witness :
  exists out,
    timeline today_2026_11_03 [sample_rule "R-1" "2026-12-31"] = Ok out
    /\ Forall2 (entry_of today_2026_11_03) [sample_rule "R-1" "2026-12-31"] out.
Proof.
  eexists. split; [vm_compute; reflexivity|].
  apply (timeline_entries today_2026_11_03). vm_compute. reflexivity.
Defined.

(** X11: one rule that cannot be read makes the whole timeline fail,
    whatever comes after it: the first such rule raises [KeyError] when it
    lacks the id or the deadline, [ValueError] when [strptime] does not
    read its deadline. *)
Theorem timeline_unreadable_rule (today : date) (pre post : list (gmap string string))
    (r : gmap string string) :
  Forall readable_rule pre -> ~ readable_rule r ->
  timeline today (pre ++ r :: post)
  = Raise (match r !! "id"%string, r !! "deadline"%string with
           | Some _, Some _ => ValueError
           | _, _ => KeyError
           end).
Proof.
  intros Hpre Hr. induction Hpre as [|r0 pre (Hid & s & d & Hs & Hd) _ IH].
  - cbn [app timeline]. unfold getitem_text.
    destruct (r !! "id"%string) as [id|] eqn:Hid; [|reflexivity].
    destruct (r !! "deadline"%string) as [s|] eqn:Hs; [|reflexivity].
    cbn [bind]. unfold days_to_deadline.
    destruct (strptime s) as [d|e] eqn:Ed; cbn [bind].
    + exfalso. apply Hr. split; [rewrite Hid; eauto | eauto].
    + apply Parsing.strptime_raises in Ed. subst e. reflexivity.
  - destruct Hid as (id & Hid). cbn [app].
    rewrite (timeline_cons today r0 _ id s d Hid Hs Hd), IH. reflexivity.
Qed.

Lemma timeline_unreadable_rule_witness :
  timeline today_2026_11_03
    ([sample_rule "R-1" "2026-12-31"] ++ sample_rule "R-2" "31/12/2026" :: [])
  = Raise ValueError.
Proof.
  apply (timeline_unreadable_rule today_2026_11_03
           [sample_rule "R-1" "2026-12-31"] [] (sample_rule "R-2" "31/12/2026")).
  - constructor; [|constructor]. split; [eexists; reflexivity|].
    eexists _, _. split; [reflexivity | vm_compute; reflexivity].
  - intros (_ & s & d & Hs & Hd). vm_compute in Hs. inversion Hs; subst.
    vm_compute in Hd. discriminate Hd.
Defined.

(** X12: on every day, [timeline_rules] is computed without an exception
    from the feed of the repository: its four rules in the order of the
    feed, each with the days left to its deadline; from the last deadline,
    31 July 2026, on, every count is 0. *)
Theorem timeline_rules_loaded (today : date) :
  timeline_rules today
  = Ok [ {| rule := "PWM-2025-13"; daysToDeadline := days_left today deadline_PWM_13 |};
         {| rule := "EWR-2025-07"; daysToDeadline := days_left today deadline_EWR_07 |};
         {| rule := "BWR-2025-02"; daysToDeadline := days_left today deadline_BWR_02 |};
         {| rule := "PWM-2025-15"; daysToDeadline := days_left today deadline_PWM_15 |} ]
  /\ (toordinal deadline_BWR_02 <= toordinal today ->
      timeline_rules today
      = Ok [ {| rule := "PWM-2025-13"; daysToDeadline := Py.Int 0 |};
             {| rule := "EWR-2025-07"; daysToDeadline := Py.Int 0 |};
             {| rule := "BWR-2025-02"; daysToDeadline := Py.Int 0 |};
             {| rule := "PWM-2025-15"; daysToDeadline := Py.Int 0 |} ]).
Proof.
  assert (E : timeline_rules today
    = Ok [ {| rule := "PWM-2025-13"; daysToDeadline := days_left today deadline_PWM_13 |};
         {| rule := "EWR-2025-07"; daysToDeadline := days_left today deadline_EWR_07 |};
         {| rule := "BWR-2025-02"; daysToDeadline := days_left today deadline_BWR_02 |};
         {| rule := "PWM-2025-15"; daysToDeadline := days_left today deadline_PWM_15 |} ]).
  { unfold timeline_rules, regulatory_feed.
    rewrite (timeline_cons today _ _ "PWM-2025-13" "2026-03-31" deadline_PWM_13)
      by (vm_compute; reflexivity).
    rewrite (timeline_cons today _ _ "EWR-2025-07" "2026-06-30" deadline_EWR_07)
      by (vm_compute; reflexivity).
    rewrite (timeline_cons today _ _ "BWR-2025-02" "2026-07-31" deadline_BWR_02)
      by (vm_compute; reflexivity).
    rewrite (timeline_cons today _ _ "PWM-2025-15" "2026-05-31" deadline_PWM_15)
      by (vm_compute; reflexivity).
    reflexivity. }
  split; [exact E|].
  intros Hlate. rewrite E.
  assert (O1 : toordinal deadline_PWM_13 = 739706) by (vm_compute; reflexivity).
  assert (O2 : toordinal deadline_EWR_07 = 739797) by (vm_compute; reflexivity).
  assert (O3 : toordinal deadline_BWR_02 = 739828) by (vm_compute; reflexivity).
  assert (O4 : toordinal deadline_PWM_15 = 739767) by (vm_compute; reflexivity).
  unfold days_left. rewrite !Z.max_l by lia. reflexivity.
Qed.

Lemma timeline_rules_loaded_witness :
  timeline_rules today_2026_11_03
  = Ok [ {| rule := "PWM-2025-13"; daysToDeadline := Py.Int 0 |};
         {| rule := "EWR-2025-07"; daysToDeadline := Py.Int 0 |};
         {| rule := "BWR-2025-02"; daysToDeadline := Py.Int 0 |};
         {| rule := "PWM-2025-15"; daysToDeadline := Py.Int 0 |} ].
Proof.
  apply (proj2 (timeline_rules_loaded today_2026_11_03)).
  vm_compute. discriminate.
Defined.

(** ** Better metrics, on integers *)

Lemma normalized_int_metric (metrics : gmap string Py.num) (k : string) :
  int_metrics metrics -> In k criteria ->
  normalized_int metrics k
  = if String.eqb k "cost" then 100 - metric metrics k else metric metrics k.
Proof.
  intros HM Hk. destruct (HM k Hk) as (z & Hz).
  unfold normalized_int, normalized_value, metric. rewrite Hz. cbn [default].
  destruct (String.eqb k "cost"); reflexivity.
Qed.

Lemma int_weighted_sum_mono (n n' : string -> Z) (ws : list (string * Z)) :
  (forall k, In k (map fst ws) -> n k <= n' k) ->
  (forall k z, In (k, z) ws -> 0 <= z) ->
  int_weighted_sum n ws <= int_weighted_sum n' ws.
Proof.
  induction ws as [|[k z] ws IH]; intros Hn Hw; cbn [int_weighted_sum fold_right]; [lia|].
  fold (int_weighted_sum n ws). fold (int_weighted_sum n' ws).
  pose proof (Hn k ltac:(left; reflexivity)) as Hk.
  pose proof (Hw k z ltac:(left; reflexivity)) as Hz.
  assert (IH' : int_weighted_sum n ws <= int_weighted_sum n' ws).
  { apply IH.
    - intros k0 Hk0. apply Hn. right. exact Hk0.
    - intros k0 z0 Hk0. apply (Hw k0 z0). right. exact Hk0. }
  nia.
Qed.

(** X13: on integer bundles with weights that are not negative, a bundle
    that is no worse on any criterion (a cost that is not higher, the other
    four not lower) never gets a lower score. *)
Theorem mcda_score_int_monotone (metrics metrics' : gmap string Py.num)
    (ws : list (string * Z)) :
  int_metrics metrics -> int_metrics metrics' ->
  List.NoDup (map fst ws) -> (forall k, In k (map fst ws) -> In k criteria) ->
  (forall k z, In (k, z) ws -> 0 <= z) ->
  metric metrics' "cost" <= metric metrics "cost" ->
  (forall k, In k criteria -> k <> "cost"%string -> metric metrics k <= metric metrics' k) ->
  exists s s',
    mcda_score metrics (int_bundle ws) = Ok (Py.Int s)
    /\ mcda_score metrics' (int_bundle ws) = Ok (Py.Int s')
    /\ s <= s'.
Proof.
  intros HM HM' ND Hsub Hw Hcost Hrest.
  rewrite (mcda_score_int metrics ws HM ND Hsub).
  rewrite (mcda_score_int metrics' ws HM' ND Hsub).
  eexists _, _. split; [reflexivity | split; [reflexivity|]].
  apply int_weighted_sum_mono; [|exact Hw].
  intros k Hk. apply Hsub in Hk.
  rewrite (normalized_int_metric metrics k HM Hk).
  rewrite (normalized_int_metric metrics' k HM' Hk).
  destruct (String.eqb_spec k "cost") as [->|Hne].
  - lia.
  - apply Hrest; assumption.
Qed.

Lemma mcda_score_int_monotone_witness :
  exists s s',
    mcda_score option_A (int_bundle [("compliance", 3); ("cost", 2)]%string) = Ok (Py.Int s)
    /\ mcda_score (bundle (Py.Int 80) (Py.Int 30) (Py.Int 70) (Py.Int 55) (Py.Int 50))
         (int_bundle [("compliance", 3); ("cost", 2)]%string) = Ok (Py.Int s')
    /\ s <= s'.
Proof.
  apply (mcda_score_int_monotone option_A
           (bundle (Py.Int 80) (Py.Int 30) (Py.Int 70) (Py.Int 55) (Py.Int 50))).
  - apply bundle_int_metrics.
  - apply bundle_int_metrics.
  - repeat constructor; simpl; intuition discriminate.
  - simpl. intuition auto.
  - intros k z [E|[E|[]]]; inversion E; lia.
  - vm_compute. discriminate.
  - intros k Hk Hne. cbn [In criteria] in Hk.
    destruct Hk as [<-|[<-|[<-|[<-|[<-|[]]]]]];
      try (exfalso; apply Hne; reflexivity); vm_compute; discriminate.
Defined.

(** ** The accuracy of float arithmetic, at any scale *)

Module Scale.

Import Rounding Accuracy.

(** A finer unit multiplies the value. *)
Lemma scaled_shift (f : spec_float) (S k : Z) :
  finite_nonneg f -> 1074 <= S -> 0 <= k -> scaled (S + k) f = 2 ^ k * scaled S f.
Proof.
  destruct f as [s|s| |[] m e]; cbn [finite_nonneg scaled]; intros H HS Hk; try lia.
  replace (e + (S + k)) with (k + (e + S)) by lia.
  rewrite pow2_split by lia. ring.
Qed.

Lemma SFadd_at (x y : spec_float) (S D : Z) :
  1074 <= S -> -1074 <= D <= 1023 ->
  finite_nonneg x -> finite_nonneg y ->
  scaled S x + scaled S y < 2 ^ (D + S) ->
  finite_nonneg (SFadd Py.prec Py.emax x y)
  /\ Z.abs (scaled S (SFadd Py.prec Py.emax x y) - (scaled S x + scaled S y))
     <= 2 ^ (Z.max (D - 53) (-1074) + S).
Proof.
  intros HS HD.
  pose proof (pow2_pos (Z.max (D - 53) (-1074) + S) ltac:(lia)) as P.
  destruct x as [sx|sx| |[] mx ex]; cbn [finite_nonneg]; try tauto;
    destruct y as [sy|sy| |[] my ey]; cbn [finite_nonneg]; try tauto.
  - intros _ _ _. destruct sx, sy; cbn [SFadd finite_nonneg scaled]; split; trivial; lia.
  - intros _ He _. cbn [SFadd finite_nonneg scaled]. split; [exact He | lia].
  - intros He _ _. cbn [SFadd finite_nonneg scaled]. split; [exact He | lia].
  - intros Hx Hy HX. cbn [scaled] in HX. cbn [SFadd cond_Zopp].
    pose proof (shl_align_spec mx ex (Z.min ex ey)) as Ax.
    pose proof (shl_align_spec my ey (Z.min ex ey)) as Ay.
    destruct (shl_align mx ex (Z.min ex ey)) as [mx' ex'].
    destruct (shl_align my ey (Z.min ex ey)) as [my' ey'].
    destruct Ax as (Hex & Hmx & _), Ay as (Hey & Hmy & _). cbn [fst].
    set (ez := Z.min ex ey) in *.
    assert (Hvx : Z.pos mx' * 2 ^ (ez + S) = Z.pos mx * 2 ^ (ex + S)).
    { rewrite Hmx. replace (ex - ex') with (ex - ez) by lia.
      replace (ex + S) with ((ex - ez) + (ez + S)) by lia.
      rewrite (pow2_split (ex - ez)) by lia. ring. }
    assert (Hvy : Z.pos my' * 2 ^ (ez + S) = Z.pos my * 2 ^ (ey + S)).
    { rewrite Hmy. replace (ey - ey') with (ey - ez) by lia.
      replace (ey + S) with ((ey - ez) + (ez + S)) by lia.
      rewrite (pow2_split (ey - ez)) by lia. ring. }
    assert (Hsum : Z.abs (Z.pos mx' + Z.pos my') * 2 ^ (ez + S)
                   = Z.pos mx * 2 ^ (ex + S) + Z.pos my * 2 ^ (ey + S)).
    { rewrite Z.abs_eq by lia. rewrite Z.mul_add_distr_r, Hvx, Hvy. reflexivity. }
    assert (Hlt : Z.abs (Z.pos mx' + Z.pos my') * 2 ^ (ez + S) < 2 ^ (D + S))
      by (rewrite Hsum; exact HX).
    destruct (normalize_spec (Z.pos mx' + Z.pos my') ez S D
                ltac:(lia) HS Hlt HD)
      as (M & e' & HM & He' & Hr & Herr).
    rewrite Hr.
    replace (Z.pos mx' + Z.pos my' <? 0) with false by (symmetry; apply Z.ltb_ge; lia).
    split; [apply finite_nonneg_float_of_mag; assumption|].
    rewrite scaled_float_of_mag by exact HM. cbn [scaled].
    rewrite <- Hsum. exact Herr.
Qed.

Lemma SFsub_at (x y : spec_float) (S D : Z) :
  1074 <= S -> -1074 <= D <= 1023 ->
  finite_nonneg x -> finite_nonneg y ->
  scaled S y <= scaled S x -> scaled S x < 2 ^ (D + S) ->
  finite_nonneg (SFsub Py.prec Py.emax x y)
  /\ Z.abs (scaled S (SFsub Py.prec Py.emax x y) - (scaled S x - scaled S y))
     <= 2 ^ (Z.max (D - 53) (-1074) + S).
Proof.
  intros HS HD.
  pose proof (pow2_pos (Z.max (D - 53) (-1074) + S) ltac:(lia)) as P.
  destruct x as [sx|sx| |[] mx ex]; cbn [finite_nonneg]; try tauto;
    destruct y as [sy|sy| |[] my ey]; cbn [finite_nonneg]; try tauto.
  - intros _ _ _ _. destruct sx, sy; cbn [SFsub finite_nonneg scaled]; split; trivial; lia.
  - intros _ He Hle _. exfalso. cbn [scaled] in Hle.
    pose proof (pow2_pos (ey + S) ltac:(lia)). lia.
  - intros He _ _ _. cbn [SFsub finite_nonneg scaled]. split; [exact He | lia].
  - intros Hx Hy Hle HX. cbn [scaled] in Hle, HX. cbn [SFsub cond_Zopp].
    pose proof (shl_align_spec mx ex (Z.min ex ey)) as Ax.
    pose proof (shl_align_spec my ey (Z.min ex ey)) as Ay.
    destruct (shl_align mx ex (Z.min ex ey)) as [mx' ex'].
    destruct (shl_align my ey (Z.min ex ey)) as [my' ey'].
    destruct Ax as (Hex & Hmx & _), Ay as (Hey & Hmy & _). cbn [fst].
    set (ez := Z.min ex ey) in *.
    pose proof (pow2_pos (ez + S) ltac:(lia)) as PZ.
    assert (Hvx : Z.pos mx' * 2 ^ (ez + S) = Z.pos mx * 2 ^ (ex + S)).
    { rewrite Hmx. replace (ex - ex') with (ex - ez) by lia.
      replace (ex + S) with ((ex - ez) + (ez + S)) by lia.
      rewrite (pow2_split (ex - ez)) by lia. ring. }
    assert (Hvy : Z.pos my' * 2 ^ (ez + S) = Z.pos my * 2 ^ (ey + S)).
    { rewrite Hmy. replace (ey - ey') with (ey - ez) by lia.
      replace (ey + S) with ((ey - ez) + (ez + S)) by lia.
      rewrite (pow2_split (ey - ez)) by lia. ring. }
    assert (Hge : Z.pos my' <= Z.pos mx') by nia.
    assert (Hdiff : Z.abs (Z.pos mx' - Z.pos my') * 2 ^ (ez + S)
                    = Z.pos mx * 2 ^ (ex + S) - Z.pos my * 2 ^ (ey + S)).
    { rewrite Z.abs_eq by lia. rewrite Z.mul_sub_distr_r, Hvx, Hvy. reflexivity. }
    assert (Hlt : Z.abs (Z.pos mx' - Z.pos my') * 2 ^ (ez + S) < 2 ^ (D + S)).
    { rewrite Hdiff. pose proof (pow2_pos (ey + S) ltac:(lia)). lia. }
    destruct (normalize_spec (Z.pos mx' - Z.pos my') ez S D
                ltac:(lia) HS Hlt HD)
      as (M & e' & HM & He' & Hr & Herr).
    rewrite Hr.
    replace (Z.pos mx' - Z.pos my' <? 0) with false by (symmetry; apply Z.ltb_ge; lia).
    split; [apply finite_nonneg_float_of_mag; assumption|].
    rewrite scaled_float_of_mag by exact HM. cbn [scaled].
    rewrite <- Hdiff. exact Herr.
Qed.

(** The product by a normal float [mw * 2^ew] that is not negative: the
    operand is measured in units of [2^-(S + ew)], the product in units of
    [2^-S]. *)
Lemma SFmul_at (x : spec_float) (mw : positive) (ew S D : Z) :
  1074 <= S + ew -> ew <= 0 -> -1074 <= D <= 1023 ->
  finite_nonneg x -> 2 ^ 52 <= Z.pos mw ->
  scaled (S + ew) x * Z.pos mw < 2 ^ (D + S) ->
  finite_nonneg (SFmul Py.prec Py.emax x (S754_finite false mw ew))
  /\ Z.abs (scaled S (SFmul Py.prec Py.emax x (S754_finite false mw ew))
            - scaled (S + ew) x * Z.pos mw)
     <= 2 ^ (Z.max (D - 53) (-1074) + S).
Proof.
  intros HS Hew HD.
  pose proof (pow2_pos (Z.max (D - 53) (-1074) + S) ltac:(lia)) as P.
  destruct x as [s|s| |[] m e]; cbn [finite_nonneg]; try tauto.
  - intros _ _ _. cbn [SFmul finite_nonneg scaled]. split; [trivial | lia].
  - intros He Hmw HX. cbn [scaled] in HX |- *. cbn [SFmul xorb].
    assert (Hval : Z.pos (m * mw) * 2 ^ (e + ew + S)
                   = Z.pos m * 2 ^ (e + (S + ew)) * Z.pos mw).
    { replace (e + ew + S) with (e + (S + ew)) by lia. lia. }
    assert (Hcanon : e + ew <= fexp Py.prec Py.emax
                                  (Z.pos (digits2_pos (m * mw)) + (e + ew))).
    { pose proof (digits_ge (m * mw) 52 ltac:(lia) ltac:(nia)).
      unfold fexp, emin, Py.prec, Py.emax. lia. }
    assert (Hlt : Z.pos (m * mw) * 2 ^ (e + ew + S) < 2 ^ (D + S))
      by (rewrite Hval; exact HX).
    destruct (round_aux_spec false (m * mw) (e + ew) S D
                ltac:(lia) ltac:(lia) Hcanon Hlt HD)
      as (M & e' & HM & He' & -> & Herr).
    split; [apply finite_nonneg_float_of_mag; assumption|].
    rewrite scaled_float_of_mag by exact HM.
    rewrite <- Hval. exact Herr.
Qed.

Lemma float_of_int_at (z S D : Z) :
  1074 <= S -> 0 <= D <= 1023 -> 0 <= z -> z * 2 ^ S < 2 ^ (D + S) ->
  exists f, Py.float_of_int z = Ok f /\ finite_nonneg f
            /\ Z.abs (scaled S f - z * 2 ^ S) <= 2 ^ (Z.max (D - 53) (-1074) + S).
Proof.
  intros HS HD Hz HX.
  assert (Hlt : Z.abs z * 2 ^ S < 2 ^ (D + S)) by (rewrite Z.abs_eq by lia; exact HX).
  destruct (float_of_int_spec z S D HS Hlt HD) as (M & e' & HM & He' & Hr & Herr).
  replace (z <? 0) with false in Hr by (symmetry; apply Z.ltb_ge; lia).
  eexists. split; [exact Hr | split].
  - apply finite_nonneg_float_of_mag; assumption.
  - rewrite scaled_float_of_mag by exact HM.
    rewrite (Z.abs_eq z) in Herr by lia. exact Herr.
Qed.

(** Above 1 the rounding error is relative: at most [2^-52] of the value. *)
Lemma normalize_rel (z e S : Z) :
  - S <= e -> 1074 <= S ->
  2 ^ S <= Z.abs z * 2 ^ (e + S) < 2 ^ (1023 + S) ->
  exists M e',
    0 <= M /\ -1074 <= e' <= 971
    /\ binary_normalize Py.prec Py.emax z e false = float_of_mag (z <? 0) M e'
    /\ 2 ^ 52 * Z.abs (M * 2 ^ (e' + S) - Z.abs z * 2 ^ (e + S))
       <= Z.abs z * 2 ^ (e + S).
Proof.
  intros He HS [Hlo Hhi].
  set (X := Z.abs z * 2 ^ (e + S)) in *.
  pose proof (pow2_pos S ltac:(lia)) as PS.
  assert (HX : 0 < X) by lia.
  pose proof (Z.log2_spec X HX) as [L U].
  pose proof (Z.log2_nonneg X) as L0.
  assert (HL1 : S <= Z.log2 X).
  { assert (S < Z.succ (Z.log2 X)) by (apply pow2_lt_inv; lia). lia. }
  assert (HL2 : Z.log2 X < 1023 + S).
  { apply pow2_lt_inv; lia. }
  set (D := Z.log2 X + 1 - S).
  assert (HD : -1074 <= D <= 1023) by (unfold D; lia).
  assert (Hlt : X < 2 ^ (D + S)).
  { replace (D + S) with (Z.succ (Z.log2 X)) by (unfold D; lia). exact U. }
  destruct (normalize_spec z e S D He HS Hlt HD) as (M & e' & HM & He' & Hr & Herr).
  exists M, e'. split; [exact HM | split; [exact He' | split; [exact Hr|]]].
  fold X in Herr.
  replace (Z.max (D - 53) (-1074) + S) with (Z.log2 X - 52) in Herr by (unfold D; lia).
  assert (E : 2 ^ Z.log2 X = 2 ^ 52 * 2 ^ (Z.log2 X - 52)).
  { rewrite <- pow2_split by lia. f_equal. lia. }
  pose proof (pow2_pos 52 ltac:(lia)). nia.
Qed.

Lemma float_of_int_rel (z S : Z) :
  1074 <= S -> 1 <= z < 2 ^ 1023 ->
  exists f, Py.float_of_int z = Ok f /\ finite_nonneg f
            /\ 2 ^ 52 * Z.abs (scaled S f - z * 2 ^ S) <= z * 2 ^ S.
Proof.
  intros HS Hz.
  pose proof (pow2_pos S ltac:(lia)) as PS.
  assert (HX : 2 ^ S <= Z.abs z * 2 ^ (0 + S) < 2 ^ (1023 + S)).
  { rewrite Z.abs_eq by lia. rewrite Z.add_0_l, pow2_split by lia. nia. }
  destruct (normalize_rel z 0 S ltac:(lia) HS HX) as (M & e' & HM & He' & Hr & Herr).
  rewrite (Z.abs_eq z), Z.add_0_l in Herr by lia.
  replace (z <? 0) with false in Hr by (symmetry; apply Z.ltb_ge; lia).
  exists (float_of_mag false M e'). split; [|split].
  - unfold Py.float_of_int. rewrite Hr. destruct M; reflexivity.
  - apply finite_nonneg_float_of_mag; assumption.
  - rewrite scaled_float_of_mag by exact HM. exact Herr.
Qed.

Lemma SFadd_rel (x y : spec_float) (S : Z) :
  1074 <= S -> finite_nonneg x -> finite_nonneg y ->
  2 ^ S <= scaled S x + scaled S y < 2 ^ (1023 + S) ->
  finite_nonneg (SFadd Py.prec Py.emax x y)
  /\ 2 ^ 52 * Z.abs (scaled S (SFadd Py.prec Py.emax x y) - (scaled S x + scaled S y))
     <= scaled S x + scaled S y.
Proof.
  intros HS.
  pose proof (pow2_pos S ltac:(lia)) as PS.
  destruct x as [sx|sx| |[] mx ex]; cbn [finite_nonneg]; try tauto;
    destruct y as [sy|sy| |[] my ey]; cbn [finite_nonneg]; try tauto.
  - intros _ _ H. cbn [scaled] in H. lia.
  - intros _ He H. cbn [SFadd finite_nonneg scaled] in *. split; [exact He | lia].
  - intros He _ H. cbn [SFadd finite_nonneg scaled] in *. split; [exact He | lia].
  - intros Hx Hy HX. cbn [scaled] in HX. cbn [SFadd cond_Zopp].
    pose proof (shl_align_spec mx ex (Z.min ex ey)) as Ax.
    pose proof (shl_align_spec my ey (Z.min ex ey)) as Ay.
    destruct (shl_align mx ex (Z.min ex ey)) as [mx' ex'].
    destruct (shl_align my ey (Z.min ex ey)) as [my' ey'].
    destruct Ax as (Hex & Hmx & _), Ay as (Hey & Hmy & _). cbn [fst].
    set (ez := Z.min ex ey) in *.
    assert (Hvx : Z.pos mx' * 2 ^ (ez + S) = Z.pos mx * 2 ^ (ex + S)).
    { rewrite Hmx. replace (ex - ex') with (ex - ez) by lia.
      replace (ex + S) with ((ex - ez) + (ez + S)) by lia.
      rewrite (pow2_split (ex - ez)) by lia. ring. }
    assert (Hvy : Z.pos my' * 2 ^ (ez + S) = Z.pos my * 2 ^ (ey + S)).
    { rewrite Hmy. replace (ey - ey') with (ey - ez) by lia.
      replace (ey + S) with ((ey - ez) + (ez + S)) by lia.
      rewrite (pow2_split (ey - ez)) by lia. ring. }
    assert (Hsum : Z.abs (Z.pos mx' + Z.pos my') * 2 ^ (ez + S)
                   = Z.pos mx * 2 ^ (ex + S) + Z.pos my * 2 ^ (ey + S)).
    { rewrite Z.abs_eq by lia. rewrite Z.mul_add_distr_r, Hvx, Hvy. reflexivity. }
    rewrite <- Hsum in HX.
    destruct (normalize_rel (Z.pos mx' + Z.pos my') ez S ltac:(lia) HS HX)
      as (M & e' & HM & He' & Hr & Herr).
    rewrite Hr.
    replace (Z.pos mx' + Z.pos my' <? 0) with false by (symmetry; apply Z.ltb_ge; lia).
    split; [apply finite_nonneg_float_of_mag; assumption|].
    rewrite scaled_float_of_mag by exact HM. cbn [scaled].
    rewrite <- Hsum. exact Herr.
Qed.

End Scale.

(** ** The weighted sum of the dashboard *)

Module Weighted.

Import Rounding Accuracy Scale.

(** The in_2p1028 of two below in terms of [2^1028]. *)
Ltac power k :=
  let c := eval vm_compute in (2 ^ (k - 1028)) in
  change (2 ^ k) with (c * 2 ^ 1028) in *.

Ltac in_2p1028 :=
  power 1040; power 1074; power 1081; power 1083; power 1084; power 1085;
  power 1086; power 1087; power 1088; power 1095; power 1100; power 1128; power 1129;
  power 1136; power 1137; power 1138;
  let P := fresh "P" in
  pose proof (pow2_pos 1028 ltac:(lia)) as P;
  let E := fresh "E" in
  set (E := 2 ^ 1028) in *; clearbody E.

Lemma weight_units_bounds (mw : positive) (ew : Z) :
  2 ^ 52 <= Z.pos mw < 2 ^ 53 -> -55 <= ew <= -53 ->
  0 < weight_units mw ew < 2 ^ 55.
Proof.
  intros Hm He. unfold weight_units.
  assert (C : ew = -55 \/ ew = -54 \/ ew = -53) by lia.
  destruct C as [->|[->| ->]]; cbn [Z.add]; simpl (2 ^ _) in *; lia.
Qed.

Lemma units_shift (x : spec_float) (ew : Z) :
  finite_nonneg x -> -55 <= ew ->
  scaled (1129 + ew) x = 2 ^ (ew + 55) * scaled 1074 x.
Proof.
  intros Hx He. replace (1129 + ew) with (1074 + (ew + 55)) by lia.
  apply scaled_shift; [exact Hx | lia | lia].
Qed.

(** The product of a float at most 100 by a weight. *)
Lemma SFmul_weight (x : spec_float) (mw : positive) (ew : Z) :
  finite_nonneg x -> scaled 1074 x <= 101 * 2 ^ 1074 ->
  2 ^ 52 <= Z.pos mw < 2 ^ 53 -> -55 <= ew <= -53 ->
  finite_nonneg (SFmul Py.prec Py.emax x (S754_finite false mw ew))
  /\ Z.abs (scaled 1129 (SFmul Py.prec Py.emax x (S754_finite false mw ew))
            - scaled 1074 x * weight_units mw ew)
     <= 2 ^ 1084.
Proof.
  intros Hx HX Hm He.
  pose proof (weight_units_bounds mw ew Hm He) as HW.
  pose proof (scaled_nonneg 1074 x Hx ltac:(lia)) as N.
  assert (Hval : scaled (1129 + ew) x * Z.pos mw = scaled 1074 x * weight_units mw ew).
  { rewrite units_shift by (exact Hx || lia). unfold weight_units. ring. }
  assert (Hlt : scaled (1129 + ew) x * Z.pos mw < 2 ^ (8 + 1129)).
  { rewrite Hval.
    assert (scaled 1074 x * weight_units mw ew <= (101 * 2 ^ 1074) * 2 ^ 55)
      by (apply Z.mul_le_mono_nonneg; lia).
    assert ((101 * 2 ^ 1074) * 2 ^ 55 < 2 ^ (8 + 1129))
      by (apply Z.ltb_lt; vm_compute; reflexivity).
    lia. }
  destruct (SFmul_at x mw ew 1129 8 ltac:(lia) ltac:(lia) ltac:(lia) Hx ltac:(lia) Hlt)
    as (G & B).
  split; [exact G|]. rewrite <- Hval. exact B.
Qed.

Lemma bounded_int (z : Z) : bounded (Py.Int z) -> 0 <= z <= 100.
Proof.
  intros [Hn Hu]. cbn [nonneg units] in *. split; [exact Hn|].
  in_2p1028. nia.
Qed.

(** [n * w] for a number at most 100 and a weight. *)
Lemma mul_weight (n : Py.num) (mw : positive) (ew : Z) :
  bounded n -> 2 ^ 52 <= Z.pos mw < 2 ^ 53 -> -55 <= ew <= -53 ->
  exists p,
    Py.mul n (Py.Float (S754_finite false mw ew)) = Ok (Py.Float p)
    /\ finite_nonneg p
    /\ Z.abs (scaled 1129 p - units n * weight_units mw ew) <= 2 ^ 1086.
Proof.
  intros Hn Hm He.
  pose proof (weight_units_bounds mw ew Hm He) as HW.
  destruct n as [z|x].
  - apply bounded_int in Hn.
    destruct (float_of_int_at z 1074 7 ltac:(lia) ltac:(lia) ltac:(lia))
      as (fz & Ez & Gz & Bz).
    { rewrite (pow2_split 7) by lia. pose proof (pow2_pos 1074 ltac:(lia)).
      change (2 ^ 7) with 128. nia. }
    change (Z.max (7 - 53) (-1074) + 1074) with 1028 in Bz.
    unfold Py.mul, Py.arith. cbn [Py.to_float]. rewrite Ez. cbn [bind].
    destruct (SFmul_weight fz mw ew Gz) as (G & B); [| exact Hm | exact He |].
    { in_2p1028. nia. }
    eexists. split; [reflexivity | split; [exact G|]].
    cbn [units].
    set (W := weight_units mw ew) in *.
    set (V := scaled 1129 _) in *. set (F := scaled 1074 fz) in *.
    assert (D : Z.abs (F * W - z * 2 ^ 1074 * W) <= 2 ^ 1028 * 2 ^ 55).
    { replace (F * W - z * 2 ^ 1074 * W) with ((F - z * 2 ^ 1074) * W) by ring.
      rewrite Z.abs_mul, (Z.abs_eq W) by lia.
      apply Z.mul_le_mono_nonneg; lia. }
    change (2 ^ 1028 * 2 ^ 55) with (2 ^ 1083) in D.
    in_2p1028. lia.
  - destruct Hn as [Hx HX]. cbn [nonneg units] in Hx, HX.
    unfold Py.mul, Py.arith. cbn [Py.to_float bind].
    destruct (SFmul_weight x mw ew Hx) as (G & B); [| exact Hm | exact He |].
    { in_2p1028. lia. }
    eexists. split; [reflexivity | split; [exact G|]].
    cbn [units]. in_2p1028. lia.
Qed.

(** Adding a product to the running total. *)
Lemma add_total (t : Py.num) (p : spec_float) :
  nonneg t -> finite_nonneg p ->
  value_at 1129 t + scaled 1129 p < 2 ^ 1137 ->
  exists t',
    Py.add t (Py.Float p) = Ok (Py.Float t') /\ finite_nonneg t'
    /\ Z.abs (scaled 1129 t' - (value_at 1129 t + scaled 1129 p)) <= 2 ^ 1086.
Proof.
  intros Ht Hp HX.
  pose proof (scaled_nonneg 1129 p Hp ltac:(lia)) as Np.
  destruct t as [z|x]; cbn [nonneg value_at] in *.
  - destruct (float_of_int_at z 1129 8 ltac:(lia) ltac:(lia) Ht) as (fz & Ez & Gz & Bz).
    { change (2 ^ (8 + 1129)) with (2 ^ 1137). lia. }
    change (Z.max (8 - 53) (-1074) + 1129) with 1084 in Bz.
    unfold Py.add, Py.arith. cbn [Py.to_float]. rewrite Ez. cbn [bind].
    destruct (SFadd_at fz p 1129 9 ltac:(lia) ltac:(lia) Gz Hp) as (G & B).
    { change (2 ^ (9 + 1129)) with (2 ^ 1138). in_2p1028. lia. }
    change (Z.max (9 - 53) (-1074) + 1129) with 1085 in B.
    eexists. split; [reflexivity | split; [exact G|]].
    in_2p1028. lia.
  - unfold Py.add, Py.arith. cbn [Py.to_float bind].
    destruct (SFadd_at x p 1129 8 ltac:(lia) ltac:(lia) Ht Hp) as (G & B).
    { change (2 ^ (8 + 1129)) with (2 ^ 1137). exact HX. }
    change (Z.max (8 - 53) (-1074) + 1129) with 1084 in B.
    eexists. split; [reflexivity | split; [exact G|]].
    in_2p1028. lia.
Qed.

(** One item of the weighted sum. *)
Lemma sum_step (t n : Py.num) (mw : positive) (ew A : Z) :
  nonneg t -> value_at 1129 t <= A -> 0 <= A ->
  bounded n -> 2 ^ 52 <= Z.pos mw < 2 ^ 53 -> -55 <= ew <= -53 ->
  A + (100 * 2 ^ 1074 + 2 ^ 1040) * weight_units mw ew + 2 ^ 1088 < 2 ^ 1137 ->
  exists t',
    (forall rest,
       sum_from t (Py.mul n (Py.Float (S754_finite false mw ew)) :: rest)
       = sum_from t' rest)
    /\ nonneg t'
    /\ value_at 1129 t' <= A + (100 * 2 ^ 1074 + 2 ^ 1040) * weight_units mw ew + 2 ^ 1088.
Proof.
  intros Ht HA HA0 Hn Hm He Hroom.
  pose proof (weight_units_bounds mw ew Hm He) as HW.
  destruct (mul_weight n mw ew Hn Hm He) as (p & Ep & Gp & Bp).
  assert (Hu : units n * weight_units mw ew
               <= (100 * 2 ^ 1074 + 2 ^ 1040) * weight_units mw ew).
  { apply Z.mul_le_mono_nonneg_r; [lia | apply Hn]. }
  set (W := weight_units mw ew) in *.
  set (BW := (100 * 2 ^ 1074 + 2 ^ 1040) * W) in *.
  destruct (add_total t p Ht Gp) as (t' & Et & Gt & Bt).
  { in_2p1028. lia. }
  exists (Py.Float t'). split; [|split; [exact Gt|]].
  { intros rest. cbn [sum_from]. rewrite Ep. cbn [bind]. rewrite Et. reflexivity. }
  cbn [value_at]. in_2p1028. lia.
Qed.

(** The weighted sum of the dashboard over values at most 100. *)
Lemma weighted_sum_dashboard (norm : string -> Py.num) :
  (forall k, In k criteria -> bounded (norm k)) ->
  exists T,
    weighted_sum norm dashboard_weights = Ok T /\ nonneg T
    /\ value_at 1129 T < 201 * 2 ^ 1128.
Proof.
  intros H.
  assert (H1 : bounded (norm "compliance"%string)) by (apply H; simpl; tauto).
  assert (H2 : bounded (norm "cost"%string)) by (apply H; simpl; tauto).
  assert (H3 : bounded (norm "availability"%string)) by (apply H; simpl; tauto).
  assert (H4 : bounded (norm "recyclability"%string)) by (apply H; simpl; tauto).
  assert (H5 : bounded (norm "traceability"%string)) by (apply H; simpl; tauto).
  unfold weighted_sum, sum, dashboard_weights, weights_bundle,
    float_0_30, float_0_20, float_0_15.
  cbn [map].
  assert (W30 : weight_units 5404319552844595 (-54) = 10808639105689190) by reflexivity.
  assert (W20 : weight_units 7205759403792794 (-55) = 7205759403792794) by reflexivity.
  assert (W15 : weight_units 5404319552844595 (-55) = 5404319552844595) by reflexivity.
  assert (M30 : 2 ^ 52 <= Z.pos 5404319552844595 < 2 ^ 53) by (simpl; lia).
  assert (M20 : 2 ^ 52 <= Z.pos 7205759403792794 < 2 ^ 53) by (simpl; lia).
  destruct (sum_step (Py.Int 0) (norm "compliance"%string) 5404319552844595 (-54) 0
              ltac:(simpl; lia) ltac:(simpl; lia) ltac:(lia) H1 M30 ltac:(lia))
    as (t1 & E1 & G1 & B1).
  { rewrite W30. in_2p1028. lia. }
  rewrite E1. clear E1. rewrite W30 in B1.
  destruct (sum_step t1 (norm "cost"%string) 7205759403792794 (-55) _
              G1 B1 ltac:(in_2p1028; lia) H2 M20 ltac:(lia))
    as (t2 & E2 & G2 & B2).
  { rewrite W20. in_2p1028. lia. }
  rewrite E2. clear E2. rewrite W20 in B2.
  destruct (sum_step t2 (norm "availability"%string) 5404319552844595 (-55) _
              G2 B2 ltac:(in_2p1028; lia) H3 M30 ltac:(lia))
    as (t3 & E3 & G3 & B3).
  { rewrite W15. in_2p1028. lia. }
  rewrite E3. clear E3. rewrite W15 in B3.
  destruct (sum_step t3 (norm "recyclability"%string) 7205759403792794 (-55) _
              G3 B3 ltac:(in_2p1028; lia) H4 M20 ltac:(lia))
    as (t4 & E4 & G4 & B4).
  { rewrite W20. in_2p1028. lia. }
  rewrite E4. clear E4. rewrite W20 in B4.
  destruct (sum_step t4 (norm "traceability"%string) 5404319552844595 (-55) _
              G4 B4 ltac:(in_2p1028; lia) H5 M30 ltac:(lia))
    as (t5 & E5 & G5 & B5).
  { rewrite W15. in_2p1028. lia. }
  rewrite E5. clear E5. rewrite W15 in B5.
  exists t5. cbn [sum_from]. split; [reflexivity | split; [exact G5|]].
  in_2p1028. lia.
Qed.

(** A total below 100.5 rounds to an integer between 0 and 100. *)
Lemma round_upto_100 (t : Py.num) :
  nonneg t -> value_at 1129 t < 201 * 2 ^ 1128 ->
  exists s, Py.round t = Ok (Py.Int s) /\ 0 <= s <= 100.
Proof.
  assert (U : 2 ^ 1129 = 2 * 2 ^ 1128) by reflexivity.
  pose proof (pow2_pos 1128 ltac:(lia)) as PH.
  destruct t as [z|[s|s| |[] m e]]; cbn [nonneg finite_nonneg value_at scaled Py.round];
    try tauto.
  - intros Hz H. exists z. split; [reflexivity | nia].
  - intros _ _. exists 0. split; [reflexivity | lia].
  - intros He H. eexists. split; [reflexivity|].
    destruct (0 <=? e) eqn:Ee.
    + apply Z.leb_le in Ee.
      rewrite Z.add_comm, pow2_split in H by lia.
      pose proof (pow2_pos e Ee). nia.
    + apply Z.leb_gt in Ee.
      set (k := - e) in *.
      assert (Hk : 1 <= k <= 1074) by (unfold k; lia).
      pose proof (pow2_pos (e + 1129) ltac:(lia)) as PQ.
      pose proof (pow2_pos (k - 1) ltac:(lia)) as PK.
      assert (E1 : 2 ^ 1128 = 2 ^ (k - 1) * 2 ^ (e + 1129)).
      { rewrite <- pow2_split by lia. f_equal. unfold k. lia. }
      assert (E2 : 2 ^ k = 2 * 2 ^ (k - 1)).
      { replace k with (1 + (k - 1)) at 1 by lia. rewrite pow2_split by lia. reflexivity. }
      rewrite E1 in H.
      assert (Hm : Z.pos m < 201 * 2 ^ (k - 1)) by nia.
      unfold Py.round_half_even. rewrite E2.
      set (K := 2 ^ (k - 1)) in *.
      pose proof (Z.div_mod (Z.pos m) (2 * K) ltac:(lia)) as DM.
      pose proof (Z.mod_pos_bound (Z.pos m) (2 * K) ltac:(lia)) as MB.
      set (q := Z.pos m / (2 * K)) in *. set (r := Z.pos m mod (2 * K)) in *.
      assert (Hq : 0 <= q <= 100) by nia.
      destruct (Z.compare_spec (2 * r) (2 * K)) as [C|C|C]; [| lia |].
      * destruct (Z.even q); nia.
      * nia.
Qed.

Lemma scaled_float_100 : scaled 1074 float_100 = 100 * 2 ^ 1074.
Proof. vm_compute. reflexivity. Qed.

Lemma invert_bounded (c : Py.num) : in_scale c -> bounded (invert c).
Proof.
  destruct c as [z|g]; intros [Hn Hu]; cbn [nonneg units invert] in *.
  - assert (z <= 100) by (pose proof (pow2_pos 1074 ltac:(lia)); nia).
    split; cbn [nonneg units]; [lia|]. in_2p1028. nia.
  - destruct (SFsub_at float_100 g 1074 7 ltac:(lia) ltac:(lia)
                ltac:(simpl; lia) Hn) as (G & B).
    + rewrite scaled_float_100. exact Hu.
    + rewrite scaled_float_100. change (2 ^ (7 + 1074)) with (2 ^ 1081). in_2p1028. lia.
    + change (Z.max (7 - 53) (-1074) + 1074) with 1028 in B.
      rewrite scaled_float_100 in B.
      pose proof (scaled_nonneg 1074 g Hn ltac:(lia)).
      split; cbn [nonneg units]; [exact G|]. in_2p1028. lia.
Qed.

Lemma in_scale_bounded (a : Py.num) : in_scale a -> bounded a.
Proof. intros [Hn Hu]. split; [exact Hn|]. in_2p1028. lia. Qed.

Lemma dashboard_weights_keys : keys dashboard_weights = criteria.
Proof. reflexivity. Qed.

Lemma criteria_NoDup : List.NoDup criteria.
Proof. repeat constructor; simpl; intuition discriminate. Qed.

(** Metrics between 0 and 100, weighted as the dashboard does. *)
Lemma score_in_scale (metrics : gmap string Py.num) :
  (forall k, In k criteria -> exists v, metrics !! k = Some v /\ in_scale v) ->
  exists s, mcda_score metrics dashboard_weights = Ok (Py.Int s) /\ 0 <= s <= 100.
Proof.
  intros H.
  assert (HC : has_criteria metrics).
  { intros k Hk. destruct (H k Hk) as (v & E & _). rewrite E. eauto. }
  rewrite (mcda_score_known_keys metrics dashboard_weights HC);
    [| rewrite dashboard_weights_keys; apply criteria_NoDup
     | rewrite dashboard_weights_keys; trivial].
  destruct (weighted_sum_dashboard (normalized_value metrics))
    as (T & ET & GT & BT).
  { intros k Hk. destruct (H k Hk) as (v & E & Hv).
    unfold normalized_value. rewrite E. cbn [default].
    destruct (String.eqb k "cost");
      [apply invert_bounded | apply in_scale_bounded]; exact Hv. }
  rewrite ET. cbn [bind]. apply round_upto_100; assumption.
Qed.

End Weighted.

(** X14: with the weights of the dashboard (0.30, 0.20, 0.15, 0.20, 0.15),
    a metrics bundle whose five criteria are finite numbers between 0 and
    100, integers or floats, gets a score that is returned, and is an
    integer between 0 and 100. *)
Theorem mcda_score_in_scale (metrics : gmap string Py.num) :
  (forall k, In k criteria -> exists v, metrics !! k = Some v /\ in_scale v) ->
  exists s, mcda_score metrics dashboard_weights = Ok (Py.Int s) /\ 0 <= s <= 100.
Proof. exact (Weighted.score_in_scale metrics). Qed.

Lemma mcda_score_in_scale_witness :
  exists s,
    mcda_score (bundle (Py.Int 72) (Py.Float float_48) (Py.Int 70) (Py.Int 55) (Py.Int 50))
      dashboard_weights = Ok (Py.Int s)
    /\ 0 <= s <= 100.
Proof.
  apply (mcda_score_in_scale
           (bundle (Py.Int 72) (Py.Float float_48) (Py.Int 70) (Py.Int 55) (Py.Int 50))).
  intros k Hk. cbn [In criteria] in Hk.
  destruct Hk as [<-|[<-|[<-|[<-|[<-|[]]]]]]; eexists;
    (split; [reflexivity | split; [simpl; lia | apply Z.leb_le; vm_compute; reflexivity]]).
Defined.

(** ** Option B of the Eco-Design view *)

Module OptionB.

Import Rounding Accuracy Scale Weighted.

(** A float strictly below an integer, in units of [2^-S]. *)
Lemma ltb_float_int_scaled (f : spec_float) (z S : Z) :
  finite_nonneg f -> 1074 <= S ->
  Py.ltb (Py.Float f) (Py.Int z) = true -> scaled S f < z * 2 ^ S.
Proof.
  unfold Py.ltb, Py.compare, Py.compare_float_int.
  destruct f as [s|s| |[] m e]; cbn [finite_nonneg scaled]; try tauto; intros He HS H;
    pose proof (pow2_pos S ltac:(lia)) as PS.
  - destruct (0 ?= z) eqn:C; try discriminate H.
    change (0 < z) in C. nia.
  - destruct (0 <=? e) eqn:Ee.
    + apply Z.leb_le in Ee.
      destruct (Z.pos m * 2 ^ e ?= z) eqn:C; try discriminate H.
      change (Z.pos m * 2 ^ e < z) in C.
      rewrite pow2_split by lia. pose proof (pow2_pos e Ee). nia.
    + apply Z.leb_gt in Ee.
      destruct (Z.pos m ?= z * 2 ^ (- e)) eqn:C; try discriminate H.
      change (Z.pos m < z * 2 ^ (- e)) in C.
      assert (E : 2 ^ S = 2 ^ (- e) * 2 ^ (e + S)).
      { rewrite <- pow2_split by lia. f_equal. lia. }
      rewrite E. pose proof (pow2_pos (e + S) ltac:(lia)). nia.
Qed.

(** The scarcity term of a recycled content above the target is a finite
    float. *)
Lemma scarce_finite (z : Z) (fo : spec_float) :
  1 <= z <= 2 ^ 1001 -> Py.float_of_int z = Ok fo ->
  finite_nonneg (SFmul Py.prec Py.emax fo Py.lit_0_8)
  /\ scaled 1129 (SFmul Py.prec Py.emax fo Py.lit_0_8) < 2 ^ 2151.
Proof.
  intros Hz Efo.
  destruct (float_of_int_at z 1076 1002 ltac:(lia) ltac:(lia) ltac:(lia))
    as (f & Ef & Gf & Bf).
  { change (2 ^ (1002 + 1076)) with (2 * (2 ^ 1001 * 2 ^ 1076)).
    pose proof (pow2_pos 1076 ltac:(lia)). nia. }
  rewrite Efo in Ef. inversion Ef; subst f. clear Ef.
  change (Z.max (1002 - 53) (-1074) + 1076) with 2025 in Bf.
  assert (Hf : scaled 1076 fo <= 2 ^ 1001 * 2 ^ 1076 + 2 ^ 2025).
  { assert (z * 2 ^ 1076 <= 2 ^ 1001 * 2 ^ 1076)
      by (apply Z.mul_le_mono_nonneg_r; lia).
    lia. }
  pose proof (scaled_nonneg 1076 fo Gf ltac:(lia)) as N.
  unfold Py.lit_0_8.
  destruct (SFmul_at fo 7205759403792794 (-53) 1129 1003
              ltac:(lia) ltac:(lia) ltac:(lia) Gf ltac:(simpl; lia)) as (G & B).
  { change (1129 + -53) with 1076.
    assert (scaled 1076 fo * 7205759403792794
            <= (2 ^ 1001 * 2 ^ 1076 + 2 ^ 2025) * 7205759403792794)
      by (apply Z.mul_le_mono_nonneg_r; lia).
    change (1003 + 1129) with 2132. lia. }
  change (1129 + -53) with 1076 in B.
  change (Z.max (1003 - 53) (-1074) + 1129) with 2079 in B.
  split; [exact G|].
  assert (scaled 1076 fo * 7205759403792794
          <= (2 ^ 1001 * 2 ^ 1076 + 2 ^ 2025) * 7205759403792794)
    by (apply Z.mul_le_mono_nonneg_r; lia).
  lia.
Qed.

(** The base and lead-time risk as a float. *)
Lemma lead_risk_float (A : Z) (fA : spec_float) :
  20 <= A <= 2 ^ 1002 -> Py.float_of_int A = Ok fA ->
  finite_nonneg fA /\ 19 * 2 ^ 1129 <= scaled 1129 fA < 2 ^ 2151.
Proof.
  intros HA EA.
  destruct (float_of_int_rel A 1129 ltac:(lia)) as (f & Ef & Gf & Bf).
  { split; [lia|]. assert (2 ^ 1002 < 2 ^ 1023) by (apply Z.pow_lt_mono_r; lia). lia. }
  rewrite EA in Ef. inversion Ef; subst f. clear Ef.
  split; [exact Gf|].
  assert (20 * 2 ^ 1129 <= A * 2 ^ 1129) by (apply Z.mul_le_mono_nonneg_r; lia).
  assert (A * 2 ^ 1129 <= 2 ^ 1002 * 2 ^ 1129) by (apply Z.mul_le_mono_nonneg_r; lia).
  lia.
Qed.

(** The availability of Option B, [100 - availabilityRisk], lies between 0
    and 100. *)
Lemma invert_risk_in_scale (r l : Z) (scarce risk2 : Py.num) :
  r <= 2 ^ 1000 -> l <= 2 ^ 1000 ->
  Py.mul (Py.Int (r - 20)) (Py.Float Py.lit_0_8) = Ok scarce ->
  Py.add (Py.Int (20 + Z.max 0 ((l - 10) * 2))) (Py.max (Py.Int 0) scarce) = Ok risk2 ->
  in_scale (invert (Py.min (Py.Int 95) risk2)).
Proof.
  intros Hr Hl Hs Ha.
  set (A := 20 + Z.max 0 ((l - 10) * 2)) in *.
  assert (HA : 20 <= A <= 2 ^ 1002) by (unfold A; lia).
  assert (Hint : forall z, 0 <= z <= 95 -> in_scale (invert (Py.Int (Z.min 95 z)))).
  { intros z Hz. split; cbn [invert nonneg units]; lia. }
  destruct (PyFacts.max_cases (Py.Int 0) scarce) as [[M G]|[M G]]; rewrite M in Ha.
  2: { rewrite PyFacts.add_int in Ha. inversion Ha; subst.
       rewrite PyFacts.min_int. split; cbn [invert nonneg units]; lia. }
  assert (Hr20 : 20 < r).
  { destruct (Z_le_gt_dec r 20) as [Hle|Hgt]; [|lia].
    pose proof (scarce_dropped r scarce Hle Hs) as D.
    unfold Py.max in D. rewrite G in D. rewrite D in G. vm_compute in G. discriminate G. }
  unfold Py.mul, Py.arith in Hs. cbn [Py.to_float] in Hs.
  bind_inv Hs. cbn [bind] in Hs. inversion Hs; subst scarce. clear Hs.
  destruct (scarce_finite (r - 20) v ltac:(lia) E) as (Gs & Bs).
  set (sc := SFmul Py.prec Py.emax v Py.lit_0_8) in *.
  unfold Py.add, Py.arith in Ha. cbn [Py.to_float] in Ha.
  bind_inv Ha. cbn [bind] in Ha. inversion Ha; subst risk2. clear Ha.
  destruct (lead_risk_float A v0 HA E0) as (GA & BA).
  pose proof (scaled_nonneg 1129 sc Gs ltac:(lia)) as Ns.
  destruct (SFadd_rel v0 sc 1129 ltac:(lia) GA Gs) as (Gg & Bg).
  { change (1023 + 1129) with 2152. lia. }
  set (g := SFadd Py.prec Py.emax v0 sc) in *.
  destruct (PyFacts.min_cases (Py.Int 95) (Py.Float g)) as [[-> L]|[-> _]].
  2: { split; cbn [invert nonneg units]; lia. }
  pose proof (ltb_float_int_scaled g 95 1074 Gg ltac:(lia) L) as U.
  assert (Sh : scaled 1129 g = 2 ^ 55 * scaled 1074 g)
    by (apply (scaled_shift g 1074 55); [exact Gg | lia | lia]).
  assert (Lo : 2 ^ 1074 <= scaled 1074 g) by lia.
  cbn [invert].
  destruct (SFsub_at float_100 g 1074 7 ltac:(lia) ltac:(lia)
              ltac:(simpl; lia) Gg) as (G' & B').
  - rewrite scaled_float_100. lia.
  - rewrite scaled_float_100. change (7 + 1074) with 1081. lia.
  - change (Z.max (7 - 53) (-1074) + 1074) with 1028 in B'.
    rewrite scaled_float_100 in B'.
    split; cbn [nonneg units]; [exact G' | lia].
Qed.

Lemma option_A_score : mcda_score option_A dashboard_weights = Ok (Py.Int 63).
Proof. vm_compute. reflexivity. Qed.

End OptionB.

(** X15: for a recycled content from -10 up (to [2^1000], as the lead
    time), the Eco-Design view is computed without an exception; each of
    the five metrics of Option B is a finite number between 0 and 100;
    Option A scores 63 and Option B an integer between 0 and 100. *)
Theorem render_ecodesign_in_scale (mf mt : string) (r l : Z) (t : bool) :
  -10 <= r <= 2 ^ 1000 -> l <= 2 ^ 1000 ->
  exists v s,
    render_ecodesign mf mt r l t = Ok v
    /\ (forall k, In k criteria -> exists x, optionB v !! k = Some x /\ in_scale x)
    /\ scoreA v = Py.Int 63
    /\ scoreB v = Py.Int s /\ 0 <= s <= 100.
Proof.
  intros Hr Hl.
  destruct (simulate_default_returns mf mt r l t ltac:(lia) Hl) as (res & Eres).
  pose proof (simulate_cost mf mt r l t 10 res Eres) as Hcost.
  rewrite cost_delta_pct_default in Hcost. inversion Hcost as [Hcost']. clear Hcost.
  symmetry in Hcost'. rename Hcost' into Hcost.
  destruct (simulate_Ok mf mt r l t 10 res Eres)
    as (Hcomp & _ & scarce & risk2 & Hs & Ha & Hav).
  pose proof (OptionB.invert_risk_in_scale r l scarce risk2 ltac:(lia) Hl Hs Ha) as Havail.
  rewrite <- Hav in Havail.
  set (cd := (if String.eqb mt "PET" then 8 else 0) + (if t then 2 else 0)) in *.
  assert (Hcd : 0 <= cd <= 10) by (unfold cd; destruct (String.eqb mt "PET"), t; lia).
  pose proof (material_boost_cases mf mt) as Hb.
  set (oB := bundle (complianceScore res) (Py.Int (Z.min 100 (50 + cd)))
               (invert (availabilityRisk res))
               (Py.Int (Z.min 100 (60 + (r - 20) * 2)))
               (if t then Py.Int 85 else Py.Int 60)).
  assert (HB : forall k, In k criteria -> exists x, oB !! k = Some x /\ in_scale x).
  { intros k Hk. cbn [In criteria] in Hk.
    destruct Hk as [<-|[<-|[<-|[<-|[<-|[]]]]]]; eexists; (split; [reflexivity|]).
    - rewrite Hcomp. split; cbn [nonneg units]; lia.
    - split; cbn [nonneg units]; lia.
    - exact Havail.
    - split; cbn [nonneg units]; lia.
    - destruct t; split; cbn [nonneg units]; lia. }
  destruct (Weighted.score_in_scale oB HB) as (s & Es & Hs100).
  exists {| sim := res; optionB := oB; scoreA := Py.Int 63; scoreB := Py.Int s |}, s.
  split; [|split; [exact HB | split; [reflexivity | split; [reflexivity | exact Hs100]]]].
  unfold render_ecodesign, simulate_default. rewrite Eres. cbn [bind].
  rewrite Hcost. fold cd. rewrite PyFacts.add_int. cbn [bind].
  rewrite sub_100. cbn [bind].
  rewrite PyFacts.sub_int. cbn [bind]. rewrite PyFacts.mul_int. cbn [bind].
  rewrite PyFacts.add_int. cbn [bind]. rewrite !PyFacts.min_int.
  rewrite OptionB.option_A_score. cbn [bind].
  fold oB. rewrite Es. reflexivity.
Qed.

Lemma render_ecodesign_in_scale_witness :
  exists v s,
    render_ecodesign "PVC" "PET" 22 14 true = Ok v
    /\ (forall k, In k criteria -> exists x, optionB v !! k = Some x /\ in_scale x)
    /\ scoreA v = Py.Int 63
    /\ scoreB v = Py.Int s /\ 0 <= s <= 100.
Proof.
  apply (render_ecodesign_in_scale "PVC" "PET" 22 14 true).
  - split; [lia | apply Z.leb_le; vm_compute; reflexivity].
  - apply Z.leb_le. vm_compute. reflexivity.
Defined.

